(** * The real-time voice session pipeline of [src/services/fastrtc_service.py]

    A shallow embedding of the voice-activity detector, the per-session
    record, the three-stage pipeline and the session registry, followed by
    the properties of the specification that concern them.

    Conventions of the embedding.
    - Python [float] is IEEE binary64: Rocq's primitive [float].
    - Python [int] is [Z]; [bytes] is a list of [byte]; [str] is [string],
      one character per code point below 256.
    - [time.time()] and [uuid.uuid4()] are inputs of the program: they are
      read from oracles indexed by the number of calls made so far.
    - Mutable objects are threaded as explicit state through a small state
      and exception monad; an exception keeps the mutations made before it.
    - An async generator is run to completion by its consumer; what the
      consumer does between two resumptions is a parameter of the generator. *)

From Stdlib Require Import ZArith List Ascii String Floats Lia Bool.
From Stdlib.Strings Require Import Byte.
From stdpp Require Import base option list gmap strings.

Set Warnings "-inexact-float".
Set Default Proof Using "Type".

Local Open Scope Z_scope.

(** ** Python values *)

Definition bytes := list byte.

(** [len(x)] *)
Definition len {A : Type} (l : list A) : Z := Z.of_nat (length l).

(** The exceptions that occur; all of them derive from [Exception]. *)
Inductive exn : Type :=
| Exception (msg : string)
| ZeroDivisionError
| struct_error.

Inductive Result (A : Type) : Type :=
| Ok (a : A)
| Raise (e : exn).
Arguments Ok {A} a.
Arguments Raise {A} e.

(** ** State and exception monad *)

Definition M (S A : Type) : Type := S -> Result A * S.

Definition ret {S A : Type} (a : A) : M S A := fun s => (Ok a, s).

Definition bind {S A B : Type} (c : M S A) (k : A -> M S B) : M S B :=
  fun s => match c s with
           | (Ok a, s') => k a s'
           | (Raise e, s') => (Raise e, s')
           end.

Definition raise {S A : Type} (e : exn) : M S A := fun s => (Raise e, s).

Definition get {S : Type} : M S S := fun s => (Ok s, s).

Definition modify {S : Type} (f : S -> S) : M S unit := fun s => (Ok tt, f s).

(** [try: body except Exception as e: handler e] *)
Definition try_except {S A : Type} (body : M S A) (handler : exn -> M S A) : M S A :=
  fun s => match body s with
           | (Ok a, s') => (Ok a, s')
           | (Raise e, s') => handler e s'
           end.

(** Runs a computation over a part [T] of the state [S]. *)
Definition zoom {S T A : Type} (proj : S -> T) (inj : T -> S -> S) (c : M T A) : M S A :=
  fun s => let '(r, t) := c (proj s) in (r, inj t s).

Declare Scope py_scope.
Delimit Scope py_scope with py.
Notation "'let*' x ':=' c 'in' k" := (bind c (fun x => k))
  (at level 10, x name, c at level 100, k at level 200) : py_scope.
Notation "c ';;' k" := (bind c (fun _ => k))
  (at level 100, k at level 200, right associativity) : py_scope.
Notation "'when' b 'then' c" := (if b then c else ret tt)
  (at level 10, b at level 100, c at level 200) : py_scope.

(** ** Floating point helpers *)

(** [float(n)] for a Python int, correctly rounded. *)
Definition float_of_int (n : Z) : float :=
  SF2Prim (binary_normalize prec emax n 0 false).

(** [sum(xs)] over floats: left to right, starting from [0]. *)
Definition py_sum (xs : list float) : float := fold_left PrimFloat.add xs 0%float.

(** [min(a, b)]: the first argument unless the second is smaller. *)
Definition py_min (a b : float) : float := if (b <? a)%float then b else a.

(** [x / n] for a float [x] and an int [n]. *)
Definition float_div_int {S : Type} (x : float) (n : Z) : M S float :=
  if n =? 0 then raise ZeroDivisionError else ret (x / float_of_int n)%float.

(** ** The clock *)

Record Clock : Type := mkClock {
  readings : nat -> float;   (* the value of the k-th call of time.time() *)
  ticks : nat                (* the number of calls made so far *)
}.

Definition tick (c : Clock) : Clock := mkClock (readings c) (S (ticks c)).

(** [time.time()] *)
Definition time_time : M Clock float := fun c => (Ok (readings c (ticks c)), tick c).

(** ** struct.unpack for little-endian signed 16-bit samples *)

Definition int16_le (lo hi : byte) : Z :=
  let u := Z.of_N (Byte.to_N lo) + 256 * Z.of_N (Byte.to_N hi) in
  if u <? 32768 then u else u - 65536.

Fixpoint unpack_h (buffer : bytes) : list Z :=
  match buffer with
  | lo :: hi :: rest => int16_le lo hi :: unpack_h rest
  | _ => []
  end.

(** [struct.unpack(f"<{count}h", buffer)]: the buffer must have exactly the
    size of the format. *)
Definition struct_unpack_h (count : Z) (buffer : bytes) : Result (list Z) :=
  if len buffer =? 2 * count then Ok (unpack_h buffer) else Raise struct_error.

(** ** VoiceActivityDetector *)

Module VAD.

Record VoiceActivityDetector : Type := mkVAD {
  threshold : float;
  smoothing_frames : Z;
  energy_history : list float;
  is_speaking : bool;
  silence_start : option float
}.

(** [VoiceActivityDetector(threshold=0.3, smoothing_frames=5)] *)
Definition init (threshold : float) (smoothing_frames : Z) : VoiceActivityDetector :=
  mkVAD threshold smoothing_frames [] false None.

Definition default : VoiceActivityDetector := init 0.3%float 5.

Definition set_energy_history (h : list float) (v : VoiceActivityDetector) :=
  mkVAD (threshold v) (smoothing_frames v) h (is_speaking v) (silence_start v).
Definition set_is_speaking (b : bool) (v : VoiceActivityDetector) :=
  mkVAD (threshold v) (smoothing_frames v) (energy_history v) b (silence_start v).
Definition set_silence_start (t : option float) (v : VoiceActivityDetector) :=
  mkVAD (threshold v) (smoothing_frames v) (energy_history v) (is_speaking v) t.

(** The detector's methods run over the detector and the clock. *)
Definition St : Type := VoiceActivityDetector * Clock.

Definition self_ : M St VoiceActivityDetector := fun s => (Ok (fst s), s).
Definition update (f : VoiceActivityDetector -> VoiceActivityDetector) : M St unit :=
  modify (fun s => (f (fst s), snd s)).
Definition now : M St float := zoom snd (fun c s => (fst s, c)) time_time.

(** Sum of the squares of the samples (a Python int). *)
Definition sum_squares (samples : list Z) : Z :=
  fold_left Z.add (map (fun s => s ^ 2) samples) 0.

(** [_calculate_energy]: RMS energy of 16-bit PCM normalised to 0..1.
    The quotient of the two ints is the quotient of their conversions
    (they are exact below 2^53). [x ** 0.5] is taken as the correctly
    rounded square root; the [pow] of the C library, which Python calls,
    can differ from it in the last bit, though not where the root is
    exact, as for frames of one amplitude. The method does not use
    [self]. *)
Definition _calculate_energy (audio_chunk : bytes) : float :=
  if len audio_chunk <? 2 then 0%float
  else
    match struct_unpack_h (len audio_chunk / 2) audio_chunk with
    | Ok samples =>
        match samples with
        | [] => 0%float
        | _ =>
            let rms := (float_of_int (sum_squares samples) / float_of_int (len samples))%float in
            py_min 1%float (PrimFloat.sqrt rms / 32768)%float
        end
    | Raise _ => 0%float     (* except Exception: return 0.0 *)
    end.

Local Open Scope py_scope.

(** [process]: returns [(is_speech, energy_level)]. *)
Definition process (audio_chunk : bytes) : M St (bool * float) :=
  let energy := _calculate_energy audio_chunk in
  update (fun v => set_energy_history (energy_history v ++ [energy]) v) ;;
  let* v := self_ in
  (when smoothing_frames v <? len (energy_history v)
   then update (fun v => set_energy_history (tail (energy_history v)) v)) ;;
  let* v := self_ in
  let* avg_energy := float_div_int (py_sum (energy_history v)) (len (energy_history v)) in
  let was_speaking := is_speaking v in
  update (set_is_speaking (threshold v <? avg_energy)%float) ;;
  let* v := self_ in
  (if was_speaking && negb (is_speaking v)
   then (let* t := now in update (set_silence_start (Some t)))
   else when is_speaking v then update (set_silence_start None)) ;;
  ret (is_speaking v, avg_energy).

(** [get_silence_duration_ms] *)
Definition get_silence_duration_ms : M St float :=
  let* v := self_ in
  match silence_start v with
  | None => ret 0%float
  | Some t0 => let* t := now in ret ((t - t0) * 1000)%float
  end.

End VAD.

(** ** StreamState and VoiceSession *)

Inductive StreamState : Type := IDLE | LISTENING | PROCESSING | SPEAKING | ERROR.

Record Metrics : Type := mkMetrics {
  total_audio_bytes : Z;
  stt_calls : Z;
  llm_calls : Z;
  tts_calls : Z;
  avg_latency_ms : float;
  total_latency_ms : float
}.

Record Config : Type := mkConfig {
  vad_threshold : float;
  silence_timeout_ms : Z;
  max_audio_duration_ms : Z;
  language : string;
  voice_id : string
}.

Record VoiceSession : Type := mkSession {
  session_id : string;
  user_id : string;
  state : StreamState;
  created_at : float;
  last_activity : float;
  audio_buffer : bytes;
  transcript_buffer : string;
  metrics : Metrics;
  config : Config
}.

Definition default_metrics : Metrics := mkMetrics 0 0 0 0 0%float 0%float.

Definition default_config : Config := mkConfig 0.3%float 1500 30000 "en" "default".

Definition set_state (st : StreamState) (s : VoiceSession) : VoiceSession :=
  mkSession (session_id s) (user_id s) st (created_at s) (last_activity s)
            (audio_buffer s) (transcript_buffer s) (metrics s) (config s).
Definition set_last_activity (t : float) (s : VoiceSession) : VoiceSession :=
  mkSession (session_id s) (user_id s) (state s) (created_at s) t
            (audio_buffer s) (transcript_buffer s) (metrics s) (config s).
Definition set_audio_buffer (b : bytes) (s : VoiceSession) : VoiceSession :=
  mkSession (session_id s) (user_id s) (state s) (created_at s) (last_activity s)
            b (transcript_buffer s) (metrics s) (config s).
Definition set_transcript_buffer (t : string) (s : VoiceSession) : VoiceSession :=
  mkSession (session_id s) (user_id s) (state s) (created_at s) (last_activity s)
            (audio_buffer s) t (metrics s) (config s).
Definition set_metrics (m : Metrics) (s : VoiceSession) : VoiceSession :=
  mkSession (session_id s) (user_id s) (state s) (created_at s) (last_activity s)
            (audio_buffer s) (transcript_buffer s) m (config s).

Definition add_total_audio_bytes (n : Z) (m : Metrics) : Metrics :=
  mkMetrics (total_audio_bytes m + n) (stt_calls m) (llm_calls m) (tts_calls m)
            (avg_latency_ms m) (total_latency_ms m).
Definition incr_stt_calls (m : Metrics) : Metrics :=
  mkMetrics (total_audio_bytes m) (stt_calls m + 1) (llm_calls m) (tts_calls m)
            (avg_latency_ms m) (total_latency_ms m).
Definition incr_llm_calls (m : Metrics) : Metrics :=
  mkMetrics (total_audio_bytes m) (stt_calls m) (llm_calls m + 1) (tts_calls m)
            (avg_latency_ms m) (total_latency_ms m).
Definition incr_tts_calls (m : Metrics) : Metrics :=
  mkMetrics (total_audio_bytes m) (stt_calls m) (llm_calls m) (tts_calls m + 1)
            (avg_latency_ms m) (total_latency_ms m).
Definition add_total_latency_ms (d : float) (m : Metrics) : Metrics :=
  mkMetrics (total_audio_bytes m) (stt_calls m) (llm_calls m) (tts_calls m)
            (avg_latency_ms m) (total_latency_ms m + d)%float.
Definition set_avg_latency_ms (a : float) (m : Metrics) : Metrics :=
  mkMetrics (total_audio_bytes m) (stt_calls m) (llm_calls m) (tts_calls m)
            a (total_latency_ms m).

(** ** str.strip *)

(** [c.isspace()] for a code point below 256. *)
Definition isspace (c : ascii) : bool :=
  let n := Z.of_N (N_of_ascii c) in
  ((9 <=? n) && (n <=? 13)) || ((28 <=? n) && (n <=? 32)) || (n =? 133) || (n =? 160).

Fixpoint lstrip (s : string) : string :=
  match s with
  | EmptyString => EmptyString
  | String c r => if isspace c then lstrip r else s
  end.

Fixpoint rstrip (s : string) : string :=
  match s with
  | EmptyString => EmptyString
  | String c r =>
      match rstrip r with
      | EmptyString => if isspace c then EmptyString else String c EmptyString
      | r' => String c r'
      end
  end.

Definition strip (s : string) : string := rstrip (lstrip s).

(** Truth value of a [str]: non-empty. *)
Definition truthy (s : string) : bool :=
  match s with EmptyString => false | _ => true end.

(** ** The stage handlers and the record of their calls *)

(** [Optional[Dict]]: the context handed through to the LLM handler. *)
Definition Context : Type := list (string * string).

(** What an LLM handler returns: a dict, with or without the key
    ["response"], or another object, given by its [str()]. *)
Inductive LLMResponse : Type :=
| RespDict (response : option string)
| RespOther (repr : string).

Inductive Call : Type :=
| STT (audio_data : bytes)
| LLM (transcript : string) (sid : string) (context : option Context)
| TTS (text : string).

(** The pipeline with its three handlers, taken as functions of their
    argument: what a handler returns, yields or raises. A handler does
    not read the clock here; where one does, as the default transcriber
    does for its log, the readings that follow its call come later in
    the sequence of readings than they do here. *)
Record FastRTCPipeline : Type := mkPipeline {
  llm_handler : string -> string -> option Context -> Result LLMResponse;
  stt_handler : bytes -> Result string;
  (* an async generator: the chunks it yields, then how it ends *)
  tts_handler : string -> list bytes * option exn;
  total_requests : Z;
  total_latency : float
}.

(** What surrounds the service: the oracles, the log of handler calls and
    the chunks handed to the consumer of the outermost generator. *)
Record Env : Type := mkEnv {
  clock : Clock;
  uuid4_hex : nat -> string;   (* uuid.uuid4().hex of the k-th call *)
  uuids : nat;
  calls : list Call;
  emitted : list bytes
}.

Definition set_clock (c : Clock) (e : Env) : Env :=
  mkEnv c (uuid4_hex e) (uuids e) (calls e) (emitted e).
Definition log_call (c : Call) (e : Env) : Env :=
  mkEnv (clock e) (uuid4_hex e) (uuids e) (calls e ++ [c]) (emitted e).
Definition emit (chunk : bytes) (e : Env) : Env :=
  mkEnv (clock e) (uuid4_hex e) (uuids e) (calls e) (emitted e ++ [chunk]).

(** The objects a call on one session works on: the session, the service's
    detector and pipeline, and the environment. *)
Record Ctx : Type := mkCtx {
  c_session : VoiceSession;
  c_vad : VAD.VoiceActivityDetector;
  c_pipeline : FastRTCPipeline;
  c_env : Env
}.

Definition on_session (f : VoiceSession -> VoiceSession) : M Ctx unit :=
  modify (fun c => mkCtx (f (c_session c)) (c_vad c) (c_pipeline c) (c_env c)).
Definition on_metrics (f : Metrics -> Metrics) : M Ctx unit :=
  on_session (fun s => set_metrics (f (metrics s)) s).
Definition on_pipeline (f : FastRTCPipeline -> FastRTCPipeline) : M Ctx unit :=
  modify (fun c => mkCtx (c_session c) (c_vad c) (f (c_pipeline c)) (c_env c)).
Definition on_env (f : Env -> Env) : M Ctx unit :=
  modify (fun c => mkCtx (c_session c) (c_vad c) (c_pipeline c) (f (c_env c))).

Definition session : M Ctx VoiceSession := fun c => (Ok (c_session c), c).

Definition time : M Ctx float :=
  zoom (fun c => clock (c_env c))
       (fun k c => mkCtx (c_session c) (c_vad c) (c_pipeline c) (set_clock k (c_env c)))
       time_time.

(** Runs a method of [self.vad]. *)
Definition with_vad {A : Type} (m : M VAD.St A) : M Ctx A :=
  zoom (fun c => (c_vad c, clock (c_env c)))
       (fun vk c => mkCtx (c_session c) (fst vk) (c_pipeline c) (set_clock (snd vk) (c_env c)))
       m.

Definition lift_result {S A : Type} (r : Result A) : M S A := fun s => (r, s).

Fixpoint for_each {S A : Type} (xs : list A) (body : A -> M S unit) : M S unit :=
  match xs with
  | [] => ret tt
  | x :: rest => bind (body x) (fun _ => for_each rest body)
  end.

(** ** FastRTCPipeline *)

Module Pipeline.

Local Open Scope py_scope.

(** [FastRTCPipeline(llm_handler, stt_handler, tts_handler)] *)
Definition init
    (llm : string -> string -> option Context -> Result LLMResponse)
    (stt : bytes -> Result string)
    (tts : string -> list bytes * option exn) : FastRTCPipeline :=
  mkPipeline llm stt tts 0 0%float.

Definition self_ : M Ctx FastRTCPipeline := fun c => (Ok (c_pipeline c), c).

(** [await self.stt_handler(audio_data)] *)
Definition call_stt (audio_data : bytes) : M Ctx string :=
  on_env (log_call (STT audio_data)) ;;
  let* p := self_ in
  lift_result (stt_handler p audio_data).

(** [await self.llm_handler(transcript, session.session_id, context)] *)
Definition call_llm (transcript sid : string) (context : option Context) : M Ctx LLMResponse :=
  on_env (log_call (LLM transcript sid context)) ;;
  let* p := self_ in
  lift_result (llm_handler p transcript sid context).

(** [async for audio_chunk in self.tts_handler(text): body] *)
Definition for_tts (text : string) (body : bytes -> M Ctx unit) : M Ctx unit :=
  on_env (log_call (TTS text)) ;;
  let* p := self_ in
  let '(chunks, final) := tts_handler p text in
  for_each chunks body ;;
  match final with
  | Some e => raise e
  | None => ret tt
  end.

(** [llm_response.get("response", "") if isinstance(llm_response, dict)
     else str(llm_response)] *)
Definition response_text (llm_response : LLMResponse) : string :=
  match llm_response with
  | RespDict (Some text) => text
  | RespDict None => ""
  | RespOther repr => repr
  end.

(** [yield chunk]: the chunk goes to the consumer, which runs its loop body
    on the shared session before the generator is resumed. *)
Definition yield_ (consumer : VoiceSession -> VoiceSession) (chunk : bytes) : M Ctx unit :=
  on_env (emit chunk) ;;
  on_session consumer.

Definition add_request (total_duration : float) (p : FastRTCPipeline) : FastRTCPipeline :=
  mkPipeline (llm_handler p) (stt_handler p) (tts_handler p)
             (total_requests p + 1) (total_latency p + total_duration)%float.

(** [process_audio_stream(audio_data, session, context)]. The clock is read
    before and after each stage for the durations that are logged. *)
Definition process_audio_stream (audio_data : bytes) (context : option Context)
    (consumer : VoiceSession -> VoiceSession) : M Ctx unit :=
  let* start_time := time in
  try_except
    (let* stt_start := time in
     let* transcript := call_stt audio_data in
     let* stt_end := time in
     if negb (truthy transcript) || negb (truthy (strip transcript))
     then ret tt
     else
       on_session (set_transcript_buffer transcript) ;;
       on_metrics incr_stt_calls ;;
       let* llm_start := time in
       let* s := session in
       let* llm_response := call_llm transcript (session_id s) context in
       let* llm_end := time in
       let response_text := response_text llm_response in
       on_metrics incr_llm_calls ;;
       let* tts_start := time in
       for_tts response_text (yield_ consumer) ;;
       let* tts_end := time in
       on_metrics incr_tts_calls ;;
       let* t := time in
       let total_duration := ((t - start_time) * 1000)%float in
       on_pipeline (add_request total_duration) ;;
       on_metrics (add_total_latency_ms total_duration) ;;
       let* s := session in
       let* avg := float_div_int (total_latency_ms (metrics s)) (stt_calls (metrics s)) in
       on_metrics (set_avg_latency_ms avg))
    (fun e => on_session (set_state ERROR) ;; raise e).

(** [get_stats()["avg_latency_ms"]] *)
Definition get_stats_avg_latency_ms (p : FastRTCPipeline) : float :=
  (total_latency p / float_of_int (Z.max 1 (total_requests p)))%float.

End Pipeline.

(** ** FastRTCService *)

(** The key under which [create_session] registers a session. *)
Definition key_of (s : VoiceSession) : string := session_id s.

Record ServiceConfig : Type := mkServiceConfig {
  max_sessions : Z;
  session_timeout_sec : Z;
  audio_sample_rate : Z;
  audio_channels : Z;
  audio_chunk_size : Z
}.

Record FastRTCService : Type := mkService {
  sessions : gmap string VoiceSession;
  pipeline : FastRTCPipeline;
  vad : VAD.VoiceActivityDetector;
  service_config : ServiceConfig
}.

Record World : Type := mkWorld {
  service : FastRTCService;
  env : Env
}.

Module Service.

Local Open Scope py_scope.

(** [FastRTCService()]. The pipeline is built around [self._handle_llm] and
    the default STT and TTS handlers, which call out to the agent, the
    transcriber and the synthesizer: they are given as arguments here. *)
Definition init
    (llm : string -> string -> option Context -> Result LLMResponse)
    (stt : bytes -> Result string)
    (tts : string -> list bytes * option exn) : FastRTCService :=
  mkService ∅ (Pipeline.init llm stt tts) VAD.default
            (mkServiceConfig 100 300 16000 1 4096).

Definition self_ : M World FastRTCService := fun w => (Ok (service w), w).

Definition set_sessions (m : gmap string VoiceSession) (svc : FastRTCService) : FastRTCService :=
  mkService m (pipeline svc) (vad svc) (service_config svc).

Definition on_sessions (f : gmap string VoiceSession -> gmap string VoiceSession) : M World unit :=
  modify (fun w => mkWorld (set_sessions (f (sessions (service w))) (service w)) (env w)).

(** [uuid.uuid4().hex] *)
Definition uuid4 : M World string :=
  fun w => let e := env w in
           (Ok (uuid4_hex e (uuids e)),
            mkWorld (service w) (mkEnv (clock e) (uuid4_hex e) (S (uuids e)) (calls e) (emitted e))).

Definition now : M World float :=
  zoom (fun w => clock (env w)) (fun k w => mkWorld (service w) (set_clock k (env w))) time_time.

(** [VoiceSession(session_id=..., user_id=...)]: the two default factories
    read the clock in field order. *)
Definition new_session (session_id user_id : string) : M World VoiceSession :=
  let* created_at := now in
  let* last_activity := now in
  ret (mkSession session_id user_id IDLE created_at last_activity [] ""
                 default_metrics default_config).

(** [create_session(user_id)] *)
Definition create_session (user_id : string) : M World VoiceSession :=
  let* hex := uuid4 in
  let session_id := String.append "rtc_" (substring 0 12 hex) in
  let* session := new_session session_id user_id in
  on_sessions (insert session_id session) ;;
  ret session.

(** [get_session(session_id)] *)
Definition get_session (session_id : string) : M World (option VoiceSession) :=
  let* self := self_ in
  ret (sessions self !! session_id).

(** [end_session(session_id)] *)
Definition end_session (session_id : string) : M World bool :=
  let* self := self_ in
  match sessions self !! session_id with
  | Some _ => on_sessions (delete session_id) ;; ret true
  | None => ret false
  end.

(** Runs the rest of a method on the session object found under [key]: the
    object is shared with the registry, so what the body does to it is seen
    under [key], also when the body raises. *)
Definition with_session {A : Type} (key : string) (s : VoiceSession) (body : M Ctx A) : M World A :=
  fun w =>
    let svc := service w in
    let '(r, c) := body (mkCtx s (vad svc) (pipeline svc) (env w)) in
    (r, mkWorld (mkService (<[key := c_session c]> (sessions svc))
                           (c_pipeline c) (c_vad c) (service_config svc))
                (c_env c)).

Definition nonempty (b : bytes) : bool :=
  match b with [] => false | _ => true end.

(** [process_audio_chunk(session_id, audio_chunk)] *)
Definition process_audio_chunk (session_id : string) (audio_chunk : bytes) : M World unit :=
  let* found := get_session session_id in
  match found with
  | None => ret tt
  | Some s =>
      with_session session_id s
        (let* t := time in
         on_session (set_last_activity t) ;;
         on_metrics (add_total_audio_bytes (len audio_chunk)) ;;
         let* r := with_vad (VAD.process audio_chunk) in
         let is_speech := fst r in
         if is_speech
         then
           on_session (fun s => set_audio_buffer (audio_buffer s ++ audio_chunk) s) ;;
           on_session (set_state LISTENING)
         else
           let* silence_duration := with_vad VAD.get_silence_duration_ms in
           let* s := session in
           if (float_of_int (silence_timeout_ms (config s)) <=? silence_duration)%float
              && nonempty (audio_buffer s)
           then
             on_session (set_state PROCESSING) ;;
             let audio_to_process := audio_buffer s in
             on_session (set_audio_buffer []) ;;
             Pipeline.process_audio_stream audio_to_process None (set_state SPEAKING) ;;
             on_session (set_state IDLE)
           else ret tt)
  end.

(** [process_complete_audio(session_id, audio_data, context)] *)
Definition process_complete_audio (session_id : string) (audio_data : bytes)
    (context : option Context) : M World unit :=
  let* found := get_session session_id in
  let* s := match found with
            | Some s => ret s
            | None => create_session "anonymous"
            end in
  with_session (match found with Some _ => session_id | None => key_of s end) s
    (on_session (set_state PROCESSING) ;;
     Pipeline.process_audio_stream audio_data context (set_state SPEAKING) ;;
     on_session (set_state IDLE)).

End Service.

(** ** Running computations *)

Definition result_of {S A : Type} (c : M S A) (s : S) : Result A := fst (c s).
Definition state_after {S A : Type} (c : M S A) (s : S) : S := snd (c s).

(** The registry of a world and the session registered under an id. *)
Definition registry (w : World) : gmap string VoiceSession := sessions (service w).
Definition lookup_session (sid : string) (w : World) : option VoiceSession := registry w !! sid.

(** The transport's loop over the inbound frames of one session
    ([_process_audio] in [src/api/fastrtc_websocket.py]): each frame is run
    through [process_audio_chunk] to the end, an exception is caught and
    reported to the client, and the next frame is taken. *)
Fixpoint feed (sid : string) (frames : list bytes) (w : World) : World :=
  match frames with
  | [] => w
  | f :: rest => feed sid rest (state_after (Service.process_audio_chunk sid f) w)
  end.

(** ** Auxiliary notions of the statements *)

(** The smoothing window after a push: the oldest entry goes once the
    window is longer than [smoothing_frames]. *)
Definition window (smoothing_frames : Z) (h : list float) : list float :=
  if smoothing_frames <? len h then tail h else h.

(** The arithmetic mean as the code computes it. *)
Definition mean (h : list float) : float := (py_sum h / float_of_int (len h))%float.

Definition is_ok {A : Type} (r : Result A) : bool :=
  match r with Ok _ => true | Raise _ => false end.

(** "Empty or whitespace-only", in the words of the specification. *)
Definition whitespace_only (t : string) : bool :=
  forallb isspace (list_ascii_of_string t).

(** The test of the code: [not transcript or not transcript.strip()]. *)
Definition blank (t : string) : bool :=
  negb (truthy t) || negb (truthy (strip t)).

Inductive Stage : Type := StageSTT | StageLLM | StageTTS.

(** The first stage whose handler raises when an utterance is run through
    the three stages, and what it raises. *)
Definition stage_failure (p : FastRTCPipeline) (sid : string) (audio_data : bytes)
    (context : option Context) : option (Stage * exn) :=
  match stt_handler p audio_data with
  | Raise e => Some (StageSTT, e)
  | Ok transcript =>
      if blank transcript then None
      else
        match llm_handler p transcript sid context with
        | Raise e => Some (StageLLM, e)
        | Ok llm_response =>
            match snd (tts_handler p (Pipeline.response_text llm_response)) with
            | Some e => Some (StageTTS, e)
            | None => None
            end
        end
  end.

(** Stage [a] comes no later than stage [b]. *)
Definition stage_le (a b : Stage) : bool :=
  match a, b with
  | StageSTT, _ => true
  | StageLLM, StageSTT => false
  | StageLLM, _ => true
  | StageTTS, StageTTS => true
  | StageTTS, _ => false
  end.

(** The counter of a stage. *)
Definition stage_calls (st : Stage) (m : Metrics) : Z :=
  match st with
  | StageSTT => stt_calls m
  | StageLLM => llm_calls m
  | StageTTS => tts_calls m
  end.

(** The part of [process_audio_chunk] that runs once the session is found. *)
Definition chunk_body (audio_chunk : bytes) : M Ctx unit :=
  (let* t := time in
   on_session (set_last_activity t) ;;
   on_metrics (add_total_audio_bytes (len audio_chunk)) ;;
   let* r := with_vad (VAD.process audio_chunk) in
   let is_speech := fst r in
   if is_speech
   then
     on_session (fun s => set_audio_buffer (audio_buffer s ++ audio_chunk) s) ;;
     on_session (set_state LISTENING)
   else
     let* silence_duration := with_vad VAD.get_silence_duration_ms in
     let* s := session in
     if (float_of_int (silence_timeout_ms (config s)) <=? silence_duration)%float
        && Service.nonempty (audio_buffer s)
     then
       on_session (set_state PROCESSING) ;;
       let audio_to_process := audio_buffer s in
       on_session (set_audio_buffer []) ;;
       Pipeline.process_audio_stream audio_to_process None (set_state SPEAKING) ;;
       on_session (set_state IDLE)
     else ret tt)%py.

(** The objects a call on the session [s] works on, in the world [w]. *)
Definition ctx_of (s : VoiceSession) (w : World) : Ctx :=
  mkCtx s (vad (service w)) (pipeline (service w)) (env w).

(** Observations on the session registered under an id. *)
Definition buffer_len (sid : string) (w : World) : option Z :=
  option_map (fun s => len (audio_buffer s)) (lookup_session sid w).
Definition state_of (sid : string) (w : World) : option StreamState :=
  option_map state (lookup_session sid w).
Definition metrics_of (sid : string) (w : World) : option Metrics :=
  option_map metrics (lookup_session sid w).

(** Modelled from the spec: "max_audio_duration_ms converted to bytes".
    The code has no such conversion; this is the size of that much 16-bit
    PCM audio at the sample rate and channel count of the service. *)
Definition max_audio_bytes (cfg : Config) (sc : ServiceConfig) : Z :=
  max_audio_duration_ms cfg * audio_sample_rate sc * audio_channels sc * 2 / 1000.

(** The utterances handed to the orchestrator: each run of the pipeline
    starts by calling the transcriber on the audio it was given. *)
Definition dispatched_in (cs : list Call) : list bytes :=
  flat_map (fun c => match c with STT audio_data => [audio_data] | _ => [] end) cs.
Definition dispatched (e : Env) : list bytes := dispatched_in (calls e).

(** The detector after a frame of energy [e] was processed, in closed form. *)
Definition speech_after (v : VAD.VoiceActivityDetector) (e : float) : bool :=
  (VAD.threshold v <? mean (window (VAD.smoothing_frames v) (VAD.energy_history v ++ [e])))%float.

Definition vad_after (v : VAD.VoiceActivityDetector) (e : float) (k : Clock) : VAD.St :=
  let h := window (VAD.smoothing_frames v) (VAD.energy_history v ++ [e]) in
  let b := speech_after v e in
  if VAD.is_speaking v && negb b
  then (VAD.mkVAD (VAD.threshold v) (VAD.smoothing_frames v) h b (Some (readings k (ticks k))),
        tick k)
  else if b
  then (VAD.mkVAD (VAD.threshold v) (VAD.smoothing_frames v) h b None, k)
  else (VAD.mkVAD (VAD.threshold v) (VAD.smoothing_frames v) h b (VAD.silence_start v), k).

(** The silence measured on a detector at the next reading of the clock. *)
Definition silence_ms (v : VAD.VoiceActivityDetector) (k : Clock) : float :=
  match VAD.silence_start v with
  | None => 0%float
  | Some t0 => ((readings k (ticks k) - t0) * 1000)%float
  end.

(** The transport's loop, on the objects of the session. *)
Fixpoint feed_ctx (frames : list bytes) (c : Ctx) : Ctx :=
  match frames with
  | [] => c
  | f :: rest => feed_ctx rest (state_after (chunk_body f) c)
  end.

(** The session after the bookkeeping that opens [process_audio_chunk]. *)
Definition touched (s : VoiceSession) (t : float) (f : bytes) : VoiceSession :=
  set_metrics (add_total_audio_bytes (len f) (metrics s)) (set_last_activity t s).

(** What the buffering of one session depends on: the detector, the
    buffer and the config of the session, the clock, and the utterances
    dispatched so far. *)
Definition view (c : Ctx)
  : VAD.VoiceActivityDetector * bytes * Config * Clock * list bytes :=
  (c_vad c, audio_buffer (c_session c), config (c_session c), clock (c_env c),
   dispatched (c_env c)).

(** The test that ends an utterance, on the session and the detector as
    they are once a frame was classified as silence. *)
Definition boundary (c : Ctx) (f : bytes) : bool :=
  let k0 := tick (clock (c_env c)) in
  let v1 := fst (vad_after (c_vad c) (VAD._calculate_energy f) k0) in
  let k1 := snd (vad_after (c_vad c) (VAD._calculate_energy f) k0) in
  (float_of_int (silence_timeout_ms (config (c_session c))) <=? silence_ms v1 k1)%float
  && Service.nonempty (audio_buffer (c_session c)).

(** The clock after a frame that was classified as silence. *)
Definition clock_after_silence (c : Ctx) (f : bytes) : Clock :=
  let k0 := tick (clock (c_env c)) in
  let v1 := fst (vad_after (c_vad c) (VAD._calculate_energy f) k0) in
  let k1 := snd (vad_after (c_vad c) (VAD._calculate_energy f) k0) in
  match VAD.silence_start v1 with None => k1 | Some _ => tick k1 end.

(** The service's detector, with its default threshold and window. *)
Definition detector (h : list float) (speaking : bool) (since : option float)
  : VAD.VoiceActivityDetector :=
  VAD.mkVAD 0.3%float 5 h speaking since.

(** Full-scale and silent frames, by their energy. *)
Definition full_scale (f : bytes) : Prop := VAD._calculate_energy f = 1%float.
Definition silent (f : bytes) : Prop := VAD._calculate_energy f = 0%float.


(** The silence, in milliseconds, between the readings [since] and [i]. *)
Definition measured (rd : nat -> float) (since i : nat) : float :=
  ((rd i - rd since) * 1000)%float.

(** The silence measured between two readings has reached the default
    timeout. *)
Definition timed_out (rd : nat -> float) (since i : nat) : bool :=
  (float_of_int (silence_timeout_ms default_config) <=? measured rd since i)%float.

(** ** Concrete worlds for the examples *)

Module Examples.

Local Open Scope string_scope.

(** A clock that advances by one second per reading. *)
Definition seconds (k : nat) : float := float_of_int (Z.of_nat k).

Definition hex_digit (n : nat) : ascii :=
  nth n (list_ascii_of_string "0123456789abcdef") "0"%char.

(** Distinct 32-digit hex strings for the first 256 draws. *)
Definition hex_of_draw (k : nat) : string :=
  String (hex_digit (k / 16)) (String (hex_digit (k mod 16))
    "000000000000000000000000000000").

Definition env0 : Env := mkEnv (mkClock seconds 0) hex_of_draw 0 [] [].

(** Handlers: the transcriber hears "hello" in any audio, except in audio
    that starts with a zero byte after which it hears "boom"; the agent
    fails on "boom" and answers anything else; the synthesizer yields two
    chunks. *)
Definition stt (audio_data : bytes) : Result string :=
  match audio_data with
  | x00 :: _ => Ok "boom"
  | _ => Ok "hello"
  end.

Definition llm (transcript sid : string) (context : option Context) : Result LLMResponse :=
  if String.eqb transcript "boom" then Raise (Exception "agent down")
  else Ok (RespDict (Some "hi there")).

Definition tts (text : string) : list bytes * option exn :=
  ([[x01; x02]; [x03; x04]], None).

Definition fresh : World := mkWorld (Service.init llm stt tts) env0.

(** 2048 samples of -32768: full-scale audio, energy 1.0. *)
Definition loud : bytes := concat (repeat [x00; x80] 2048).

(** 2048 samples of 0: silence, energy 0.0. *)
Definition quiet : bytes := repeat x00 4096.

(** The registry after [n] sessions were created on a fresh service. *)
Definition crowded (n : nat) : World :=
  Nat.iter n (state_after (Service.create_session "anonymous")) fresh.

End Examples.

(** Two sessions on a fresh service, and their ids. *)
Definition two_sessions : World := Examples.crowded 2.
Definition alice : string := "rtc_000000000000".
Definition bob : string := "rtc_010000000000".

(** The session that [create_session] registers first on the fresh service
    of the examples. *)
Definition alice_session : VoiceSession :=
  mkSession alice "anonymous" IDLE (Examples.seconds 0) (Examples.seconds 1)
            [] "" default_metrics default_config.

(** ** Further notions: the detector over a run of frames *)

(** The detector and the clock after a run of frames, each passed to
    [process]; a frame on which [process] raises leaves what it did. *)
Fixpoint vad_feed (frames : list bytes) (st : VAD.St) : VAD.St :=
  match frames with
  | [] => st
  | f :: rest => vad_feed rest (state_after (VAD.process f) st)
  end.

(** ** Further notions: the pipeline *)

(** The three stages all return for this utterance: the transcript is not
    blank and no handler raises. *)
Definition completes (p : FastRTCPipeline) (sid : string) (audio_data : bytes)
    (context : option Context) : bool :=
  match stt_handler p audio_data with
  | Raise _ => false
  | Ok transcript =>
      if blank transcript then false
      else
        match llm_handler p transcript sid context with
        | Raise _ => false
        | Ok llm_response =>
            match snd (tts_handler p (Pipeline.response_text llm_response)) with
            | Some _ => false
            | None => true
            end
        end
  end.

(** A synthesizer that yields one chunk and then fails. *)
Definition tts_breaks (text : string) : list bytes * option exn :=
  ([[x01; x02]], Some (Exception "synthesizer down")).

(** The objects of a call on the first session of the examples. *)
Definition alice_ctx : Ctx :=
  mkCtx alice_session VAD.default
        (Pipeline.init Examples.llm Examples.stt Examples.tts) Examples.env0.

(** ** Further notions: the service *)

(** The part of [process_complete_audio] that runs on the session. *)
Definition complete_body (audio_data : bytes) (context : option Context) : M Ctx unit :=
  (on_session (set_state PROCESSING) ;;
   Pipeline.process_audio_stream audio_data context (set_state SPEAKING) ;;
   on_session (set_state IDLE))%py.

(** [(now - session.last_activity) > timeout]: the timeout is an int, which
    is compared as the float of the same value. *)
Definition is_stale (now : float) (timeout : Z) (s : VoiceSession) : bool :=
  (float_of_int timeout <? now - last_activity s)%float.

(** [cleanup_stale_sessions()]: the ids of the stale sessions are collected
    first, then each is ended. The order in which the dict is walked shows
    only in the log. *)
Definition cleanup_stale_sessions : M World Z :=
  (let* now := Service.now in
   let* self := Service.self_ in
   let timeout := session_timeout_sec (service_config self) in
   let stale_sessions :=
     map fst (List.filter (fun item => is_stale now timeout (snd item))
                          (map_to_list (sessions self))) in
   for_each stale_sessions (fun sid => let* _ := Service.end_session sid in ret tt) ;;
   ret (len stale_sessions))%py.

(** A world whose uuid source keeps drawing the same value, with one
    session registered. *)
Definition colliding : World :=
  state_after (Service.create_session "first")
    (mkWorld (Service.init Examples.llm Examples.stt Examples.tts)
             (mkEnv (mkClock Examples.seconds 0)
                    (fun _ => "0123456789abcdef0123456789abcdef"%string) 0 [] [])).

(** A world at the boundary of an utterance: the one session has two bytes
    buffered, the detector fell silent at time 0, and the clock stands at
    its tenth reading. *)
Definition at_boundary : World :=
  mkWorld
    (mkService
       {[ alice := set_audio_buffer [x01; x02] alice_session ]}
       (Pipeline.init Examples.llm Examples.stt Examples.tts)
       (VAD.mkVAD 0.3%float 5 [0; 0; 0; 0; 0]%float false (Some 0%float))
       (mkServiceConfig 100 300 16000 1 4096))
    (mkEnv (mkClock Examples.seconds 10) Examples.hex_of_draw 1 [] []).

(** The registry without the sessions of a list of ids. *)
Definition remove_all (ids : list string) (m : gmap string VoiceSession)
  : gmap string VoiceSession :=
  fold_left (fun m sid => delete sid m) ids m.

(** ** Further notions: the handlers the service installs by default *)

(** [str(e)]: the message an exception was built with; the messages of the
    built-in errors are the interpreter's, given by [builtin]. *)
Definition exn_str (builtin : exn -> string) (e : exn) : string :=
  match e with
  | Exception msg => msg
  | _ => builtin e
  end.

(** [llm_agent.process_message_fast(user_message, conversation_id, context)] *)
Definition Agent : Type := string -> string -> option Context -> Result LLMResponse.

Definition apology (builtin : exn -> string) (e : exn) : string :=
  "I apologize, but I encountered an error: " +:+ exn_str builtin e.

Definition echo (transcript : string) : string :=
  "I heard: '" +:+ transcript
  +:+ "'. FastRTC is working! Connect an LLM agent for intelligent responses.".

(** [FastRTCService._handle_llm(transcript, session_id, context)], for the
    agent the service holds. *)
Definition _handle_llm (builtin : exn -> string) (llm_agent : option Agent)
    (transcript session_id : string) (context : option Context) : Result LLMResponse :=
  match llm_agent with
  | Some agent =>
      match agent transcript session_id context with
      | Ok result => Ok result
      | Raise e => Ok (RespDict (Some (apology builtin e)))
      end
  | None => Ok (RespDict (Some (echo transcript)))
  end.

(** What the body of the [try] of [WhisperProcessor.transcribe] does with
    the loaded model: the audio goes to a temporary file, the model
    transcribes it, and the entry ["text"] of its result, if there is one,
    is what comes back; any of the steps may raise. *)
Definition WhisperModel : Type := bytes -> Result (option string).

(** [WhisperProcessor.transcribe(audio_bytes)]. Its two readings of the
    clock go to the log only and are left out. *)
Definition transcribe (builtin : exn -> string) (model : option WhisperModel)
    (audio_bytes : bytes) : string :=
  match model with
  | None => "Error: Whisper model not loaded"
  | Some m =>
      match m audio_bytes with
      | Ok text => strip (default "" text)
      | Raise e => "Error: " +:+ exn_str builtin e
      end
  end.

(** [FastRTCPipeline._default_stt(audio_data)]: the entry ["transcript"] of
    the dict that [transcribe_audio] builds around [transcribe]. The two
    readings of the clock in [transcribe_audio], which go to the entry
    ["duration"], are left out, and so is the [except] branch that
    returns an empty transcript: [transcribe] does not raise, so the
    branch is reached only when the module cannot be imported. *)
Definition _default_stt (builtin : exn -> string) (model : option WhisperModel)
    (audio_data : bytes) : Result string :=
  Ok (transcribe builtin model audio_data).

(** The model is missing, or fails on this audio. *)
Definition model_fails (model : option WhisperModel) (audio_bytes : bytes) : bool :=
  match model with
  | None => true
  | Some m => negb (is_ok (m audio_bytes))
  end.

(** [max(a, b)]: the first argument unless the second is larger. *)
Definition py_max (a b : float) : float := if (a <? b)%float then b else a.

(** [int(x)] for a float: the fraction is cut off; infinities and NaN have
    no integer. *)
Definition int_of_float (x : float) : Result Z :=
  match Prim2SF x with
  | S754_zero _ => Ok 0
  | S754_finite s m e =>
      let v := if 0 <=? e then Z.pos m * 2 ^ e else Z.pos m / 2 ^ (- e) in
      Ok (if s then - v else v)
  | S754_infinity _ => Raise (Exception "cannot convert float infinity to integer")
  | S754_nan => Raise (Exception "cannot convert float NaN to integer")
  end.

(** [range(0, stop, step)] for a positive step. *)
Definition range_step (stop step : Z) : list Z :=
  map (fun k => Z.of_nat k * step) (seq 0 (Z.to_nat ((stop + step - 1) / step))).

(** [random.randint(a, b)], from the [k]-th draw of the generator. *)
Definition randint (draws : nat -> nat) (a b : Z) (k : nat) : Z :=
  a + Z.of_nat (draws k) mod (b - a + 1).

(** [bytes([v])] for a value in [range(256)]. *)
Definition byte_of_int (v : Z) : byte :=
  match Byte.of_N (Z.to_N v) with
  | Some b => b
  | None => x00
  end.

(** [bytes([random.randint(127, 129) for _ in range(n)])], from the [k]-th
    draw on. *)
Fixpoint random_bytes (draws : nat -> nat) (k n : nat) : bytes :=
  match n with
  | O => []
  | S n' => byte_of_int (randint draws 127 129 k) :: random_bytes draws (S k) n'
  end.

(** [int(sample_rate * duration_sec)] with
    [duration_sec = max(0.5, len(text) / 20)]. *)
Definition num_samples (text : string) : Result Z :=
  let sample_rate := 16000 in
  let duration_sec :=
    py_max 0.5%float (float_of_int (Z.of_nat (String.length text)) / 20)%float in
  int_of_float (float_of_int sample_rate * duration_sec)%float.

(** The loop of [_default_tts] over the offsets [i], from the [k]-th draw
    on. *)
Fixpoint tts_chunks (draws : nat -> nat) (k : nat) (num_samples : Z) (offsets : list Z)
  : list bytes :=
  match offsets with
  | [] => []
  | i :: rest =>
      let n := Z.to_nat (Z.min 4096 (num_samples - i)) in
      random_bytes draws k n :: tts_chunks draws (k + n) num_samples rest
  end.

(** [FastRTCPipeline._default_tts(text)]: the chunks it yields and how it
    ends; what is raised inside is logged and ends the generator. *)
Definition _default_tts (draws : nat -> nat) (text : string) : list bytes * option exn :=
  let chunk_size := 4096 in
  match num_samples text with
  | Ok n => (tts_chunks draws 0 n (range_step n chunk_size), None)
  | Raise _ => ([], None)
  end.

(** The value of a byte. *)
Definition byte_value (b : byte) : Z := Z.of_N (Byte.to_N b).

(** The values the placeholder audio is made of. *)
Definition placeholder (b : byte) : Prop := 127 <= byte_value b <= 129.


(** ** Further notions: what the detector hears in a run of energies *)

(** The window of a detector with the default settings after one more
    energy. *)
Definition slide (h : list float) (e : float) : list float := window 5 (h ++ [e]).

(** The window after a run of energies. *)
Definition slid (h : list float) (es : list float) : list float := fold_left slide es h.

(** Whether a detector with the default threshold takes its window for
    speech. *)
Definition speech_in (h : list float) : bool := (0.3 <? mean h)%float.

(** What a detector with the default settings and the window [h] hears in
    a run of frames, given by their energies: for each frame, whether the
    mean of the window, the frame included, exceeds the threshold. *)
Fixpoint hears (h : list float) (es : list float) : list bool :=
  match es with
  | [] => []
  | e :: rest => speech_in (slide h e) :: hears (slide h e) rest
  end.

(** The same for a new detector. *)
Definition heard (es : list float) : list bool := hears [] es.

(** A window after which silence is heard as silence, however long it
    lasts. *)
Definition quiet (h : list float) : Prop :=
  forall n : nat, hears h (repeat 0%float n) = repeat false n.

(** 2048 samples of 11000: speech just above the threshold, energy 0.3357. *)
Definition soft : bytes := concat (repeat [xf8; x2a] 2048).

(** 2048 samples of 16384: half scale, energy 0.5. *)
Definition half : bytes := concat (repeat [x00; x40] 2048).


(** * Properties *)

(** ** The session registry *)

Section Registry.

Implicit Types (w : World) (sid : string).

Lemma get_session_lookup sid w :
  Service.get_session sid w = (Ok (lookup_session sid w), w).
Proof. reflexivity. Qed.

Lemma end_session_found sid w s :
  lookup_session sid w = Some s ->
  Service.end_session sid w =
    (Ok true, mkWorld (Service.set_sessions (delete sid (registry w)) (service w)) (env w)).
Proof.
  unfold lookup_session, registry. intros H.
  unfold Service.end_session, bind, Service.self_. simpl. rewrite H. reflexivity.
Qed.

Lemma end_session_missing sid w :
  lookup_session sid w = None -> Service.end_session sid w = (Ok false, w).
Proof.
  unfold lookup_session, registry. intros H.
  unfold Service.end_session, bind, Service.self_. simpl. rewrite H. reflexivity.
Qed.

Lemma end_session_registry sid w :
  registry (state_after (Service.end_session sid) w) = delete sid (registry w).
Proof.
  unfold state_after. destruct (lookup_session sid w) as [s|] eqn:H.
  - rewrite (end_session_found _ _ _ H). reflexivity.
  - rewrite (end_session_missing _ _ H). simpl.
    symmetry. apply delete_id. exact H.
Qed.

(** C9: [end_session] answers true exactly on the call that finds the
    session, that call removes it and nothing else from the registry, and
    every later call for the same id answers false and changes nothing. *)
Theorem end_session_once sid w :
  let w1 := state_after (Service.end_session sid) w in
  (result_of (Service.end_session sid) w = Ok true <-> is_Some (lookup_session sid w))
  /\ result_of (Service.end_session sid) w
     = Ok (bool_decide (is_Some (lookup_session sid w)))
  /\ registry w1 = delete sid (registry w)
  /\ lookup_session sid w1 = None
  /\ (forall n : nat,
        Nat.iter n (state_after (Service.end_session sid)) w1 = w1)
  /\ Service.end_session sid w1 = (Ok false, w1).
Proof.
  intros w1.
  assert (Hreg : registry w1 = delete sid (registry w)) by apply end_session_registry.
  assert (Hnone : lookup_session sid w1 = None).
  { unfold lookup_session. rewrite Hreg. apply lookup_delete_eq. }
  assert (Hagain : Service.end_session sid w1 = (Ok false, w1))
    by (apply end_session_missing; exact Hnone).
  assert (Hres : result_of (Service.end_session sid) w
                 = Ok (bool_decide (is_Some (lookup_session sid w)))).
  { unfold result_of. destruct (lookup_session sid w) as [s|] eqn:H.
    - rewrite (end_session_found _ _ _ H). reflexivity.
    - rewrite (end_session_missing _ _ H). reflexivity. }
  split; [| split; [exact Hres | split; [exact Hreg | split; [exact Hnone | split; [| exact Hagain]]]]].
  - rewrite Hres. split.
    + intros H. injection H as H. apply bool_decide_eq_true_1 in H. exact H.
    + intros H. rewrite bool_decide_eq_true_2; [reflexivity | exact H].
  - induction n as [|n IH]; simpl; [reflexivity|].
    rewrite IH. unfold state_after. rewrite Hagain. reflexivity.
Qed.

(** C10: a frame for an id that is not registered yields nothing, raises
    nothing and leaves the whole world, the registry and every session in
    it, as it was. *)
Theorem process_audio_chunk_unknown_session sid w (audio_chunk : bytes) :
  lookup_session sid w = None ->
  Service.process_audio_chunk sid audio_chunk w = (Ok tt, w).
Proof.
  unfold lookup_session, registry. intros H.
  unfold Service.process_audio_chunk, bind. rewrite get_session_lookup.
  unfold lookup_session, registry. rewrite H. reflexivity.
Qed.

End Registry.

Section Capacity.

(** The session that [create_session] makes, and where it puts it. *)
Lemma created_session_lookup (user : string) (w : World) :
  let sid := String.append "rtc_" (substring 0 12 (uuid4_hex (env w) (uuids (env w)))) in
  let k := clock (env w) in
  lookup_session sid (state_after (Service.create_session user) w)
  = Some (mkSession sid user IDLE (readings k (ticks k)) (readings k (S (ticks k)))
                    [] "" default_metrics default_config).
Proof.
  cbv zeta. unfold lookup_session, state_after. simpl. apply lookup_insert_eq.
Qed.

(** C3, as the code has it: [create_session] never fails, whatever the
    number of live sessions; it returns a new session in state IDLE with
    the default config, registers it under its id and keeps every session
    registered under another id. *)
Theorem create_session_never_fails (user : string) (w : World) :
  let sid := String.append "rtc_" (substring 0 12 (uuid4_hex (env w) (uuids (env w)))) in
  let w' := state_after (Service.create_session user) w in
  exists s : VoiceSession,
    result_of (Service.create_session user) w = Ok s
    /\ session_id s = sid /\ user_id s = user
    /\ state s = IDLE /\ config s = default_config
    /\ audio_buffer s = [] /\ metrics s = default_metrics
    /\ registry w' = <[sid := s]> (registry w)
    /\ lookup_session sid w' = Some s
    /\ (forall k, k <> sid -> lookup_session k w' = lookup_session k w).
Proof.
  intros sid w'.
  eexists. split; [reflexivity|].
  repeat split.
  - unfold lookup_session, w', state_after. simpl. apply lookup_insert_eq.
  - intros k Hk. unfold lookup_session, w', state_after. simpl.
    apply lookup_insert_ne. intros E. apply Hk. symmetry. exact E.
Qed.

(** C3 fails as stated: with [max_sessions] = 100 sessions registered, the
    next [create_session] succeeds and the registry holds 101 sessions. *)
Lemma create_session_beyond_capacity :
  let w := Examples.crowded 100 in
  Z.of_nat (size (registry w)) = max_sessions (service_config (service w))
  /\ is_ok (result_of (Service.create_session "late") w) = true
  /\ size (registry (state_after (Service.create_session "late") w)) = 101%nat.
Proof. vm_compute. repeat split. Qed.

End Capacity.

(** Witness of C10: the id was never registered. *)
Lemma process_audio_chunk_unknown_session_witness :
  lookup_session "rtc_nobody" Examples.fresh = None
  /\ Service.process_audio_chunk "rtc_nobody" Examples.quiet Examples.fresh
     = (Ok tt, Examples.fresh).
Proof.
  split; [reflexivity|].
  apply (process_audio_chunk_unknown_session "rtc_nobody" Examples.fresh Examples.quiet).
  reflexivity.
Defined.

(** ** The voice-activity detector *)

Section Detector.

Import VAD.

Lemma len_nonneg {A : Type} (l : list A) : 0 <= len l.
Proof. unfold len. lia. Qed.

Lemma len_app {A : Type} (l1 l2 : list A) : len (l1 ++ l2) = len l1 + len l2.
Proof. unfold len. rewrite length_app. lia. Qed.

Lemma len_tail {A : Type} (l : list A) : l <> [] -> len (tail l) = len l - 1.
Proof. destruct l as [|x l]; [congruence|]. intros _. unfold len. simpl. lia. Qed.

Lemma window_nonempty (n : Z) (h : list float) :
  1 <= n -> h <> [] -> len (window n h) <> 0.
Proof.
  intros Hn Hh. unfold window. destruct (n <? len h) eqn:E.
  - apply Z.ltb_lt in E. rewrite len_tail by exact Hh. lia.
  - destruct h; [congruence|]. unfold len. simpl. lia.
Qed.

(** A frame of fewer than two bytes, or of odd length, has energy 0.0:
    the first by the length test, the second because [struct.unpack]
    rejects a buffer that is not exactly [2 * (len // 2)] bytes long. *)
Lemma calculate_energy_short_or_odd (f : bytes) :
  len f < 2 \/ Z.odd (len f) = true -> _calculate_energy f = 0%float.
Proof.
  intros H. unfold _calculate_energy.
  destruct (len f <? 2) eqn:E; [reflexivity|].
  apply Z.ltb_ge in E. destruct H as [H|H]; [lia|].
  unfold struct_unpack_h.
  destruct (len f =? 2 * (len f / 2)) eqn:E2; [|reflexivity].
  apply Z.eqb_eq in E2. rewrite E2 in H.
  rewrite Z.odd_mul in H. discriminate.
Qed.

(** What [process] does, for any frame: it pushes the frame's energy into
    the window and answers with the mean of the window. *)
Lemma process_returns_mean (v : VoiceActivityDetector) (k : Clock) (f : bytes) :
  1 <= smoothing_frames v ->
  let h := window (smoothing_frames v) (energy_history v ++ [_calculate_energy f]) in
  exists v' k',
    process f (v, k) = (Ok ((threshold v <? mean h)%float, mean h), (v', k'))
    /\ energy_history v' = h
    /\ is_speaking v' = (threshold v <? mean h)%float
    /\ threshold v' = threshold v /\ smoothing_frames v' = smoothing_frames v.
Proof.
  intros Hn h.
  assert (Hlen : len h <> 0).
  { apply window_nonempty; [exact Hn|]. destruct (energy_history v); discriminate. }
  unfold process, bind, update, modify, self_, float_div_int, ret. simpl.
  fold (window (smoothing_frames v) (energy_history v ++ [_calculate_energy f])).
  unfold window in *.
  destruct (smoothing_frames v <? len (energy_history v ++ [_calculate_energy f])) eqn:E;
    simpl; fold h.
  all: destruct (len h =? 0) eqn:E0; [apply Z.eqb_eq in E0; congruence|]; simpl.
  all: fold (mean h).
  all: destruct (is_speaking v); destruct (threshold v <? mean h)%float; simpl.
  all: do 2 eexists; split; [reflexivity|]; simpl; auto.
Qed.

(** [process] in closed form. *)
Lemma process_closed_form (v : VoiceActivityDetector) (k : Clock) (f : bytes) :
  1 <= smoothing_frames v ->
  process f (v, k) =
    (Ok (speech_after v (_calculate_energy f),
         mean (window (smoothing_frames v) (energy_history v ++ [_calculate_energy f]))),
     vad_after v (_calculate_energy f) k).
Proof.
  intros Hn.
  set (h := window (smoothing_frames v) (energy_history v ++ [_calculate_energy f])).
  assert (Hlen : len h <> 0).
  { apply window_nonempty; [exact Hn|]. destruct (energy_history v); discriminate. }
  unfold vad_after, speech_after. fold h.
  unfold process, bind, update, modify, self_, float_div_int, ret, now, zoom, time_time. simpl.
  fold (window (smoothing_frames v) (energy_history v ++ [_calculate_energy f])).
  fold h. unfold window in h.
  destruct (smoothing_frames v <? len (energy_history v ++ [_calculate_energy f])) eqn:E;
    simpl; fold h.
  all: destruct (len h =? 0) eqn:E0; [apply Z.eqb_eq in E0; congruence|]; simpl.
  all: fold (mean h).
  all: destruct (is_speaking v); destruct (threshold v <? mean h)%float; reflexivity.
Qed.

Lemma get_silence_duration_closed_form (v : VoiceActivityDetector) (k : Clock) :
  get_silence_duration_ms (v, k) =
    (Ok (silence_ms v k),
     (v, match silence_start v with None => k | Some _ => tick k end)).
Proof.
  unfold get_silence_duration_ms, silence_ms, self_, now, bind, zoom, time_time, ret. simpl.
  destruct (silence_start v); reflexivity.
Qed.

(** C7, as the code has it: a frame shorter than two bytes or of odd
    length has energy 0.0 of its own and [process] does not raise on it;
    what [process] returns is the mean of the smoothing window after that
    0.0 was pushed, which is 0.0 on a fresh detector. *)
Theorem process_short_or_odd_frame (v : VoiceActivityDetector) (k : Clock) (f : bytes) :
  1 <= smoothing_frames v ->
  len f < 2 \/ Z.odd (len f) = true ->
  let h := window (smoothing_frames v) (energy_history v ++ [0%float]) in
  _calculate_energy f = 0%float
  /\ result_of (process f) (v, k) = Ok ((threshold v <? mean h)%float, mean h)
  /\ (energy_history v = [] -> mean h = 0%float).
Proof.
  intros Hn Hf h.
  pose proof (calculate_energy_short_or_odd f Hf) as He.
  split; [exact He|]. split.
  - destruct (process_returns_mean v k f Hn) as (v' & k' & Hp & _).
    rewrite He in Hp. unfold result_of. rewrite Hp. reflexivity.
  - intros Hh. unfold h. rewrite Hh. unfold window. simpl.
    destruct (smoothing_frames v <? len [0%float]) eqn:E.
    + apply Z.ltb_lt in E. unfold len in E. simpl in E. lia.
    + reflexivity.
Qed.

(** Witness of C7: the one-byte frame of the test suite on a fresh detector. *)
Lemma process_short_or_odd_frame_witness :
  1 <= smoothing_frames default
  /\ (len [x80] < 2 \/ Z.odd (len [x80]) = true)
  /\ result_of (process [x80]) (default, clock Examples.env0) = Ok (false, 0%float).
Proof.
  assert (H1 : 1 <= smoothing_frames default) by (vm_compute; discriminate).
  assert (H2 : len [x80] < 2 \/ Z.odd (len [x80]) = true) by (left; reflexivity).
  split; [exact H1|]. split; [exact H2|].
  exact (proj1 (proj2 (process_short_or_odd_frame default (clock Examples.env0) [x80] H1 H2))).
Defined.

(** C7 fails as stated: on a detector whose window holds the energy 1.0 of
    an earlier frame, the empty frame is answered with energy 0.5, and
    classified as speech. *)
Lemma process_empty_frame_after_speech :
  result_of (process []) (mkVAD 0.3%float 5 [1%float] true None, clock Examples.env0)
  = Ok (true, 0.5%float).
Proof. reflexivity. Qed.

End Detector.

(** ** The pipeline *)

(** Symbolic execution of the monadic code on a state given by its
    components: unfolds the combinators and the accessors, up to the next
    call of a handler or test on the input. *)
Ltac run_monad :=
  cbv beta iota zeta delta
    [bind ret raise get modify try_except zoom lift_result
     time time_time tick on_session on_metrics on_pipeline on_env session
     set_clock log_call emit with_vad
     Pipeline.self_ Pipeline.call_stt Pipeline.call_llm Pipeline.for_tts
     Pipeline.process_audio_stream Pipeline.add_request
     c_session c_vad c_pipeline c_env
     clock uuid4_hex uuids calls emitted readings ticks
     fst snd float_div_int].

(** The same, leaving a call of the pipeline folded. *)
Ltac run_body :=
  cbv beta iota zeta delta
    [bind ret raise get modify try_except zoom lift_result
     time time_time tick on_session on_metrics on_pipeline on_env session
     set_clock log_call emit with_vad chunk_body
     c_session c_vad c_pipeline c_env
     clock uuid4_hex uuids calls emitted readings ticks
     fst snd].

Section PipelineProperties.

Import Pipeline.

Implicit Types (c : Ctx) (consumer : VoiceSession -> VoiceSession).

Lemma lstrip_whitespace (t : string) :
  whitespace_only t = true -> lstrip t = EmptyString.
Proof.
  unfold whitespace_only. induction t as [|a t IH]; simpl; [reflexivity|].
  intros H. apply andb_prop in H as [Ha Ht]. rewrite Ha. apply IH. exact Ht.
Qed.

Lemma lstrip_head (t : string) :
  whitespace_only t = false ->
  exists a r, lstrip t = String a r /\ isspace a = false.
Proof.
  unfold whitespace_only. induction t as [|a t IH]; simpl; [discriminate|].
  intros H. destruct (isspace a) eqn:Ha.
  - simpl in H. apply IH. exact H.
  - exists a, t. split; [reflexivity | exact Ha].
Qed.

Lemma rstrip_head (a : ascii) (r : string) :
  isspace a = false -> truthy (rstrip (String a r)) = true.
Proof.
  intros Ha. simpl. destruct (rstrip r); [rewrite Ha|]; reflexivity.
Qed.

(** The test of the code is the test of the specification. *)
Lemma blank_whitespace_only (t : string) : blank t = whitespace_only t.
Proof.
  unfold blank. destruct (whitespace_only t) eqn:W.
  - unfold strip. rewrite (lstrip_whitespace t W). simpl. apply orb_true_r.
  - destruct (lstrip_head t W) as (a & r & Hl & Ha).
    assert (Ht : truthy t = true).
    { destruct t; [discriminate W | reflexivity]. }
    rewrite Ht. unfold strip. rewrite Hl. rewrite (rstrip_head a r Ha). reflexivity.
Qed.

(** The loop that forwards the chunks of the synthesizer. *)
Lemma for_each_yield consumer (chunks : list bytes) c :
  for_each chunks (yield_ consumer) c =
    (Ok tt,
     mkCtx (fold_left (fun s _ => consumer s) chunks (c_session c))
           (c_vad c) (c_pipeline c)
           (mkEnv (clock (c_env c)) (uuid4_hex (c_env c)) (uuids (c_env c))
                  (calls (c_env c)) (emitted (c_env c) ++ chunks))).
Proof.
  revert c. induction chunks as [|x chunks IH]; intros c.
  - simpl. unfold ret. rewrite app_nil_r. destruct c as [s v p [[rd tk] u n cs em]]. reflexivity.
  - simpl. unfold bind at 1. unfold yield_ at 1, bind, on_env, on_session, modify. simpl.
    rewrite IH. simpl. rewrite <- app_assoc. reflexivity.
Qed.

Lemma fold_consumer_metrics consumer (chunks : list bytes) (s : VoiceSession) :
  (forall s, metrics (consumer s) = metrics s) ->
  metrics (fold_left (fun s _ => consumer s) chunks s) = metrics s.
Proof.
  intros H. revert s. induction chunks as [|x chunks IH]; intros s; simpl; [reflexivity|].
  rewrite IH. apply H.
Qed.

(** C6: when the transcriber returns an empty or whitespace-only
    transcript, the pipeline ends normally without yielding a chunk, the
    only handler called is the transcriber, and the session (with its
    transcript buffer and all its counters) and the pipeline's own counters
    are as before. *)
Theorem blank_transcript_ends_pipeline c consumer (audio_data : bytes)
    (context : option Context) (transcript : string) :
  stt_handler (c_pipeline c) audio_data = Ok transcript ->
  whitespace_only transcript = true ->
  let c' := state_after (process_audio_stream audio_data context consumer) c in
  result_of (process_audio_stream audio_data context consumer) c = Ok tt
  /\ emitted (c_env c') = emitted (c_env c)
  /\ calls (c_env c') = calls (c_env c) ++ [STT audio_data]
  /\ c_session c' = c_session c
  /\ c_pipeline c' = c_pipeline c.
Proof.
  intros Hstt Hw. rewrite <- blank_whitespace_only in Hw. unfold blank in Hw.
  destruct c as [s v p [[rd tk] u n cs em]]. simpl in Hstt.
  unfold result_of, state_after.
  run_monad. rewrite Hstt. run_monad. rewrite Hw. run_monad.
  repeat split.
Qed.

(** Witness of C6: a transcriber that returns a string of blanks. *)
Lemma blank_transcript_ends_pipeline_witness :
  let p := Pipeline.init Examples.llm (fun _ => Ok "  "%string) Examples.tts in
  let s := mkSession alice "anonymous" IDLE 0%float 0%float [] "" default_metrics
                     default_config in
  let c := mkCtx s VAD.default p Examples.env0 in
  whitespace_only "  " = true
  /\ result_of (process_audio_stream [x01; x02] None (set_state SPEAKING)) c = Ok tt
  /\ calls (c_env (state_after (process_audio_stream [x01; x02] None (set_state SPEAKING)) c))
     = [STT [x01; x02]]
  /\ c_session (state_after (process_audio_stream [x01; x02] None (set_state SPEAKING)) c) = s.
Proof.
  intros p s c.
  assert (Hw : whitespace_only "  " = true) by reflexivity.
  destruct (blank_transcript_ends_pipeline c (set_state SPEAKING) [x01; x02] None "  "
              eq_refl Hw) as (Hr & _ & Hc & Hs & _).
  split; [exact Hw|]. split; [exact Hr|]. split; [exact Hc | exact Hs].
Defined.


(** What a failing stage leaves behind, on the objects of the call. *)
Lemma pipeline_stage_failure c consumer (audio_data : bytes) (context : option Context)
    (stage : Stage) (e : exn) :
  (forall s, metrics (consumer s) = metrics s) ->
  stage_failure (c_pipeline c) (session_id (c_session c)) audio_data context
    = Some (stage, e) ->
  let c' := state_after (process_audio_stream audio_data context consumer) c in
  result_of (process_audio_stream audio_data context consumer) c = Raise e
  /\ state (c_session c') = ERROR
  /\ (forall st, stage_le stage st = true ->
        stage_calls st (metrics (c_session c')) = stage_calls st (metrics (c_session c)))
  /\ total_requests (c_pipeline c') = total_requests (c_pipeline c).
Proof.
  intros Hcons Hfail.
  destruct c as [s v p [[rd tk] u n cs em]]. simpl in Hfail.
  unfold stage_failure in Hfail. unfold result_of, state_after.
  run_monad.
  destruct (stt_handler p audio_data) as [transcript|e1] eqn:Hstt.
  - unfold blank in Hfail. run_monad.
    destruct (negb (truthy transcript) || negb (truthy (strip transcript))) eqn:Hb;
      [discriminate|].
    run_monad. simpl session_id.
    destruct (llm_handler p transcript (session_id s) context) as [resp|e2] eqn:Hllm.
    + run_monad.
      destruct (tts_handler p (response_text resp)) as [chunks final] eqn:Htts.
      simpl in Hfail. destruct final as [e3|]; [|discriminate].
      injection Hfail as <- <-.
      rewrite for_each_yield. run_monad. simpl.
      repeat split.
      all: intros st Hst; destruct st; try discriminate; simpl.
      all: rewrite fold_consumer_metrics by exact Hcons; reflexivity.
    + injection Hfail as <- <-. run_monad. simpl.
      repeat split.
      all: intros st Hst; destruct st; try discriminate; reflexivity.
  - injection Hfail as <- <-. run_monad. simpl.
    repeat split.
Qed.

(** The pipeline does not touch the detector. *)
Lemma process_audio_stream_keeps_vad c consumer (audio_data : bytes) (context : option Context) :
  c_vad (state_after (process_audio_stream audio_data context consumer) c) = c_vad c.
Proof.
  destruct c as [s v p [[rd tk] u n cs em]]. unfold state_after.
  run_monad.
  destruct (stt_handler p audio_data) as [transcript|e1]; [|reflexivity].
  run_monad.
  destruct (negb (truthy transcript) || negb (truthy (strip transcript))); [reflexivity|].
  run_monad.
  destruct (llm_handler p _ _ context) as [resp|e2]; [|reflexivity].
  run_monad.
  destruct (tts_handler p (response_text resp)) as [chunks final].
  rewrite for_each_yield. run_monad.
  destruct final as [e3|]; [reflexivity|].
  run_monad.
  match goal with |- context [if ?b then _ else _] => destruct b end; reflexivity.
Qed.

Lemma fold_consumer_preserves {B : Type} (proj : VoiceSession -> B) consumer
    (chunks : list bytes) (s : VoiceSession) :
  (forall s, proj (consumer s) = proj s) ->
  proj (fold_left (fun s _ => consumer s) chunks s) = proj s.
Proof.
  intros H. revert s. induction chunks as [|x chunks IH]; intros s; simpl; [reflexivity|].
  rewrite IH. apply H.
Qed.

Lemma dispatched_in_app (cs1 cs2 : list Call) :
  dispatched_in (cs1 ++ cs2) = dispatched_in cs1 ++ dispatched_in cs2.
Proof. unfold dispatched_in. apply flat_map_app. Qed.

(** Whatever the handlers do, a run of the pipeline is one utterance
    dispatched; it leaves the buffer and the config of the session and the
    readings of the clock alone. *)
Lemma process_audio_stream_frame c (audio_data : bytes) (context : option Context) :
  let c' := state_after (process_audio_stream audio_data context (set_state SPEAKING)) c in
  audio_buffer (c_session c') = audio_buffer (c_session c)
  /\ config (c_session c') = config (c_session c)
  /\ dispatched (c_env c') = dispatched (c_env c) ++ [audio_data]
  /\ readings (clock (c_env c')) = readings (clock (c_env c)).
Proof.
  destruct c as [s v p [[rd tk] u n cs em]]. unfold state_after.
  assert (Hb : forall chunks s0,
             audio_buffer (fold_left (fun s _ => set_state SPEAKING s) chunks s0)
             = audio_buffer s0)
    by (intros; apply (fold_consumer_preserves audio_buffer); reflexivity).
  assert (Hc : forall chunks s0,
             config (fold_left (fun s _ => set_state SPEAKING s) chunks s0) = config s0)
    by (intros; apply (fold_consumer_preserves config); reflexivity).
  unfold dispatched.
  run_monad.
  destruct (stt_handler p audio_data) as [transcript|e1].
  2: { simpl. rewrite dispatched_in_app. repeat split. }
  run_monad.
  destruct (negb (truthy transcript) || negb (truthy (strip transcript))).
  { simpl. rewrite dispatched_in_app. repeat split. }
  run_monad.
  destruct (llm_handler p _ _ context) as [resp|e2].
  2: { simpl. rewrite !dispatched_in_app. simpl. rewrite app_nil_r. repeat split. }
  run_monad.
  destruct (tts_handler p (response_text resp)) as [chunks final].
  rewrite for_each_yield. run_monad.
  destruct final as [e3|].
  { simpl. rewrite Hb, Hc, !dispatched_in_app. simpl. rewrite !app_nil_r. repeat split. }
  run_monad.
  match goal with |- context [if ?b then _ else _] => destruct b end.
  all: simpl; rewrite Hb, Hc, !dispatched_in_app; simpl; rewrite !app_nil_r; repeat split.
Qed.

End PipelineProperties.

Section StageFailure.

Lemma with_session_run {A : Type} (sid : string) (s : VoiceSession) (body : M Ctx A) (w : World) :
  Service.with_session sid s body w =
    (fst (body (ctx_of s w)),
     let c := snd (body (ctx_of s w)) in
     mkWorld (mkService (<[sid := c_session c]> (registry w)) (c_pipeline c) (c_vad c)
                        (service_config (service w)))
             (c_env c)).
Proof.
  unfold Service.with_session, ctx_of, registry.
  destruct (body _) as [r c]. reflexivity.
Qed.

Lemma process_audio_chunk_found (sid : string) (s : VoiceSession) (f : bytes) (w : World) :
  lookup_session sid w = Some s ->
  Service.process_audio_chunk sid f w = Service.with_session sid s (chunk_body f) w.
Proof.
  intros H. unfold Service.process_audio_chunk. unfold bind at 1.
  rewrite get_session_lookup. rewrite H. reflexivity.
Qed.

(** C5: when a stage handler raises while the pipeline runs on a registered
    session, the exception reaches the caller, and at that moment the
    session is registered under its id, [get_session] returns it, its state
    is ERROR, and the counter of the failed stage and of every later stage
    is what it was before the call. *)
Theorem stage_failure_flags_session (w : World) (sid : string) (s : VoiceSession)
    (consumer : VoiceSession -> VoiceSession)
    (audio_data : bytes) (context : option Context) (stage : Stage) (e : exn) :
  lookup_session sid w = Some s ->
  (forall s, metrics (consumer s) = metrics s) ->
  stage_failure (pipeline (service w)) (session_id s) audio_data context = Some (stage, e) ->
  let call := Service.with_session sid s
                (Pipeline.process_audio_stream audio_data context consumer) in
  let w' := state_after call w in
  result_of call w = Raise e
  /\ exists s' : VoiceSession,
       Service.get_session sid w' = (Ok (Some s'), w')
       /\ state s' = ERROR
       /\ (forall st, stage_le stage st = true ->
             stage_calls st (metrics s') = stage_calls st (metrics s)).
Proof.
  intros Hs Hcons Hfail call w'.
  destruct (pipeline_stage_failure (ctx_of s w) consumer audio_data context stage e
              Hcons Hfail) as (Hres & Hstate & Hcalls & _).
  unfold result_of, state_after in *.
  unfold w', call. rewrite with_session_run. simpl.
  split; [exact Hres|].
  eexists. rewrite get_session_lookup.
  unfold lookup_session, registry. simpl. rewrite lookup_insert_eq.
  repeat split; assumption.
Qed.

(** Witness of C5: the agent of the examples fails on the transcript
    "boom", which the transcriber hears in audio starting with a zero byte. *)
Lemma stage_failure_flags_session_witness :
  let w := state_after (Service.create_session "user") Examples.fresh in
  let sid := "rtc_000000000000"%string in
  exists s s',
    lookup_session sid w = Some s
    /\ Service.get_session sid
         (state_after (Service.with_session sid s
            (Pipeline.process_audio_stream [x00; x01] None (set_state SPEAKING))) w)
       = (Ok (Some s'),
          state_after (Service.with_session sid s
            (Pipeline.process_audio_stream [x00; x01] None (set_state SPEAKING))) w)
    /\ state s' = ERROR
    /\ llm_calls (metrics s') = llm_calls (metrics s).
Proof.
  intros w sid.
  assert (Hs : lookup_session sid w
               = Some (mkSession sid "user" IDLE (Examples.seconds 0) (Examples.seconds 1)
                                 [] "" default_metrics default_config))
    by reflexivity.
  destruct (stage_failure_flags_session w sid _ (set_state SPEAKING) [x00; x01] None
              StageLLM (Exception "agent down") Hs (fun s => eq_refl) eq_refl)
    as (_ & s' & Hget & Hstate & Hcalls).
  eexists. exists s'. split; [exact Hs|]. split; [exact Hget|]. split; [exact Hstate|].
  exact (Hcalls StageLLM eq_refl).
Defined.

End StageFailure.

(** ** One detector for the whole service *)

Section SharedDetector.

Lemma get_silence_duration_keeps_vad (v : VAD.VoiceActivityDetector) (k : Clock) :
  fst (state_after VAD.get_silence_duration_ms (v, k)) = v.
Proof.
  unfold state_after, VAD.get_silence_duration_ms, VAD.self_, VAD.now, bind, zoom, time_time, ret.
  simpl. destruct (VAD.silence_start v); reflexivity.
Qed.

(** The detector after a frame was processed for a session, whatever the
    session: the service's detector advanced by that frame. *)
Lemma chunk_body_vad (c : Ctx) (f : bytes) :
  c_vad (state_after (chunk_body f) c)
  = fst (state_after (VAD.process f) (c_vad c, tick (clock (c_env c)))).
Proof.
  destruct c as [s v p [[rd tk] u n cs em]]. unfold state_after, chunk_body.
  run_body.
  destruct (VAD.process f (v, _)) as [[[b en]|ex] [v' k']]; [|reflexivity].
  run_body. destruct b; [reflexivity|].
  pose proof (get_silence_duration_keeps_vad v' k') as Hsil. unfold state_after in Hsil.
  destruct (VAD.get_silence_duration_ms (v', k')) as [[d|ex] [v'' k'']]; simpl in Hsil; subst v''.
  2: reflexivity.
  run_body.
  match goal with |- context [if ?b then _ else _] => destruct b end; [|reflexivity].
  run_body.
  match goal with
  | |- context [Pipeline.process_audio_stream ?a ?x ?cons ?c0] =>
      pose proof (process_audio_stream_keeps_vad c0 cons a x) as Hp;
      unfold state_after in Hp;
      destruct (Pipeline.process_audio_stream a x cons c0) as [[[]|ex] c1]
  end; simpl in Hp; rewrite <- Hp; reflexivity.
Qed.

(** C1, as the code has it: the service owns one detector, and a frame
    processed for any registered session reads and advances that one
    detector; the session for which the frame came plays no part in it. *)
Theorem one_detector_for_all_sessions (w : World) (sid : string) (s : VoiceSession) (f : bytes) :
  lookup_session sid w = Some s ->
  vad (service (state_after (Service.process_audio_chunk sid f) w))
  = fst (state_after (VAD.process f) (vad (service w), tick (clock (env w)))).
Proof.
  intros Hs. unfold state_after at 1.
  rewrite (process_audio_chunk_found sid s f w Hs), with_session_run. simpl.
  apply (chunk_body_vad (ctx_of s w) f).
Qed.

(** Witness of C1: a silent frame for the second of two sessions. *)
Lemma one_detector_for_all_sessions_witness :
  exists s,
    lookup_session bob two_sessions = Some s
    /\ vad (service (state_after (Service.process_audio_chunk bob Examples.quiet) two_sessions))
       = VAD.mkVAD 0.3%float 5 [0%float] false None.
Proof.
  assert (Hs : lookup_session bob two_sessions
               = Some (mkSession bob "anonymous" IDLE (Examples.seconds 2) (Examples.seconds 3)
                                 [] "" default_metrics default_config))
    by reflexivity.
  eexists. split; [exact Hs|].
  exact (one_detector_for_all_sessions two_sessions bob _ Examples.quiet Hs).
Defined.

(** C1 fails as stated: a silent frame for one session is left out of its
    buffer when it comes alone, but is classified as speech and buffered
    when a loud frame for another session came just before; the window of
    the detector then holds the energies of both sessions' frames. *)
Lemma detector_leaks_between_sessions :
  let alone := feed bob [Examples.quiet] two_sessions in
  let mixed := feed bob [Examples.quiet]
                 (feed alice [Examples.loud] two_sessions) in
  alice <> bob
  /\ buffer_len bob alone = Some 0 /\ state_of bob alone = Some IDLE
  /\ buffer_len bob mixed = Some 4096 /\ state_of bob mixed = Some LISTENING
  /\ VAD.energy_history (vad (service mixed)) = [1%float; 0%float].
Proof.
  split; [discriminate|]. vm_compute. repeat split.
Qed.

End SharedDetector.

(** ** Latency metrics *)

Section Latency.

Import Pipeline.

(** What a fully successful utterance does to the metrics of its session:
    each counter goes up by one, the elapsed time is added to the total,
    and the average is the total divided by [stt_calls]. *)
Lemma successful_utterance_metrics (c : Ctx) (consumer : VoiceSession -> VoiceSession)
    (audio_data : bytes) (context : option Context)
    (transcript : string) (resp : LLMResponse) (chunks : list bytes) :
  (forall s, metrics (consumer s) = metrics s) ->
  stt_handler (c_pipeline c) audio_data = Ok transcript ->
  blank transcript = false ->
  llm_handler (c_pipeline c) transcript (session_id (c_session c)) context = Ok resp ->
  tts_handler (c_pipeline c) (response_text resp) = (chunks, None) ->
  stt_calls (metrics (c_session c)) + 1 <> 0 ->
  let m := metrics (c_session c) in
  let k := clock (c_env c) in
  let d := ((readings k (ticks k + 7) - readings k (ticks k)) * 1000)%float in
  result_of (process_audio_stream audio_data context consumer) c = Ok tt
  /\ metrics (c_session (state_after (process_audio_stream audio_data context consumer) c))
     = mkMetrics (total_audio_bytes m) (stt_calls m + 1) (llm_calls m + 1) (tts_calls m + 1)
                 ((total_latency_ms m + d) / float_of_int (stt_calls m + 1))%float
                 (total_latency_ms m + d)%float.
Proof.
  intros Hcons Hstt Hb Hllm Htts Hnz.
  destruct c as [s v p [[rd tk] u n cs em]]. simpl in *.
  unfold blank in Hb. unfold result_of, state_after.
  run_monad. rewrite Hstt. run_monad. rewrite Hb. run_monad.
  simpl session_id. rewrite Hllm. run_monad. rewrite Htts.
  rewrite for_each_yield. run_monad. simpl.
  rewrite !fold_consumer_metrics by exact Hcons. simpl.
  destruct (stt_calls (metrics s) + 1 =? 0) eqn:E; [apply Z.eqb_eq in E; congruence|].
  simpl.
  replace (S (S (S (S (S (S (S tk))))))) with (tk + 7)%nat by lia.
  split; reflexivity.
Qed.

(** C8 at a failing input: a first utterance whose LLM stage raises (its
    transcript was counted in [stt_calls]), then a second, successful one
    that took 7000 ms. One utterance was completed, the total latency is
    7000 ms, and the session's average comes out as 3500 ms; the pipeline's
    own statistics, which divide by the completed requests, say 7000 ms. *)
Theorem avg_latency_counts_failed_utterances :
  let w1 := Examples.crowded 1 in
  let w2 := state_after (Service.process_complete_audio alice [x00; x01] None) w1 in
  let w3 := state_after (Service.process_complete_audio alice [x01; x02] None) w2 in
  result_of (Service.process_complete_audio alice [x00; x01] None) w1
    = Raise (Exception "agent down")
  /\ result_of (Service.process_complete_audio alice [x01; x02] None) w2 = Ok tt
  /\ metrics_of alice w3 = Some (mkMetrics 0 2 1 1 3500%float 7000%float)
  /\ total_requests (pipeline (service w3)) = 1
  /\ get_stats_avg_latency_ms (pipeline (service w3)) = 7000%float.
Proof. vm_compute. repeat split. Qed.

End Latency.

(** ** Buffering and dispatch of an utterance *)

Section Utterance.

Implicit Types (c : Ctx) (f : bytes).

(** One frame, in closed form: the frame is buffered when the detector
    hears speech; otherwise the buffer is dispatched when the measured
    silence has reached the timeout and the buffer is not empty. *)
Lemma chunk_body_closed_form c f :
  1 <= VAD.smoothing_frames (c_vad c) ->
  chunk_body f c =
    let k0 := clock (c_env c) in
    let s1 := touched (c_session c) (readings k0 (ticks k0)) f in
    let e := VAD._calculate_energy f in
    let v1 := fst (vad_after (c_vad c) e (tick k0)) in
    let k1 := snd (vad_after (c_vad c) e (tick k0)) in
    if speech_after (c_vad c) e
    then (Ok tt,
          mkCtx (set_state LISTENING (set_audio_buffer (audio_buffer s1 ++ f) s1))
                v1 (c_pipeline c) (set_clock k1 (c_env c)))
    else
      let k2 := match VAD.silence_start v1 with None => k1 | Some _ => tick k1 end in
      if (float_of_int (silence_timeout_ms (config s1)) <=? silence_ms v1 k1)%float
         && Service.nonempty (audio_buffer s1)
      then
        bind (Pipeline.process_audio_stream (audio_buffer s1) None (set_state SPEAKING))
             (fun _ => on_session (set_state IDLE))
             (mkCtx (set_audio_buffer [] (set_state PROCESSING s1))
                    v1 (c_pipeline c) (set_clock k2 (c_env c)))
      else (Ok tt, mkCtx s1 v1 (c_pipeline c) (set_clock k2 (c_env c))).
Proof.
  intros Hn. destruct c as [s v p [[rd tk] u n cs em]]. simpl in Hn.
  cbv zeta. unfold touched.
  run_body. rewrite (process_closed_form v _ f Hn).
  destruct (vad_after v (VAD._calculate_energy f) (mkClock rd (S tk))) as [v1 k1].
  run_body.
  destruct (speech_after v (VAD._calculate_energy f)); [reflexivity|].
  rewrite get_silence_duration_closed_form. run_body.
  cbn [metrics config audio_buffer set_metrics set_last_activity].
  match goal with |- (if ?b then _ else _) _ = _ => destruct b end; reflexivity.
Qed.

Lemma touched_buffer (s : VoiceSession) (t : float) f :
  audio_buffer (touched s t f) = audio_buffer s.
Proof. reflexivity. Qed.

Lemma touched_config (s : VoiceSession) (t : float) f :
  config (touched s t f) = config s.
Proof. reflexivity. Qed.

(** A frame in which the detector hears speech is appended to the buffer,
    whatever the length of the buffer; nothing is dispatched. *)
Lemma view_speech c f :
  1 <= VAD.smoothing_frames (c_vad c) ->
  speech_after (c_vad c) (VAD._calculate_energy f) = true ->
  result_of (chunk_body f) c = Ok tt
  /\ view (state_after (chunk_body f) c)
     = (fst (vad_after (c_vad c) (VAD._calculate_energy f) (tick (clock (c_env c)))),
        audio_buffer (c_session c) ++ f,
        config (c_session c),
        snd (vad_after (c_vad c) (VAD._calculate_energy f) (tick (clock (c_env c)))),
        dispatched (c_env c))
  /\ state (c_session (state_after (chunk_body f) c)) = LISTENING
  /\ emitted (c_env (state_after (chunk_body f) c)) = emitted (c_env c).
Proof.
  intros Hn Hsp. unfold result_of, state_after.
  rewrite (chunk_body_closed_form c f Hn). cbv zeta. rewrite Hsp.
  destruct c as [s v p [k u n cs em]]. repeat split.
Qed.

(** A frame of silence before the boundary changes nothing but the
    detector and the clock. *)
Lemma view_silence c f :
  1 <= VAD.smoothing_frames (c_vad c) ->
  speech_after (c_vad c) (VAD._calculate_energy f) = false ->
  boundary c f = false ->
  view (state_after (chunk_body f) c)
  = (fst (vad_after (c_vad c) (VAD._calculate_energy f) (tick (clock (c_env c)))),
     audio_buffer (c_session c), config (c_session c),
     clock_after_silence c f, dispatched (c_env c)).
Proof.
  intros Hn Hsp Hb. unfold state_after.
  rewrite (chunk_body_closed_form c f Hn). cbv zeta. rewrite Hsp.
  unfold boundary in Hb. rewrite touched_buffer, touched_config, Hb.
  destruct c as [s v p [k u n cs em]]. reflexivity.
Qed.

(** A frame of silence at the boundary hands the buffer to the pipeline
    and leaves it empty. *)
Lemma view_dispatch c f :
  1 <= VAD.smoothing_frames (c_vad c) ->
  speech_after (c_vad c) (VAD._calculate_energy f) = false ->
  boundary c f = true ->
  exists k' : Clock,
    view (state_after (chunk_body f) c)
    = (fst (vad_after (c_vad c) (VAD._calculate_energy f) (tick (clock (c_env c)))),
       [], config (c_session c), k',
       dispatched (c_env c) ++ [audio_buffer (c_session c)]).
Proof.
  intros Hn Hsp Hb. unfold state_after.
  rewrite (chunk_body_closed_form c f Hn). cbv zeta. rewrite Hsp.
  unfold boundary in Hb. rewrite touched_buffer, touched_config, Hb.
  match goal with
  | |- context [bind (Pipeline.process_audio_stream ?a ?x ?cons) ?k ?c0] =>
      pose proof (process_audio_stream_frame c0 a x) as Hf;
      pose proof (process_audio_stream_keeps_vad c0 cons a x) as Hv;
      unfold state_after in Hf, Hv; cbv zeta in Hf;
      unfold bind;
      destruct (Pipeline.process_audio_stream a x cons c0) as [[[]|ex] c1]
  end.
  all: destruct Hf as (Hf1 & Hf2 & Hf3 & _); simpl in Hf1, Hf2, Hf3, Hv.
  all: exists (clock (c_env c1)); unfold view; simpl.
  all: rewrite Hf1, Hf2, Hf3, Hv.
  all: destruct c as [s v p [k u n cs em]]; reflexivity.
Qed.

(** What one frame does to the buffer, by what the detector makes of it. *)
Lemma chunk_body_buffer c f :
  let s := c_session c in
  let heard := (c_vad c, tick (clock (c_env c))) in
  let c' := state_after (chunk_body f) c in
  let s' := c_session c' in
  config s' = config s
  /\ match result_of (VAD.process f) heard with
     | Ok (true, _) =>
         result_of (chunk_body f) c = Ok tt
         /\ audio_buffer s' = audio_buffer s ++ f
         /\ state s' = LISTENING
         /\ dispatched (c_env c') = dispatched (c_env c)
         /\ emitted (c_env c') = emitted (c_env c)
     | Ok (false, _) =>
         match result_of VAD.get_silence_duration_ms
                 (state_after (VAD.process f) heard) with
         | Ok silence_duration =>
             if (float_of_int (silence_timeout_ms (config s)) <=? silence_duration)%float
                && Service.nonempty (audio_buffer s)
             then audio_buffer s' = []
                  /\ dispatched (c_env c') = dispatched (c_env c) ++ [audio_buffer s]
             else result_of (chunk_body f) c = Ok tt
                  /\ audio_buffer s' = audio_buffer s
                  /\ state s' = state s
                  /\ dispatched (c_env c') = dispatched (c_env c)
                  /\ emitted (c_env c') = emitted (c_env c)
         | Raise e =>
             result_of (chunk_body f) c = Raise e
             /\ audio_buffer s' = audio_buffer s
             /\ dispatched (c_env c') = dispatched (c_env c)
             /\ emitted (c_env c') = emitted (c_env c)
         end
     | Raise e =>
         result_of (chunk_body f) c = Raise e
         /\ audio_buffer s' = audio_buffer s
         /\ dispatched (c_env c') = dispatched (c_env c)
         /\ emitted (c_env c') = emitted (c_env c)
     end.
Proof.
  destruct c as [s v p [[rd tk] u n cs em]]. cbv zeta.
  unfold result_of, state_after. run_body.
  destruct (VAD.process f (v, mkClock rd (S tk))) as [[[b en]|ex] [v' k']].
  2: { simpl. repeat split. }
  run_body. destruct b.
  { simpl. repeat split. }
  destruct (VAD.get_silence_duration_ms (v', k')) as [[d|ex] [v'' k'']].
  2: { simpl. repeat split. }
  run_body. cbn [metrics config audio_buffer set_metrics set_last_activity].
  match goal with |- context [if ?b then _ else _] => destruct b end.
  2: { simpl. repeat split. }
  run_body.
  match goal with
  | |- context [Pipeline.process_audio_stream ?a ?x ?cons ?c0] =>
      pose proof (process_audio_stream_frame c0 a x) as Hf;
      unfold state_after in Hf; cbv zeta in Hf;
      destruct (Pipeline.process_audio_stream a x cons c0) as [[[]|ex] c1]
  end.
  all: simpl in Hf; destruct Hf as (Hf1 & Hf2 & Hf3 & _).
  all: simpl; split; [exact Hf2|]; split; [exact Hf1 | exact Hf3].
Qed.

(** C2, as the code has it: the buffer has no bound, and
    [max_audio_duration_ms] is never consulted. What a frame for a
    registered session does to the buffer depends on the detector alone.
    A frame in which the detector hears speech is appended whole, whatever
    the length already buffered; nothing is dispatched and nothing is
    yielded. A frame in which it hears silence leaves the buffer, and the
    state of the session, as they are, unless the silence measured has
    reached [silence_timeout_ms] and the buffer is not empty: then, and
    only then, the whole buffer is dispatched and the buffer is left
    empty. When the detector raises, the buffer is left as it is and
    nothing is dispatched. The config, and the bound in it, is never
    changed. *)
Theorem buffer_grows_until_silence_timeout (w : World) (sid : string) (s : VoiceSession) f :
  lookup_session sid w = Some s ->
  let heard := (vad (service w), tick (clock (env w))) in
  let run := Service.process_audio_chunk sid f in
  let w' := state_after run w in
  exists s' : VoiceSession,
    lookup_session sid w' = Some s'
    /\ config s' = config s
    /\ match result_of (VAD.process f) heard with
       | Ok (true, _) =>
           result_of run w = Ok tt
           /\ audio_buffer s' = audio_buffer s ++ f
           /\ len (audio_buffer s') = len (audio_buffer s) + len f
           /\ state s' = LISTENING
           /\ dispatched (env w') = dispatched (env w)
           /\ emitted (env w') = emitted (env w)
       | Ok (false, _) =>
           match result_of VAD.get_silence_duration_ms
                   (state_after (VAD.process f) heard) with
           | Ok silence_duration =>
               if (float_of_int (silence_timeout_ms (config s)) <=? silence_duration)%float
                  && Service.nonempty (audio_buffer s)
               then audio_buffer s' = []
                    /\ dispatched (env w') = dispatched (env w) ++ [audio_buffer s]
               else result_of run w = Ok tt
                    /\ audio_buffer s' = audio_buffer s
                    /\ state s' = state s
                    /\ dispatched (env w') = dispatched (env w)
                    /\ emitted (env w') = emitted (env w)
           | Raise e =>
               result_of run w = Raise e
               /\ audio_buffer s' = audio_buffer s
               /\ dispatched (env w') = dispatched (env w)
               /\ emitted (env w') = emitted (env w)
           end
       | Raise e =>
           result_of run w = Raise e
           /\ audio_buffer s' = audio_buffer s
           /\ dispatched (env w') = dispatched (env w)
           /\ emitted (env w') = emitted (env w)
       end.
Proof.
  intros Hs heard run w'. unfold w', run, result_of, state_after.
  rewrite (process_audio_chunk_found sid s f w Hs), with_session_run.
  unfold lookup_session, registry. cbn [fst snd service env sessions].
  rewrite lookup_insert_eq.
  destruct (chunk_body_buffer (ctx_of s w) f) as [Hcfg Hcase].
  unfold result_of, state_after in Hcfg, Hcase.
  change (c_session (ctx_of s w)) with s in Hcfg, Hcase.
  change (c_vad (ctx_of s w)) with (vad (service w)) in Hcase.
  change (c_env (ctx_of s w)) with (env w) in Hcase.
  eexists. split; [reflexivity|]. split; [exact Hcfg|].
  fold heard in Hcase |- *.
  destruct (VAD.process f heard) as [[[[|] en]|ex] st]; cbn [fst snd] in Hcase |- *.
  - destruct Hcase as (H1 & H2 & H3 & H4 & H5).
    split; [exact H1|]. split; [exact H2|].
    split; [rewrite H2; apply len_app|]. split; [exact H3|]. split; [exact H4 | exact H5].
  - exact Hcase.
  - exact Hcase.
Qed.

(** Witness of C2: a loud frame for the only session of a fresh service. *)
Lemma buffer_grows_until_silence_timeout_witness :
  exists s s',
    lookup_session alice (Examples.crowded 1) = Some s
    /\ lookup_session alice
         (state_after (Service.process_audio_chunk alice Examples.loud) (Examples.crowded 1))
       = Some s'
    /\ len (audio_buffer s') = len (audio_buffer s) + len Examples.loud.
Proof.
  assert (Hs : lookup_session alice (Examples.crowded 1)
               = Some (mkSession alice "anonymous" IDLE (Examples.seconds 0)
                                 (Examples.seconds 1) [] "" default_metrics default_config))
    by reflexivity.
  assert (Hp : result_of (VAD.process Examples.loud)
                 (vad (service (Examples.crowded 1)),
                  tick (clock (env (Examples.crowded 1))))
               = Ok (true, 1%float))
    by (vm_compute; reflexivity).
  destruct (buffer_grows_until_silence_timeout (Examples.crowded 1) alice _ Examples.loud Hs)
    as (s' & Hs' & _ & Hcase).
  rewrite Hp in Hcase. destruct Hcase as (_ & _ & Hlen & _).
  eexists. exists s'. split; [exact Hs|]. split; [exact Hs'|]. exact Hlen.
Defined.

End Utterance.

(** ** The fifty-frame scenario *)

Section Scenario.

Implicit Types (c : Ctx) (f : bytes) (frames : list bytes).

Lemma feed_ctx_app frames1 frames2 c :
  feed_ctx (frames1 ++ frames2) c = feed_ctx frames2 (feed_ctx frames1 c).
Proof. revert c. induction frames1 as [|f frames1 IH]; intros c; simpl; auto. Qed.

(** The detector on a full-scale frame, while its window holds nothing but
    full-scale frames. *)
Lemma full_scale_after (k : nat) (b : bool) (clk : Clock) :
  (k <= 5)%nat ->
  speech_after (detector (repeat 1%float k) b None) 1 = true
  /\ vad_after (detector (repeat 1%float k) b None) 1 clk
     = (detector (repeat 1%float (Nat.min (S k) 5)) true None, clk).
Proof.
  intros Hk. destruct clk as [rd tk].
  do 6 (destruct k as [|k]; [destruct b; vm_compute; split; reflexivity|]).
  lia.
Qed.

(** Phase one: full-scale frames are buffered one after the other. *)
Lemma feed_full_scale frames :
  forall c (k : nat) (b : bool) (buf : bytes) (cfg : Config) (clk : Clock) (D : list bytes),
  (k <= 5)%nat ->
  Forall full_scale frames ->
  view c = (detector (repeat 1%float k) b None, buf, cfg, clk, D) ->
  view (feed_ctx frames c)
  = (detector (repeat 1%float (Nat.min (k + length frames) 5))
              (match frames with [] => b | _ => true end) None,
     buf ++ concat frames, cfg, Nat.iter (length frames) tick clk, D).
Proof.
  induction frames as [|f frames IH]; intros c k b buf cfg clk D Hk Hall Hview.
  - simpl. rewrite app_nil_r, Nat.add_0_r, Nat.min_l by exact Hk. exact Hview.
  - apply Forall_cons_1 in Hall as [Hf Hall]. unfold full_scale in Hf.
    injection Hview as Hv Hbuf Hcfg Hclk HD.
    assert (Hn : 1 <= VAD.smoothing_frames (c_vad c)) by (rewrite Hv; simpl; lia).
    destruct (full_scale_after k b (tick clk) Hk) as [Hsp Hafter].
    destruct (view_speech c f Hn) as (_ & Hstep & _).
    { rewrite Hv, Hf. exact Hsp. }
    rewrite Hv, Hf, Hbuf, Hcfg, Hclk, HD, Hafter in Hstep. simpl fst in Hstep. simpl snd in Hstep.
    assert (Hk' : (Nat.min (S k) 5 <= 5)%nat) by lia.
    simpl feed_ctx.
    rewrite (IH _ _ _ _ _ _ _ Hk' Hall Hstep).
    simpl length. simpl concat. rewrite <- app_assoc.
    replace (Nat.min (Nat.min (S k) 5 + length frames) 5)
      with (Nat.min (k + S (length frames)) 5) by lia.
    rewrite <- Nat.iter_succ_r.
    destruct frames; reflexivity.
Qed.

(** The three kinds of step, on views. *)
Lemma step_speech c f (e : float) (v v' : VAD.VoiceActivityDetector)
    (buf : bytes) (cfg : Config) (clk clk' : Clock) (D : list bytes) :
  view c = (v, buf, cfg, clk, D) ->
  1 <= VAD.smoothing_frames v ->
  VAD._calculate_energy f = e ->
  speech_after v e = true ->
  vad_after v e (tick clk) = (v', clk') ->
  view (state_after (chunk_body f) c) = (v', buf ++ f, cfg, clk', D).
Proof.
  intros Hview Hn He Hsp Hafter. injection Hview as Hv Hbuf Hcfg Hclk HD.
  destruct (view_speech c f) as (_ & Hstep & _).
  - rewrite Hv. exact Hn.
  - rewrite Hv, He. exact Hsp.
  - rewrite Hstep, Hv, He, Hclk, Hafter, Hbuf, Hcfg, HD. reflexivity.
Qed.

Lemma step_silence c f (e : float) (v v' : VAD.VoiceActivityDetector)
    (buf : bytes) (cfg : Config) (clk clk' : Clock) (D : list bytes) :
  view c = (v, buf, cfg, clk, D) ->
  1 <= VAD.smoothing_frames v ->
  VAD._calculate_energy f = e ->
  speech_after v e = false ->
  vad_after v e (tick clk) = (v', clk') ->
  (float_of_int (silence_timeout_ms cfg) <=? silence_ms v' clk')%float
    && Service.nonempty buf = false ->
  view (state_after (chunk_body f) c)
  = (v', buf, cfg, match VAD.silence_start v' with None => clk' | Some _ => tick clk' end, D).
Proof.
  intros Hview Hn He Hsp Hafter Hb. injection Hview as Hv Hbuf Hcfg Hclk HD.
  rewrite (view_silence c f).
  - unfold clock_after_silence. rewrite Hv, He, Hclk, Hafter, Hbuf, Hcfg, HD. reflexivity.
  - rewrite Hv. exact Hn.
  - rewrite Hv, He. exact Hsp.
  - unfold boundary. rewrite Hv, He, Hclk, Hafter, Hbuf, Hcfg. exact Hb.
Qed.

Lemma step_dispatch c f (e : float) (v v' : VAD.VoiceActivityDetector)
    (buf : bytes) (cfg : Config) (clk clk' : Clock) (D : list bytes) :
  view c = (v, buf, cfg, clk, D) ->
  1 <= VAD.smoothing_frames v ->
  VAD._calculate_energy f = e ->
  speech_after v e = false ->
  vad_after v e (tick clk) = (v', clk') ->
  (float_of_int (silence_timeout_ms cfg) <=? silence_ms v' clk')%float
    && Service.nonempty buf = true ->
  exists k' : Clock,
    view (state_after (chunk_body f) c) = (v', [], cfg, k', D ++ [buf]).
Proof.
  intros Hview Hn He Hsp Hafter Hb. injection Hview as Hv Hbuf Hcfg Hclk HD.
  destruct (view_dispatch c f) as [k' Hstep].
  - rewrite Hv. exact Hn.
  - rewrite Hv, He. exact Hsp.
  - unfold boundary. rewrite Hv, He, Hclk, Hafter, Hbuf, Hcfg. exact Hb.
  - exists k'. rewrite Hstep, Hv, He, Hclk, Hafter, Hbuf, Hcfg, HD. reflexivity.
Qed.


Lemma nonempty_true (buf : bytes) : buf <> [] -> Service.nonempty buf = true.
Proof. destruct buf; [congruence | reflexivity]. Qed.







Lemma iter_tick (n : nat) (rd : nat -> float) (t : nat) :
  Nat.iter n tick (mkClock rd t) = mkClock rd (n + t).
Proof. induction n as [|n IH]; simpl; [reflexivity|]. rewrite IH. reflexivity. Qed.




(** One frame for a registered session, seen from the world. *)
Lemma process_audio_chunk_on_session (sid : string) f (w : World) (s : VoiceSession) :
  lookup_session sid w = Some s ->
  let c1 := state_after (chunk_body f) (ctx_of s w) in
  let w1 := state_after (Service.process_audio_chunk sid f) w in
  lookup_session sid w1 = Some (c_session c1) /\ ctx_of (c_session c1) w1 = c1.
Proof.
  intros Hs. cbv zeta. unfold state_after.
  rewrite (process_audio_chunk_found sid s f w Hs), with_session_run.
  destruct (chunk_body f (ctx_of s w)) as [r [s1 v1 p1 e1]].
  unfold lookup_session, registry, ctx_of. simpl. rewrite lookup_insert_eq.
  split; reflexivity.
Qed.

(** The transport's loop on a registered session is the loop on the
    objects of that session. *)
Lemma feed_on_session (sid : string) frames :
  forall (w : World) (s : VoiceSession),
  lookup_session sid w = Some s ->
  exists s' : VoiceSession,
    lookup_session sid (feed sid frames w) = Some s'
    /\ ctx_of s' (feed sid frames w) = feed_ctx frames (ctx_of s w).
Proof.
  induction frames as [|f frames IH]; intros w s Hs.
  - exists s. split; [exact Hs | reflexivity].
  - simpl feed. simpl feed_ctx.
    destruct (process_audio_chunk_on_session sid f w s Hs) as [H1 H2].
    destruct (IH _ _ H1) as (s' & Hs' & Hctx).
    exists s'. split; [exact Hs'|]. rewrite Hctx, H2. reflexivity.
Qed.

(** *** The scenario for any amplitude *)

Lemma speech_after_detector (h : list float) (b : bool) (since : option float) (e : float) :
  speech_after (detector h b since) e = speech_in (slide h e).
Proof. reflexivity. Qed.

Lemma vad_after_speech (h : list float) (b : bool) (since : option float) (e : float)
    (clk : Clock) :
  speech_in (slide h e) = true ->
  vad_after (detector h b since) e clk = (detector (slide h e) true None, clk).
Proof.
  intros H. unfold vad_after. cbv zeta. rewrite speech_after_detector, H.
  cbn [negb]. rewrite andb_false_r. reflexivity.
Qed.

Lemma vad_after_falls_silent (h : list float) (since : option float) (e : float)
    (clk : Clock) :
  speech_in (slide h e) = false ->
  vad_after (detector h true since) e clk
  = (detector (slide h e) false (Some (readings clk (ticks clk))), tick clk).
Proof.
  intros H. unfold vad_after. cbv zeta. rewrite speech_after_detector, H. reflexivity.
Qed.

Lemma vad_after_stays_silent (h : list float) (since : option float) (e : float)
    (clk : Clock) :
  speech_in (slide h e) = false ->
  vad_after (detector h false since) e clk = (detector (slide h e) false since, clk).
Proof.
  intros H. unfold vad_after. cbv zeta. rewrite speech_after_detector, H. reflexivity.
Qed.

Lemma hears_length (es : list float) : forall h, length (hears h es) = length es.
Proof. induction es as [|e es IH]; intros h; simpl; [reflexivity | rewrite IH; reflexivity]. Qed.

Lemma hears_app (es1 es2 : list float) :
  forall h, hears h (es1 ++ es2) = hears h es1 ++ hears (slid h es1) es2.
Proof.
  induction es1 as [|e es1 IH]; intros h; [reflexivity|].
  cbn [app hears]. rewrite IH. reflexivity.
Qed.

Lemma slid_app (es1 es2 : list float) (h : list float) :
  slid h (es1 ++ es2) = slid (slid h es1) es2.
Proof. unfold slid. apply fold_left_app. Qed.

Lemma slide_length (h : list float) (e : float) :
  (length h <= 5)%nat -> length (slide h e) = Nat.min (S (length h)) 5.
Proof.
  intros Hh. unfold slide, window, len. rewrite length_app. cbn [length].
  destruct (Z.ltb_spec 5 (Z.of_nat (length h + 1))) as [Hlt|Hge].
  - destruct h as [|a h]; [simpl in Hlt; lia|].
    cbn [app tl length] in *. rewrite length_app. cbn [length]. lia.
  - rewrite length_app. cbn [length]. lia.
Qed.

Lemma slid_length (es : list float) :
  forall h, (length h <= 5)%nat -> length (slid h es) = Nat.min (length h + length es) 5.
Proof.
  induction es as [|e es IH]; intros h Hh.
  - cbn [slid fold_left length]. lia.
  - change (slid h (e :: es)) with (slid (slide h e) es).
    pose proof (slide_length h e Hh) as Hl.
    rewrite IH by lia. rewrite Hl. cbn [length]. lia.
Qed.

Lemma slide_full (a b c d e x : float) : slide [a; b; c; d; e] x = [b; c; d; e; x].
Proof. reflexivity. Qed.

Lemma quiet_step (h : list float) :
  quiet h -> speech_in (slide h 0) = false /\ quiet (slide h 0).
Proof.
  intros Hq. split.
  - specialize (Hq 1%nat). cbn [repeat hears] in Hq. injection Hq as Hq. exact Hq.
  - intros n. specialize (Hq (S n)). cbn [repeat hears] in Hq.
    injection Hq as _ Hq. exact Hq.
Qed.

Lemma quiet_cons (h : list float) :
  speech_in (slide h 0) = false -> quiet (slide h 0) -> quiet h.
Proof.
  intros H Hq [|n]; [reflexivity|]. cbn [repeat hears]. rewrite H, Hq. reflexivity.
Qed.

Lemma quiet_zeros : quiet [0; 0; 0; 0; 0]%float.
Proof.
  intros n. induction n as [|n IH]; [reflexivity|].
  cbn [repeat hears]. rewrite slide_full, IH. reflexivity.
Qed.

(** Silence after speech: of the first four silent frames the detector
    hears [m] as speech and the others as silence; from the fifth on its
    window holds nothing but silence. *)
Lemma fading (h : list float) (m : nat) :
  length h = 5%nat ->
  hears h (repeat 0%float 4) = repeat true m ++ repeat false (4 - m) ->
  hears h (repeat 0%float m) = repeat true m /\ quiet (slid h (repeat 0%float m)).
Proof.
  intros Hlen H.
  destruct h as [|a [|b [|c [|d [|e [|x h]]]]]]; try discriminate Hlen.
  assert (Hm : (m <= 4)%nat).
  { apply (f_equal (@length bool)) in H.
    rewrite hears_length, length_app, !repeat_length in H. lia. }
  cbn [repeat hears] in H. rewrite !slide_full in H.
  destruct m as [|[|[|[|[|m]]]]]; [| | | | |lia].
  all: cbn [repeat app Nat.sub] in H; injection H as H1 H2 H3 H4.
  all: cbn [repeat hears slid fold_left]; rewrite ?slide_full.
  all: rewrite ?H1, ?H2, ?H3, ?H4.
  all: split; [reflexivity|].
  all: repeat (apply quiet_cons; rewrite slide_full; [assumption|]).
  all: first [exact quiet_zeros
             | apply quiet_cons; rewrite slide_full; [reflexivity | exact quiet_zeros]].
Qed.

(** The frames that the detector hears as speech are buffered one after
    the other. *)
Lemma feed_heard frames :
  forall c (h : list float) (b : bool) (buf : bytes) (cfg : Config) (clk : Clock)
         (D : list bytes),
  view c = (detector h b None, buf, cfg, clk, D) ->
  hears h (map VAD._calculate_energy frames) = repeat true (length frames) ->
  view (feed_ctx frames c)
  = (detector (slid h (map VAD._calculate_energy frames))
              (match frames with [] => b | _ => true end) None,
     buf ++ concat frames, cfg, Nat.iter (length frames) tick clk, D).
Proof.
  induction frames as [|f frames IH]; intros c h b buf cfg clk D Hview Hh.
  - simpl. rewrite app_nil_r. exact Hview.
  - cbn [map hears length repeat] in Hh. injection Hh as Hf Hrest.
    pose proof (step_speech c f (VAD._calculate_energy f) (detector h b None)
                  (detector (slide h (VAD._calculate_energy f)) true None)
                  buf cfg clk (tick clk) D Hview ltac:(simpl; lia) eq_refl) as Hstep.
    specialize (Hstep ltac:(rewrite speech_after_detector; exact Hf)
                      (vad_after_speech h b None _ (tick clk) Hf)).
    simpl feed_ctx. rewrite (IH _ _ _ _ _ _ _ Hstep Hrest).
    cbn [map length concat]. rewrite <- app_assoc, <- Nat.iter_succ_r.
    change (slid h (VAD._calculate_energy f :: map VAD._calculate_energy frames))
      with (slid (slide h (VAD._calculate_energy f)) (map VAD._calculate_energy frames)).
    destruct frames; reflexivity.
Qed.

Lemma silent_energies frames :
  Forall silent frames -> map VAD._calculate_energy frames = repeat 0%float (length frames).
Proof.
  induction 1 as [|f frames Hf _ IH]; [reflexivity|].
  cbn [map length repeat]. rewrite Hf, IH. reflexivity.
Qed.

(** The frame at which the detector falls silent: it takes a reading as
    the start of the silence and measures the silence from there. *)
Lemma falls_silent_wait c f (h : list float) (buf : bytes) (rd : nat -> float) (T : nat)
    (D : list bytes) :
  speech_in (slide h 0) = false -> silent f ->
  view c = (detector h true None, buf, default_config, mkClock rd T, D) ->
  timed_out rd (S T) (S (S T)) = false ->
  view (state_after (chunk_body f) c)
  = (detector (slide h 0) false (Some (rd (S T))), buf, default_config,
     mkClock rd (S (S (S T))), D).
Proof.
  intros Hsil Hf Hview Hto.
  rewrite (step_silence c f 0%float _
             (detector (slide h 0) false (Some (rd (S T)))) _ _ _
             (mkClock rd (S (S T))) _ Hview ltac:(simpl; lia) Hf).
  - reflexivity.
  - rewrite speech_after_detector. exact Hsil.
  - exact (vad_after_falls_silent h None 0 (mkClock rd (S T)) Hsil).
  - change (timed_out rd (S T) (S (S T)) && Service.nonempty buf = false).
    rewrite Hto. reflexivity.
Qed.

Lemma falls_silent_dispatch c f (h : list float) (buf : bytes) (rd : nat -> float) (T : nat)
    (D : list bytes) :
  speech_in (slide h 0) = false -> silent f -> buf <> [] ->
  view c = (detector h true None, buf, default_config, mkClock rd T, D) ->
  timed_out rd (S T) (S (S T)) = true ->
  exists k' : Clock,
    view (state_after (chunk_body f) c)
    = (detector (slide h 0) false (Some (rd (S T))), [], default_config, k', D ++ [buf]).
Proof.
  intros Hsil Hf Hbuf Hview Hto.
  apply (step_dispatch c f 0%float _
           (detector (slide h 0) false (Some (rd (S T)))) _ _ _
           (mkClock rd (S (S T))) _ Hview ltac:(simpl; lia) Hf).
  - rewrite speech_after_detector. exact Hsil.
  - exact (vad_after_falls_silent h None 0 (mkClock rd (S T)) Hsil).
  - change (timed_out rd (S T) (S (S T)) && Service.nonempty buf = true).
    rewrite Hto. apply nonempty_true. exact Hbuf.
Qed.

(** Silent frames while the measured silence is below the timeout. *)
Lemma keeps_waiting c f (h : list float) (since : nat) (buf : bytes)
    (rd : nat -> float) (T : nat) (D : list bytes) :
  quiet h -> silent f ->
  view c = (detector h false (Some (rd since)), buf, default_config, mkClock rd T, D) ->
  timed_out rd since (S T) = false ->
  view (state_after (chunk_body f) c)
  = (detector (slide h 0) false (Some (rd since)), buf, default_config,
     mkClock rd (S (S T)), D).
Proof.
  intros Hq Hf Hview Hto. destruct (quiet_step h Hq) as [Hsil _].
  rewrite (step_silence c f 0%float _
             (detector (slide h 0) false (Some (rd since))) _ _ _
             (mkClock rd (S T)) _ Hview ltac:(simpl; lia) Hf).
  - reflexivity.
  - rewrite speech_after_detector. exact Hsil.
  - exact (vad_after_stays_silent h (Some (rd since)) 0 (mkClock rd (S T)) Hsil).
  - change (timed_out rd since (S T) && Service.nonempty buf = false).
    rewrite Hto. reflexivity.
Qed.

Lemma feed_keeps_waiting frames :
  forall c (h : list float) (since : nat) (buf : bytes) (rd : nat -> float) (T : nat)
         (D : list bytes),
  quiet h -> Forall silent frames ->
  view c = (detector h false (Some (rd since)), buf, default_config, mkClock rd T, D) ->
  (forall j, (j < length frames)%nat -> timed_out rd since (T + 1 + 2 * j) = false) ->
  exists h', quiet h'
    /\ view (feed_ctx frames c)
       = (detector h' false (Some (rd since)), buf, default_config,
          mkClock rd (T + 2 * length frames), D).
Proof.
  induction frames as [|f frames IH]; intros c h since buf rd T D Hq Hall Hview Hto.
  - exists h. split; [exact Hq|]. simpl. rewrite Nat.add_0_r. exact Hview.
  - apply Forall_cons_1 in Hall as [Hf Hall].
    assert (H0 : timed_out rd since (S T) = false).
    { specialize (Hto 0%nat ltac:(simpl; lia)).
      replace (T + 1 + 2 * 0)%nat with (S T) in Hto by lia. exact Hto. }
    pose proof (keeps_waiting c f h since buf rd T D Hq Hf Hview H0) as Hstep.
    destruct (IH _ (slide h 0) since buf rd (S (S T)) D
                 (proj2 (quiet_step h Hq)) Hall Hstep) as (h' & Hh' & Hfin).
    { intros j Hj. specialize (Hto (S j) ltac:(simpl; lia)).
      replace (S (S T) + 1 + 2 * j)%nat with (T + 1 + 2 * S j)%nat by lia. exact Hto. }
    exists h'. split; [exact Hh'|]. simpl feed_ctx. rewrite Hfin.
    replace (S (S T) + 2 * length frames)%nat with (T + 2 * length (f :: frames))%nat
      by (simpl; lia).
    reflexivity.
Qed.

Lemma waiting_ends c f (h : list float) (since : nat) (buf : bytes)
    (rd : nat -> float) (T : nat) (D : list bytes) :
  quiet h -> silent f -> buf <> [] ->
  view c = (detector h false (Some (rd since)), buf, default_config, mkClock rd T, D) ->
  timed_out rd since (S T) = true ->
  exists k' : Clock,
    view (state_after (chunk_body f) c)
    = (detector (slide h 0) false (Some (rd since)), [], default_config, k', D ++ [buf]).
Proof.
  intros Hq Hf Hbuf Hview Hto. destruct (quiet_step h Hq) as [Hsil _].
  apply (step_dispatch c f 0%float _
           (detector (slide h 0) false (Some (rd since))) _ _ _
           (mkClock rd (S T)) _ Hview ltac:(simpl; lia) Hf).
  - rewrite speech_after_detector. exact Hsil.
  - exact (vad_after_stays_silent h (Some (rd since)) 0 (mkClock rd (S T)) Hsil).
  - change (timed_out rd since (S T) && Service.nonempty buf = true).
    rewrite Hto. apply nonempty_true. exact Hbuf.
Qed.

(** With an empty buffer, silence dispatches nothing. *)
Lemma feed_nothing frames :
  forall c (h : list float) (since : option float) (clk : Clock) (D : list bytes),
  quiet h -> Forall silent frames ->
  view c = (detector h false since, [], default_config, clk, D) ->
  exists h' clk', quiet h'
    /\ view (feed_ctx frames c) = (detector h' false since, [], default_config, clk', D).
Proof.
  induction frames as [|f frames IH]; intros c h since clk D Hq Hall Hview.
  - exists h, clk. split; [exact Hq | exact Hview].
  - apply Forall_cons_1 in Hall as [Hf Hall]. destruct clk as [rd T].
    destruct (quiet_step h Hq) as [Hsil Hq'].
    pose proof (step_silence c f 0%float _
                  (detector (slide h 0) false since) _ _ _
                  (mkClock rd (S T)) _ Hview ltac:(simpl; lia) Hf) as Hstep.
    simpl feed_ctx.
    eapply IH; [exact Hq' | exact Hall | apply Hstep].
    + rewrite speech_after_detector. exact Hsil.
    + exact (vad_after_stays_silent h since 0 (mkClock rd (S T)) Hsil).
    + apply andb_false_r.
Qed.

(** From the first frame heard as silence to the boundary: one dispatch,
    of the whole buffer. *)
Lemma silence_to_boundary cB (wait : list bytes) (last : bytes) (h : list float)
    (buf : bytes) (rd : nat -> float) (T : nat) (D : list bytes) :
  view cB = (detector h true None, buf, default_config, mkClock rd T, D) ->
  quiet h -> buf <> [] -> Forall silent wait -> silent last ->
  (forall j, (j < length wait)%nat -> timed_out rd (S T) (S (S T) + 2 * j) = false) ->
  timed_out rd (S T) (S (S T) + 2 * length wait) = true ->
  exists (h' : list float) (k' : Clock),
    view (feed_ctx (wait ++ [last]) cB)
    = (detector h' false (Some (rd (S T))), [], default_config, k', D ++ [buf])
    /\ quiet h'.
Proof.
  intros HB Hq Hbuf Hsw Hslast Hwait Hlast. rewrite feed_ctx_app.
  destruct (quiet_step h Hq) as [Hsil Hq'].
  destruct wait as [|q wait].
  - simpl feed_ctx.
    replace (S (S T) + 2 * length (@nil bytes))%nat with (S (S T)) in Hlast
      by (cbn [length]; lia).
    destruct (falls_silent_dispatch cB last h buf rd T D Hsil Hslast Hbuf HB Hlast)
      as [k' Hk'].
    exists (slide h 0), k'. split; [exact Hk' | exact Hq'].
  - apply Forall_cons_1 in Hsw as [Hq0 Hsw].
    assert (H0 : timed_out rd (S T) (S (S T)) = false).
    { specialize (Hwait 0%nat ltac:(cbn [length]; lia)).
      replace (S (S T) + 2 * 0)%nat with (S (S T)) in Hwait by lia. exact Hwait. }
    pose proof (falls_silent_wait cB q h buf rd T D Hsil Hq0 HB H0) as HC.
    destruct (feed_keeps_waiting wait _ (slide h 0) (S T) buf rd
                (S (S (S T))) D Hq' Hsw HC)
      as (h' & Hh' & HD).
    { intros j Hj. specialize (Hwait (S j) ltac:(cbn [length]; lia)).
      replace (S (S (S T)) + 1 + 2 * j)%nat with (S (S T) + 2 * S j)%nat by lia.
      exact Hwait. }
    simpl feed_ctx at 2. simpl feed_ctx at 1.
    assert (Hto : timed_out rd (S T) (S (S (S (S T)) + 2 * length wait)) = true).
    { replace (S (S (S (S T)) + 2 * length wait))
        with (S (S T) + 2 * length (q :: wait))%nat by (cbn [length]; lia).
      exact Hlast. }
    destruct (waiting_ends _ last h' (S T) buf rd _ D Hh' Hslast Hbuf HD Hto)
      as [k' Hk'].
    exists (slide h' 0), k'. split; [exact Hk' | exact (proj2 (quiet_step h' Hh'))].
Qed.

(** The scenario on the objects of the session, for speech of any
    amplitude. The clock is at reading [t] when the first frame comes:
    the fifty frames and the [m] silent frames heard as speech take one
    reading each, the next silent frame takes reading [t + 51 + m] as the
    start of the silence, and the frame number [j] from there on measures
    the silence at reading [t + 52 + m + 2 * j]. *)
Lemma scenario_heard c (m : nat) (speech lead wait : list bytes) (last : bytes)
    (extra : list bytes) (rd : nat -> float) (t : nat) (D : list bytes) :
  view c = (detector [] false None, [], default_config, mkClock rd t, D) ->
  length speech = 50%nat -> concat speech <> [] ->
  heard (map VAD._calculate_energy speech ++ repeat 0%float 4)
  = repeat true (50 + m) ++ repeat false (4 - m) ->
  length lead = m ->
  Forall silent lead -> Forall silent wait -> silent last -> Forall silent extra ->
  (forall j, (j < length wait)%nat ->
     timed_out rd (t + 51 + m) (t + 52 + m + 2 * j) = false) ->
  timed_out rd (t + 51 + m) (t + 52 + m + 2 * length wait) = true ->
  exists (v : VAD.VoiceActivityDetector) (clk : Clock),
    view (feed_ctx (speech ++ lead ++ wait ++ [last] ++ extra) c)
    = (v, [], default_config, clk, D ++ [concat speech ++ concat lead]).
Proof.
  intros Hview Hlen Hne Hheard Hlead Hsl Hsw Hslast Hse Hwait Hlast.
  set (es := map VAD._calculate_energy speech) in *.
  assert (Hes : length es = 50%nat) by (unfold es; rewrite length_map; exact Hlen).
  unfold heard in Hheard. rewrite hears_app in Hheard.
  rewrite repeat_app, <- app_assoc in Hheard.
  apply app_inj_1 in Hheard as [Hsp Hfade];
    [|rewrite hears_length, repeat_length; exact Hes].
  assert (Hh5 : length (slid [] es) = 5%nat).
  { rewrite slid_length by (simpl; lia). rewrite Hes. reflexivity. }
  destruct (fading (slid [] es) m Hh5 Hfade) as [Hcarry Hq].
  assert (Hall : hears [] (map VAD._calculate_energy (speech ++ lead))
                 = repeat true (length (speech ++ lead))).
  { rewrite map_app, (silent_energies lead Hsl), Hlead, hears_app, length_app, Hlen, Hlead.
    fold es. rewrite Hsp, Hcarry, <- repeat_app. reflexivity. }
  pose proof (feed_heard (speech ++ lead) c [] false [] default_config (mkClock rd t) D
                Hview Hall) as HA.
  rewrite length_app, Hlen, Hlead, iter_tick, map_app, (silent_energies lead Hsl), Hlead,
    slid_app in HA.
  fold es in HA. cbn [app] in HA.
  assert (Hspk : match speech ++ lead with [] => false | _ => true end = true).
  { destruct speech; [discriminate Hlen | reflexivity]. }
  rewrite Hspk in HA. clear Hspk.
  assert (Hbuf : concat (speech ++ lead) <> []).
  { rewrite concat_app. destruct (concat speech); [congruence | discriminate]. }
  destruct (silence_to_boundary _ wait last _ _ rd (50 + m + t) D HA Hq Hbuf Hsw Hslast)
    as (h' & k' & HE & Hh').
  { intros j Hj. replace (S (50 + m + t)) with (t + 51 + m)%nat by lia.
    replace (S (t + 51 + m) + 2 * j)%nat with (t + 52 + m + 2 * j)%nat by lia.
    apply Hwait, Hj. }
  { replace (S (50 + m + t)) with (t + 51 + m)%nat by lia.
    replace (S (t + 51 + m) + 2 * length wait)%nat
      with (t + 52 + m + 2 * length wait)%nat by lia.
    exact Hlast. }
  destruct (feed_nothing extra _ h' _ k' _ Hh' Hse HE) as (h'' & clk' & _ & HF).
  exists (detector h'' false (Some (rd (S (50 + m + t))))), clk'.
  replace (speech ++ lead ++ wait ++ [last] ++ extra)
    with ((speech ++ lead) ++ (wait ++ [last]) ++ extra)
    by (rewrite <- !app_assoc; reflexivity).
  do 2 rewrite feed_ctx_app. rewrite HF, concat_app. reflexivity.
Qed.


Lemma heard_half_scale :
  heard (repeat 0.5%float 50 ++ repeat 0%float 4) = repeat true (50 + 1) ++ repeat false (4 - 1).
Proof. vm_compute. reflexivity. Qed.

Lemma heard_soft :
  heard (repeat 0.335693359375%float 50 ++ repeat 0%float 4)
  = repeat true (50 + 0) ++ repeat false (4 - 0).
Proof. vm_compute. reflexivity. Qed.


Lemma loud_is_full_scale : len Examples.loud = 4096 /\ full_scale Examples.loud.
Proof. split; vm_compute; reflexivity. Qed.

Lemma quiet_is_silent : silent Examples.quiet.
Proof. vm_compute. reflexivity. Qed.


Lemma Forall_repeat {A : Type} (P : A -> Prop) (x : A) (n : nat) :
  P x -> Forall P (repeat x n).
Proof. intros H. induction n; simpl; constructor; assumption. Qed.

Lemma len_concat_repeat (x : bytes) (n : nat) :
  len (concat (repeat x n)) = Z.of_nat n * len x.
Proof.
  induction n as [|n IH]; [reflexivity|].
  cbn [repeat concat]. rewrite len_app, IH. lia.
Qed.


Lemma view_components c (v : VAD.VoiceActivityDetector) (buf : bytes) (cfg : Config)
    (clk : Clock) (D : list bytes) :
  view c = (v, buf, cfg, clk, D) ->
  audio_buffer (c_session c) = buf /\ config (c_session c) = cfg
  /\ dispatched (c_env c) = D.
Proof. intros H. injection H as _ Hb Hc _ HD. auto. Qed.

Lemma alice_is_fresh : lookup_session alice (Examples.crowded 1) = Some alice_session.
Proof. reflexivity. Qed.

(** What the view of the session's objects says about the world. *)
Lemma fed_world_view (sid : string) frames (w : World) (s : VoiceSession)
    (v : VAD.VoiceActivityDetector) (buf : bytes) (cfg : Config) (clk : Clock)
    (D : list bytes) :
  lookup_session sid w = Some s ->
  view (feed_ctx frames (ctx_of s w)) = (v, buf, cfg, clk, D) ->
  exists s' : VoiceSession,
    lookup_session sid (feed sid frames w) = Some s'
    /\ audio_buffer s' = buf /\ config s' = cfg
    /\ dispatched (env (feed sid frames w)) = D.
Proof.
  intros Hs Hview.
  destruct (feed_on_session sid frames w s Hs) as (s' & Hs' & Hctx).
  rewrite <- Hctx in Hview.
  destruct (view_components _ _ _ _ _ _ Hview) as (Hb & Hc & HD).
  exists s'. repeat split; assumption.
Qed.

Lemma soft_is_speech :
  len soft = 4096 /\ VAD._calculate_energy soft = 0.335693359375%float.
Proof. split; vm_compute; reflexivity. Qed.

Lemma half_is_speech :
  len half = 4096 /\ VAD._calculate_energy half = 0.5%float.
Proof. split; vm_compute; reflexivity. Qed.

(** Just above the threshold no silence is carried: fifty frames of
    energy 0.3357 are dispatched alone. *)
Lemma soft_speech_is_dispatched_alone :
  dispatched (env (feed alice
                     (repeat soft 50 ++ [] ++ [Examples.quiet] ++ [Examples.quiet] ++ [])
                     (Examples.crowded 1)))
  = [concat (repeat soft 50)].
Proof.
  destruct (scenario_heard (ctx_of alice_session (Examples.crowded 1)) 0
              (repeat soft 50) [] [Examples.quiet] Examples.quiet [] Examples.seconds 2 []
              eq_refl eq_refl)
    as (v & clk & Hfin).
  - discriminate.
  - rewrite map_repeat, (proj2 soft_is_speech). exact heard_soft.
  - reflexivity.
  - apply Forall_nil_2.
  - apply Forall_cons; split; [exact quiet_is_silent | apply Forall_nil_2].
  - exact quiet_is_silent.
  - apply Forall_nil_2.
  - intros j Hj. destruct j as [|j]; [vm_compute; reflexivity|].
    cbn [length] in Hj. lia.
  - vm_compute. reflexivity.
  - destruct (fed_world_view alice _ _ _ _ _ _ _ _ alice_is_fresh Hfin)
      as (s' & _ & _ & _ & HD).
    rewrite HD. cbn [concat app]. rewrite app_nil_r. reflexivity.
Qed.

(** At half scale one silent frame is carried. *)
Lemma half_scale_carries_one_frame :
  dispatched (env (feed alice
                     (repeat half 50 ++ [Examples.quiet] ++ [Examples.quiet]
                        ++ [Examples.quiet] ++ [])
                     (Examples.crowded 1)))
  = [concat (repeat half 50) ++ Examples.quiet].
Proof.
  destruct (scenario_heard (ctx_of alice_session (Examples.crowded 1)) 1
              (repeat half 50) [Examples.quiet] [Examples.quiet] Examples.quiet []
              Examples.seconds 2 [] eq_refl eq_refl)
    as (v & clk & Hfin).
  - discriminate.
  - rewrite map_repeat, (proj2 half_is_speech). exact heard_half_scale.
  - reflexivity.
  - apply Forall_cons; split; [exact quiet_is_silent | apply Forall_nil_2].
  - apply Forall_cons; split; [exact quiet_is_silent | apply Forall_nil_2].
  - exact quiet_is_silent.
  - apply Forall_nil_2.
  - intros j Hj. destruct j as [|j]; [vm_compute; reflexivity|].
    cbn [length] in Hj. lia.
  - vm_compute. reflexivity.
  - destruct (fed_world_view alice _ _ _ _ _ _ _ _ alice_is_fresh Hfin)
      as (s' & _ & _ & _ & HD).
    rewrite HD. cbn [concat app]. rewrite app_nil_r. reflexivity.
Qed.


(** C2 fails as stated: after 235 loud frames of 4096 bytes the buffer of
    the session holds 962560 bytes, more than the 960000 bytes that the
    30000 ms of its config take, and nothing was dispatched. *)
Lemma audio_buffer_exceeds_max_duration :
  exists s : VoiceSession,
    lookup_session alice
      (feed alice (repeat Examples.loud 235) (Examples.crowded 1)) = Some s
    /\ len (audio_buffer s) = 962560
    /\ max_audio_bytes (config s) (service_config (service Examples.fresh)) = 960000
    /\ dispatched (env (feed alice (repeat Examples.loud 235) (Examples.crowded 1)))
       = [].
Proof.
  pose proof (feed_full_scale (repeat Examples.loud 235)
                (ctx_of alice_session (Examples.crowded 1))
                0 false [] default_config _ [] ltac:(lia)
                (Forall_repeat _ _ _ (proj2 loud_is_full_scale)) eq_refl) as Hfin.
  destruct (fed_world_view alice _ _ _ _ _ _ _ _ alice_is_fresh Hfin)
    as (s' & Hs' & Hb & Hc & HD).
  exists s'. split; [exact Hs'|].
  rewrite Hb, Hc, app_nil_l, len_concat_repeat, (proj1 loud_is_full_scale).
  split; [reflexivity|]. split; [reflexivity | exact HD].
Qed.

End Scenario.

(** * Further properties of the code *)

(** ** The detector *)

Section DetectorMore.

Import VAD.

Lemma float_ltb_leb (x y : float) : (x <? y)%float = true -> (x <=? y)%float = true.
Proof.
  rewrite ltb_spec, leb_spec. unfold SFltb, SFleb.
  destruct (SFcompare (Prim2SF x) (Prim2SF y)) as [[ | | ]|]; congruence.
Qed.

(** The energy of a frame is clipped: whatever the bytes, it is at most
    1.0 (and so never a NaN). *)
Theorem calculate_energy_at_most_one (f : bytes) :
  (_calculate_energy f <=? 1)%float = true.
Proof.
  unfold _calculate_energy.
  destruct (len f <? 2); [reflexivity|].
  destruct (struct_unpack_h (len f / 2) f) as [samples|e]; [|reflexivity].
  destruct samples as [|s samples]; [reflexivity|].
  unfold py_min.
  match goal with |- context [if ?b then _ else _] => destruct b eqn:E end.
  - apply float_ltb_leb. exact E.
  - reflexivity.
Qed.

Lemma len_window (n : Z) (h : list float) (e : float) :
  len (window n (h ++ [e])) = if n <? len h + 1 then len h else len h + 1.
Proof.
  assert (H : len (h ++ [e]) = len h + 1) by (rewrite len_app; reflexivity).
  unfold window. rewrite H.
  destruct (n <? len h + 1); [|exact H].
  rewrite len_tail; [|destruct h; discriminate]. lia.
Qed.

Lemma vad_feed_invariant (frames : list bytes) :
  forall (v : VoiceActivityDetector) (k : Clock) (n : Z),
  1 <= smoothing_frames v ->
  len (energy_history v) = Z.min n (smoothing_frames v) -> 0 <= n ->
  let v' := fst (vad_feed frames (v, k)) in
  smoothing_frames v' = smoothing_frames v
  /\ threshold v' = threshold v
  /\ len (energy_history v') = Z.min (n + len frames) (smoothing_frames v).
Proof.
  induction frames as [|f frames IH]; intros v k n Hsf Hlen Hn.
  - simpl. unfold len at 2. simpl. rewrite Z.add_0_r. auto.
  - simpl vad_feed.
    destruct (process_returns_mean v k f Hsf) as (v1 & k1 & Hp & Hh & _ & Ht & Hs).
    unfold state_after. rewrite Hp. simpl snd.
    assert (Hlen1 : len (energy_history v1) = Z.min (n + 1) (smoothing_frames v1)).
    { rewrite Hh, len_window, Hs, Hlen.
      destruct (smoothing_frames v <? Z.min n (smoothing_frames v) + 1) eqn:E.
      - apply Z.ltb_lt in E. lia.
      - apply Z.ltb_ge in E. lia. }
    assert (Hsf1 : 1 <= smoothing_frames v1) by (rewrite Hs; exact Hsf).
    destruct (IH v1 k1 (n + 1) Hsf1 Hlen1 ltac:(lia)) as (H1 & H2 & H3).
    cbv zeta. rewrite H1, H2, H3, Hs, Ht.
    replace (len (f :: frames)) with (1 + len frames) by (unfold len; simpl length; lia).
    repeat split. f_equal. lia.
Qed.

(** The smoothing window is a sliding window: after any run of frames on a
    new detector it holds as many energies as frames came, up to
    [smoothing_frames], and never more. *)
Theorem window_is_bounded (thr : float) (sf : Z) (k : Clock) (frames : list bytes) :
  1 <= sf ->
  len (energy_history (fst (vad_feed frames (init thr sf, k)))) = Z.min (len frames) sf.
Proof.
  intros Hsf.
  destruct (vad_feed_invariant frames (init thr sf) k 0 Hsf) as (_ & _ & H).
  - simpl. unfold len. simpl. lia.
  - lia.
  - exact H.
Qed.

Lemma window_is_bounded_witness :
  1 <= 5
  /\ len (energy_history (fst (vad_feed (repeat Examples.quiet 7) (default, clock Examples.env0))))
     = 5.
Proof.
  assert (H : 1 <= 5) by lia.
  split; [exact H|].
  exact (window_is_bounded 0.3%float 5 (clock Examples.env0) (repeat Examples.quiet 7) H).
Defined.

(** Once a frame is heard as speech no silence is measured: the detector
    answers 0 without reading the clock. *)
Theorem speech_resets_silence (v : VoiceActivityDetector) (k : Clock) (f : bytes) (e : float) :
  1 <= smoothing_frames v ->
  result_of (process f) (v, k) = Ok (true, e) ->
  get_silence_duration_ms (state_after (process f) (v, k))
  = (Ok 0%float, state_after (process f) (v, k)).
Proof.
  intros Hsf. unfold result_of, state_after.
  rewrite (process_closed_form v k f Hsf). simpl fst. simpl snd.
  intros H. injection H as Hb _.
  unfold vad_after. rewrite Hb. rewrite andb_false_r.
  rewrite get_silence_duration_closed_form. reflexivity.
Qed.

Lemma speech_resets_silence_witness :
  1 <= smoothing_frames default
  /\ result_of (process Examples.loud) (default, clock Examples.env0) = Ok (true, 1%float)
  /\ result_of get_silence_duration_ms
       (state_after (process Examples.loud) (default, clock Examples.env0)) = Ok 0%float.
Proof.
  assert (H1 : 1 <= smoothing_frames default) by (simpl; lia).
  assert (H2 : result_of (process Examples.loud) (default, clock Examples.env0)
               = Ok (true, 1%float)) by (vm_compute; reflexivity).
  split; [exact H1|]. split; [exact H2|].
  unfold result_of at 1.
  rewrite (speech_resets_silence default (clock Examples.env0) Examples.loud 1%float H1 H2).
  reflexivity.
Defined.

(** The start of a silence is the reading taken when the detector falls
    silent, and it is kept over the silent frames that follow: a silent
    frame on a detector that was speaking reads the clock once and records
    the reading; on a detector that was already silent it reads nothing
    and keeps the start it had. *)
Theorem silence_start_bookkeeping (v : VoiceActivityDetector) (k : Clock) (f : bytes)
    (e : float) :
  1 <= smoothing_frames v ->
  result_of (process f) (v, k) = Ok (false, e) ->
  let v' := fst (state_after (process f) (v, k)) in
  let k' := snd (state_after (process f) (v, k)) in
  is_speaking v' = false
  /\ (is_speaking v = true ->
        silence_start v' = Some (readings k (ticks k)) /\ k' = tick k)
  /\ (is_speaking v = false -> silence_start v' = silence_start v /\ k' = k).
Proof.
  intros Hsf. unfold result_of, state_after.
  rewrite (process_closed_form v k f Hsf). simpl fst. simpl snd.
  intros H. injection H as Hb _.
  unfold vad_after. rewrite Hb.
  destruct (is_speaking v); simpl; repeat split; congruence.
Qed.

Lemma silence_start_bookkeeping_witness :
  let v := mkVAD 0.3%float 5 [0%float] true None in
  1 <= smoothing_frames v
  /\ result_of (process Examples.quiet) (v, clock Examples.env0) = Ok (false, 0%float)
  /\ silence_start (fst (state_after (process Examples.quiet) (v, clock Examples.env0)))
     = Some (Examples.seconds 0).
Proof.
  intros v.
  assert (H1 : 1 <= smoothing_frames v) by (simpl; lia).
  assert (H2 : result_of (process Examples.quiet) (v, clock Examples.env0)
               = Ok (false, 0%float)) by (vm_compute; reflexivity).
  split; [exact H1|]. split; [exact H2|].
  exact (proj1 (proj1 (proj2 (silence_start_bookkeeping v (clock Examples.env0)
                                  Examples.quiet 0%float H1 H2)) eq_refl)).
Defined.

End DetectorMore.

(** ** The pipeline *)

Section PipelineMore.

Import Pipeline.

Implicit Types (c : Ctx) (consumer : VoiceSession -> VoiceSession).

(** What a run of the pipeline leaves when the three stages return. *)
Lemma process_audio_stream_trace c consumer (audio_data : bytes)
    (context : option Context) (transcript : string) (resp : LLMResponse)
    (chunks : list bytes) :
  stt_handler (c_pipeline c) audio_data = Ok transcript ->
  blank transcript = false ->
  llm_handler (c_pipeline c) transcript (session_id (c_session c)) context = Ok resp ->
  tts_handler (c_pipeline c) (response_text resp) = (chunks, None) ->
  let c' := state_after (process_audio_stream audio_data context consumer) c in
  calls (c_env c')
  = calls (c_env c)
    ++ [STT audio_data; LLM transcript (session_id (c_session c)) context;
        TTS (response_text resp)]
  /\ emitted (c_env c') = emitted (c_env c) ++ chunks
  /\ total_requests (c_pipeline c') = total_requests (c_pipeline c) + 1.
Proof.
  intros Hstt Hb Hllm Htts.
  destruct c as [s v p [[rd tk] u n cs em]]. simpl in *.
  unfold blank in Hb. unfold state_after.
  run_monad. rewrite Hstt. run_monad. rewrite Hb. run_monad.
  simpl session_id. rewrite Hllm. run_monad. rewrite Htts.
  rewrite for_each_yield. run_monad.
  match goal with |- context [if ?b then _ else _] => destruct b end.
  all: simpl; rewrite <- !app_assoc; simpl.
  all: repeat split; lia.
Qed.

(** The stages run strictly one after the other, each once, each on what
    the stage before it returned; the chunks of the synthesizer reach the
    consumer in the order they were yielded, and the pipeline counts the
    request. *)
Theorem successful_utterance_trace c consumer (audio_data : bytes)
    (context : option Context) (transcript : string) (resp : LLMResponse)
    (chunks : list bytes) :
  stt_handler (c_pipeline c) audio_data = Ok transcript ->
  blank transcript = false ->
  llm_handler (c_pipeline c) transcript (session_id (c_session c)) context = Ok resp ->
  tts_handler (c_pipeline c) (response_text resp) = (chunks, None) ->
  let c' := state_after (process_audio_stream audio_data context consumer) c in
  calls (c_env c')
  = calls (c_env c)
    ++ [STT audio_data; LLM transcript (session_id (c_session c)) context;
        TTS (response_text resp)]
  /\ emitted (c_env c') = emitted (c_env c) ++ chunks
  /\ total_requests (c_pipeline c') = total_requests (c_pipeline c) + 1.
Proof.
  exact (process_audio_stream_trace c consumer audio_data context transcript resp chunks).
Qed.

Lemma successful_utterance_trace_witness :
  let c' := state_after (process_audio_stream [x01; x02] None (set_state SPEAKING)) alice_ctx in
  calls (c_env c') = [STT [x01; x02]; LLM "hello" alice None; TTS "hi there"]
  /\ emitted (c_env c') = [[x01; x02]; [x03; x04]].
Proof.
  destruct (successful_utterance_trace alice_ctx (set_state SPEAKING) [x01; x02] None
              "hello" (RespDict (Some "hi there"%string)) [[x01; x02]; [x03; x04]]
              eq_refl eq_refl eq_refl eq_refl) as (H1 & H2 & _).
  split; [exact H1 | exact H2].
Defined.

(** Streaming is real: when the synthesizer fails after some chunks, these
    chunks have already reached the consumer, in order; the call raises
    what the synthesizer raised, and the transcript and the counters of
    the two stages that returned are in place. *)
Theorem tts_failure_after_chunks c consumer (audio_data : bytes)
    (context : option Context) (transcript : string) (resp : LLMResponse)
    (chunks : list bytes) (e : exn) :
  (forall s, metrics (consumer s) = metrics s) ->
  (forall s, transcript_buffer (consumer s) = transcript_buffer s) ->
  stt_handler (c_pipeline c) audio_data = Ok transcript ->
  blank transcript = false ->
  llm_handler (c_pipeline c) transcript (session_id (c_session c)) context = Ok resp ->
  tts_handler (c_pipeline c) (response_text resp) = (chunks, Some e) ->
  let c' := state_after (process_audio_stream audio_data context consumer) c in
  let m := metrics (c_session c) in
  result_of (process_audio_stream audio_data context consumer) c = Raise e
  /\ emitted (c_env c') = emitted (c_env c) ++ chunks
  /\ transcript_buffer (c_session c') = transcript
  /\ metrics (c_session c')
     = mkMetrics (total_audio_bytes m) (stt_calls m + 1) (llm_calls m + 1) (tts_calls m)
                 (avg_latency_ms m) (total_latency_ms m)
  /\ state (c_session c') = ERROR.
Proof.
  intros Hm Ht Hstt Hb Hllm Htts.
  destruct c as [s v p [[rd tk] u n cs em]]. simpl in *.
  unfold blank in Hb. unfold result_of, state_after.
  run_monad. rewrite Hstt. run_monad. rewrite Hb. run_monad.
  simpl session_id. rewrite Hllm. run_monad. rewrite Htts.
  rewrite for_each_yield. run_monad. simpl.
  rewrite (fold_consumer_preserves metrics) by exact Hm.
  rewrite (fold_consumer_preserves transcript_buffer) by exact Ht.
  repeat split.
Qed.

Lemma tts_failure_after_chunks_witness :
  let c := mkCtx alice_session VAD.default
                 (Pipeline.init Examples.llm Examples.stt tts_breaks) Examples.env0 in
  let c' := state_after (process_audio_stream [x01; x02] None (set_state SPEAKING)) c in
  result_of (process_audio_stream [x01; x02] None (set_state SPEAKING)) c
  = Raise (Exception "synthesizer down")
  /\ emitted (c_env c') = [[x01; x02]].
Proof.
  intros c.
  destruct (tts_failure_after_chunks c (set_state SPEAKING) [x01; x02] None
              "hello" (RespDict (Some "hi there"%string)) [[x01; x02]]
              (Exception "synthesizer down")
              (fun s => eq_refl) (fun s => eq_refl) eq_refl eq_refl eq_refl eq_refl)
    as (H1 & H2 & _).
  split; [exact H1 | exact H2].
Defined.

(** The statistics of the pipeline count the completed utterances and
    nothing else: [total_requests] goes up by one exactly when all three
    stages returned, and a run that stops earlier, on a blank transcript
    or on a failing stage, leaves the pipeline as it was. *)
Theorem total_requests_counts_completed c (audio_data : bytes) (context : option Context) :
  let c' := state_after (process_audio_stream audio_data context (set_state SPEAKING)) c in
  let done := completes (c_pipeline c) (session_id (c_session c)) audio_data context in
  total_requests (c_pipeline c')
  = total_requests (c_pipeline c) + (if done then 1 else 0)
  /\ (done = false -> c_pipeline c' = c_pipeline c).
Proof.
  destruct c as [s v p [[rd tk] u n cs em]]. unfold state_after, completes, blank.
  run_monad. simpl session_id.
  destruct (stt_handler p audio_data) as [transcript|e1].
  2: { simpl. split; [lia | reflexivity]. }
  run_monad.
  destruct (negb (truthy transcript) || negb (truthy (strip transcript))).
  { simpl. split; [lia | reflexivity]. }
  run_monad. simpl session_id.
  destruct (llm_handler p transcript (session_id s) context) as [resp|e2].
  2: { simpl. split; [lia | reflexivity]. }
  run_monad.
  destruct (tts_handler p (response_text resp)) as [chunks final].
  rewrite for_each_yield. run_monad.
  destruct final as [e3|].
  { simpl. split; [lia | reflexivity]. }
  run_monad.
  match goal with |- context [if ?b then _ else _] => destruct b end.
  all: simpl; split; [reflexivity | discriminate].
Qed.

End PipelineMore.

(** ** The service *)

Section ServiceMore.

Implicit Types (w : World) (sid : string) (c : Ctx) (f : bytes).

(** With an id that is not in use, [create_session] adds one session to
    the registry, and ending that session again leaves the registry as it
    was before. *)
Theorem create_then_end_restores_registry (user : string) w :
  let sid := String.append "rtc_" (substring 0 12 (uuid4_hex (env w) (uuids (env w)))) in
  let w1 := state_after (Service.create_session user) w in
  lookup_session sid w = None ->
  size (registry w1) = S (size (registry w))
  /\ result_of (Service.end_session sid) w1 = Ok true
  /\ registry (state_after (Service.end_session sid) w1) = registry w.
Proof.
  intros sid w1 Hfresh.
  pose proof (created_session_lookup user w) as Hs. cbv zeta in Hs. fold sid w1 in Hs.
  split; [|split].
  - unfold w1, state_after, registry. simpl. apply map_size_insert_None. exact Hfresh.
  - unfold result_of. rewrite (end_session_found _ _ _ Hs). reflexivity.
  - rewrite end_session_registry.
    unfold w1, state_after, registry. simpl. apply delete_insert_id. exact Hfresh.
Qed.

Lemma create_then_end_restores_registry_witness :
  lookup_session alice Examples.fresh = None
  /\ registry (state_after (Service.end_session alice)
                 (state_after (Service.create_session "anonymous") Examples.fresh))
     = registry Examples.fresh.
Proof.
  assert (H : lookup_session alice Examples.fresh = None) by reflexivity.
  split; [exact H|].
  exact (proj2 (proj2 (create_then_end_restores_registry "anonymous" Examples.fresh H))).
Defined.

(** When the id drawn is already in use, [create_session] does not fail
    and does not draw again: the session registered under the id is
    replaced by the new, empty one, and the registry keeps its size. *)
Theorem create_session_collision (user : string) w (old : VoiceSession) :
  let sid := String.append "rtc_" (substring 0 12 (uuid4_hex (env w) (uuids (env w)))) in
  let k := clock (env w) in
  let w1 := state_after (Service.create_session user) w in
  lookup_session sid w = Some old ->
  size (registry w1) = size (registry w)
  /\ lookup_session sid w1
     = Some (mkSession sid user IDLE (readings k (ticks k)) (readings k (S (ticks k)))
                       [] "" default_metrics default_config).
Proof.
  intros sid k w1 H. split.
  - unfold w1, state_after, registry. simpl.
    apply map_size_insert_Some. eexists. exact H.
  - exact (created_session_lookup user w).
Qed.

Lemma create_session_collision_witness :
  exists old s,
    lookup_session "rtc_0123456789ab" colliding = Some old
    /\ user_id old = "first"%string
    /\ lookup_session "rtc_0123456789ab"
         (state_after (Service.create_session "second") colliding) = Some s
    /\ user_id s = "second"%string
    /\ size (registry (state_after (Service.create_session "second") colliding)) = 1%nat.
Proof.
  assert (H : lookup_session "rtc_0123456789ab" colliding
              = Some (mkSession "rtc_0123456789ab" "first" IDLE (Examples.seconds 0)
                                (Examples.seconds 1) [] "" default_metrics default_config))
    by reflexivity.
  destruct (create_session_collision "second" colliding _ H) as [H1 H2].
  eexists. eexists. split; [exact H|]. split; [reflexivity|].
  split; [exact H2|]. split; [reflexivity | exact H1].
Defined.

End ServiceMore.

(** ** Frames on a live session *)

Section FramesMore.

Implicit Types (w : World) (sid : string) (c : Ctx) (f : bytes).

(** What no run of the pipeline touches on the session that it serves. *)
Lemma process_audio_stream_untouched c (audio_data : bytes) (context : option Context) :
  let s := c_session c in
  let s' := c_session (state_after
              (Pipeline.process_audio_stream audio_data context (set_state SPEAKING)) c) in
  session_id s' = session_id s /\ user_id s' = user_id s
  /\ created_at s' = created_at s /\ last_activity s' = last_activity s
  /\ total_audio_bytes (metrics s') = total_audio_bytes (metrics s).
Proof.
  destruct c as [s v p [[rd tk] u n cs em]]. unfold state_after.
  assert (Hf : forall (B : Type) (proj : VoiceSession -> B) chunks s0,
             (forall s, proj (set_state SPEAKING s) = proj s) ->
             proj (fold_left (fun s _ => set_state SPEAKING s) chunks s0) = proj s0)
    by (intros; apply (fold_consumer_preserves proj); assumption).
  run_monad.
  destruct (stt_handler p audio_data) as [transcript|e1]; [|simpl; repeat split].
  run_monad.
  destruct (negb (truthy transcript) || negb (truthy (strip transcript)));
    [simpl; repeat split|].
  run_monad.
  destruct (llm_handler p _ _ context) as [resp|e2]; [|simpl; repeat split].
  run_monad.
  destruct (tts_handler p (Pipeline.response_text resp)) as [chunks final].
  rewrite for_each_yield. run_monad.
  destruct final as [e3|].
  { simpl. rewrite !Hf by reflexivity. simpl. repeat split. }
  run_monad.
  match goal with |- context [if ?b then _ else _] => destruct b end.
  all: simpl; rewrite !Hf by reflexivity; simpl; repeat split.
Qed.

(** The accounting of [process_audio_chunk], on the session. *)
Lemma chunk_body_accounting c f :
  let s := c_session c in
  let s' := c_session (state_after (chunk_body f) c) in
  total_audio_bytes (metrics s') = total_audio_bytes (metrics s) + len f
  /\ last_activity s' = readings (clock (c_env c)) (ticks (clock (c_env c)))
  /\ session_id s' = session_id s /\ user_id s' = user_id s
  /\ created_at s' = created_at s.
Proof.
  destruct c as [s v p [[rd tk] u n cs em]]. unfold state_after.
  run_body.
  destruct (VAD.process f (v, _)) as [[[b en]|ex] [v' k']]; [|simpl; repeat split].
  run_body. destruct b; [simpl; repeat split|].
  destruct (VAD.get_silence_duration_ms (v', k')) as [[d|ex] [v'' k'']];
    [|simpl; repeat split].
  run_body.
  match goal with |- context [if ?b then _ else _] => destruct b end;
    [|simpl; repeat split].
  run_body.
  match goal with
  | |- context [Pipeline.process_audio_stream ?a ?x ?cons ?c0] =>
      pose proof (process_audio_stream_untouched c0 a x) as Hu;
      unfold state_after in Hu; cbv zeta in Hu;
      destruct (Pipeline.process_audio_stream a x cons c0) as [[[]|ex] c1]
  end.
  all: simpl in Hu; destruct Hu as (H1 & H2 & H3 & H4 & H5).
  all: simpl; repeat split.
  all: first [exact H5 | exact H4 | exact H1 | exact H2 | exact H3].
Qed.

(** Every frame that comes for a live session is accounted for, whatever
    becomes of it: [total_audio_bytes] grows by the length of the frame and
    [last_activity] is the time of its arrival, also when the detector or a
    stage of the pipeline raises. The identity of the session is kept. *)
Theorem every_frame_is_accounted w sid (s : VoiceSession) f :
  lookup_session sid w = Some s ->
  exists s' : VoiceSession,
    lookup_session sid (state_after (Service.process_audio_chunk sid f) w) = Some s'
    /\ total_audio_bytes (metrics s') = total_audio_bytes (metrics s) + len f
    /\ last_activity s' = readings (clock (env w)) (ticks (clock (env w)))
    /\ session_id s' = session_id s /\ user_id s' = user_id s
    /\ created_at s' = created_at s.
Proof.
  intros Hs.
  destruct (process_audio_chunk_on_session sid f w s Hs) as [H1 _].
  eexists. split; [exact H1|].
  exact (chunk_body_accounting (ctx_of s w) f).
Qed.

Lemma every_frame_is_accounted_witness :
  exists s',
    lookup_session alice (state_after (Service.process_audio_chunk alice Examples.quiet)
                                      (Examples.crowded 1)) = Some s'
    /\ total_audio_bytes (metrics s') = 4096.
Proof.
  destruct (every_frame_is_accounted (Examples.crowded 1) alice alice_session Examples.quiet
              alice_is_fresh) as (s' & H1 & H2 & _).
  exists s'. split; [exact H1|]. rewrite H2. vm_compute. reflexivity.
Defined.

Lemma chunk_body_silence c f (e : float) :
  result_of (VAD.process f) (c_vad c, tick (clock (c_env c))) = Ok (false, e) ->
  let s := c_session c in
  let c' := state_after (chunk_body f) c in
  (audio_buffer (c_session c') = audio_buffer s \/ audio_buffer (c_session c') = [])
  /\ (audio_buffer s = [] ->
        result_of (chunk_body f) c = Ok tt
        /\ audio_buffer (c_session c') = []
        /\ dispatched (c_env c') = dispatched (c_env c)
        /\ emitted (c_env c') = emitted (c_env c)).
Proof.
  intros Hp. destruct c as [s v p [[rd tk] u n cs em]].
  unfold result_of, state_after in *. simpl in Hp.
  change (tick (mkClock rd tk)) with (mkClock rd (S tk)) in Hp.
  run_body.
  destruct (VAD.process f (v, mkClock rd (S tk))) as [[[b en]|ex] [v' k']];
    simpl in Hp; [|discriminate].
  injection Hp as -> ->. run_body.
  rewrite get_silence_duration_closed_form. run_body.
  cbn [metrics config audio_buffer set_metrics set_last_activity].
  destruct (audio_buffer s) as [|b0 buf] eqn:Hbuf.
  - rewrite andb_false_r. simpl. rewrite Hbuf. split; [left; reflexivity|].
    intros _. repeat split.
  - split; [|discriminate].
    match goal with |- context [if ?b then _ else _] => destruct b end.
    + run_body.
      match goal with
      | |- context [Pipeline.process_audio_stream ?a ?x ?cons ?c0] =>
          pose proof (process_audio_stream_frame c0 a x) as Hf;
          unfold state_after in Hf; cbv zeta in Hf;
          destruct (Pipeline.process_audio_stream a x cons c0) as [[[]|ex] c1]
      end.
      all: simpl in Hf; destruct Hf as (Hf1 & _).
      all: right; simpl; exact Hf1.
    + left. simpl. exact Hbuf.
Qed.

(** A frame that the detector takes for silence never adds to the buffer:
    the buffer is left as it is, or it is handed to the pipeline and left
    empty. With an empty buffer nothing is dispatched or yielded, however
    long the silence has lasted. *)
Theorem silence_never_grows_buffer w sid (s : VoiceSession) f (e : float) :
  lookup_session sid w = Some s ->
  result_of (VAD.process f) (vad (service w), tick (clock (env w))) = Ok (false, e) ->
  let w' := state_after (Service.process_audio_chunk sid f) w in
  exists s' : VoiceSession,
    lookup_session sid w' = Some s'
    /\ (audio_buffer s' = audio_buffer s \/ audio_buffer s' = [])
    /\ (audio_buffer s = [] ->
          result_of (Service.process_audio_chunk sid f) w = Ok tt
          /\ audio_buffer s' = []
          /\ dispatched (env w') = dispatched (env w)
          /\ emitted (env w') = emitted (env w)).
Proof.
  intros Hs Hp w'.
  destruct (process_audio_chunk_on_session sid f w s Hs) as [H1 H2].
  destruct (chunk_body_silence (ctx_of s w) f e Hp) as [Ha Hb].
  eexists. split; [exact H1|]. split; [exact Ha|].
  intros Hempty. destruct (Hb Hempty) as (R1 & R2 & R3 & R4).
  unfold result_of.
  rewrite (process_audio_chunk_found sid s f w Hs), with_session_run. simpl fst.
  split; [exact R1|]. split; [exact R2|].
  unfold w'. fold (state_after (Service.process_audio_chunk sid f) w).
  apply (f_equal c_env) in H2. simpl in H2. rewrite H2.
  split; [exact R3 | exact R4].
Qed.

Lemma silence_never_grows_buffer_witness :
  exists s',
    lookup_session alice (state_after (Service.process_audio_chunk alice Examples.quiet)
                                      (Examples.crowded 1)) = Some s'
    /\ audio_buffer s' = [].
Proof.
  assert (Hp : result_of (VAD.process Examples.quiet)
                 (vad (service (Examples.crowded 1)),
                  tick (clock (env (Examples.crowded 1)))) = Ok (false, 0%float))
    by (vm_compute; reflexivity).
  destruct (silence_never_grows_buffer (Examples.crowded 1) alice alice_session
              Examples.quiet 0%float alice_is_fresh Hp) as (s' & H1 & _ & H3).
  exists s'. split; [exact H1|]. exact (proj1 (proj2 (H3 eq_refl))).
Defined.

Lemma successful_utterance_transcript c (audio_data : bytes) (context : option Context)
    (transcript : string) (resp : LLMResponse) (chunks : list bytes) :
  stt_handler (c_pipeline c) audio_data = Ok transcript ->
  blank transcript = false ->
  llm_handler (c_pipeline c) transcript (session_id (c_session c)) context = Ok resp ->
  tts_handler (c_pipeline c) (Pipeline.response_text resp) = (chunks, None) ->
  transcript_buffer (c_session (state_after
     (Pipeline.process_audio_stream audio_data context (set_state SPEAKING)) c)) = transcript.
Proof.
  intros Hstt Hb Hllm Htts.
  destruct c as [s v p [[rd tk] u n cs em]]. simpl in *.
  unfold blank in Hb. unfold state_after.
  run_monad. rewrite Hstt. run_monad. rewrite Hb. run_monad.
  simpl session_id. rewrite Hllm. run_monad. rewrite Htts.
  rewrite for_each_yield. run_monad.
  match goal with |- context [if ?b then _ else _] => destruct b end.
  all: simpl; rewrite (fold_consumer_preserves transcript_buffer) by reflexivity.
  all: reflexivity.
Qed.

Lemma chunk_body_cycle c f (e d : float) (transcript : string) (resp : LLMResponse)
    (chunks : list bytes) :
  let s := c_session c in
  let p := c_pipeline c in
  result_of (VAD.process f) (c_vad c, tick (clock (c_env c))) = Ok (false, e) ->
  result_of VAD.get_silence_duration_ms
    (state_after (VAD.process f) (c_vad c, tick (clock (c_env c)))) = Ok d ->
  (float_of_int (silence_timeout_ms (config s)) <=? d)%float = true ->
  audio_buffer s <> [] ->
  stt_handler p (audio_buffer s) = Ok transcript ->
  blank transcript = false ->
  llm_handler p transcript (session_id s) None = Ok resp ->
  tts_handler p (Pipeline.response_text resp) = (chunks, None) ->
  stt_calls (metrics s) + 1 <> 0 ->
  let c' := state_after (chunk_body f) c in
  let s' := c_session c' in
  result_of (chunk_body f) c = Ok tt
  /\ state s' = IDLE /\ audio_buffer s' = [] /\ transcript_buffer s' = transcript
  /\ stt_calls (metrics s') = stt_calls (metrics s) + 1
  /\ llm_calls (metrics s') = llm_calls (metrics s) + 1
  /\ tts_calls (metrics s') = tts_calls (metrics s) + 1
  /\ emitted (c_env c') = emitted (c_env c) ++ chunks
  /\ dispatched (c_env c') = dispatched (c_env c) ++ [audio_buffer s].
Proof.
  destruct c as [s v p [[rd tk] u n cs em]]. cbv zeta.
  unfold result_of, state_after. simpl c_session. simpl c_pipeline. simpl c_vad.
  simpl c_env. simpl clock. change (tick (mkClock rd tk)) with (mkClock rd (S tk)).
  intros Hp Hd Hto Hbuf Hstt Hb Hllm Htts Hnz.
  run_body.
  destruct (VAD.process f (v, mkClock rd (S tk))) as [[[b en]|ex] [v' k']];
    simpl in Hp; [|discriminate].
  injection Hp as -> ->. simpl in Hd. run_body.
  destruct (VAD.get_silence_duration_ms (v', k')) as [[d'|ex] [v'' k'']];
    simpl in Hd; [|discriminate].
  injection Hd as ->. run_body.
  cbn [metrics config audio_buffer set_metrics set_last_activity].
  rewrite Hto, (nonempty_true _ Hbuf). cbn [andb]. run_body.
  match goal with
  | |- context [Pipeline.process_audio_stream ?a ?x ?cons ?c0] =>
      pose proof (successful_utterance_metrics c0 cons a x transcript resp chunks
                    (fun s => eq_refl) Hstt Hb Hllm Htts Hnz) as [Hr Hm];
      pose proof (process_audio_stream_trace c0 cons a x transcript resp chunks
                    Hstt Hb Hllm Htts) as (_ & Hem & _);
      pose proof (successful_utterance_transcript c0 a x transcript resp chunks
                    Hstt Hb Hllm Htts) as Htr;
      pose proof (process_audio_stream_frame c0 a x) as (Hf1 & _ & Hf3 & _);
      unfold result_of, state_after in Hr, Hm, Hem, Htr, Hf1, Hf3;
      destruct (Pipeline.process_audio_stream a x cons c0) as [r c1]
  end.
  simpl in Hr, Hm, Hem, Htr, Hf1, Hf3. subst r. simpl.
  split; [reflexivity|]. split; [reflexivity|].
  split; [exact Hf1|]. split; [exact Htr|].
  split; [exact (f_equal stt_calls Hm)|].
  split; [exact (f_equal llm_calls Hm)|].
  split; [exact (f_equal tts_calls Hm)|].
  split; [exact Hem | exact Hf3].
Qed.

(** A full utterance cycle: a frame of silence that finds the silence at
    or beyond the timeout and the buffer not empty hands the buffer to the
    pipeline; when the three stages return, the chunks of the reply have
    been yielded in order, the session is back in state IDLE with an empty
    buffer and the transcript of the utterance, and each of the three
    stage counters has gone up by exactly one. *)
Theorem utterance_cycle w sid (s : VoiceSession) f (e d : float) (transcript : string)
    (resp : LLMResponse) (chunks : list bytes) :
  let p := pipeline (service w) in
  let heard := (vad (service w), tick (clock (env w))) in
  lookup_session sid w = Some s ->
  result_of (VAD.process f) heard = Ok (false, e) ->
  result_of VAD.get_silence_duration_ms (state_after (VAD.process f) heard) = Ok d ->
  (float_of_int (silence_timeout_ms (config s)) <=? d)%float = true ->
  audio_buffer s <> [] ->
  stt_handler p (audio_buffer s) = Ok transcript ->
  blank transcript = false ->
  llm_handler p transcript (session_id s) None = Ok resp ->
  tts_handler p (Pipeline.response_text resp) = (chunks, None) ->
  stt_calls (metrics s) + 1 <> 0 ->
  let w' := state_after (Service.process_audio_chunk sid f) w in
  result_of (Service.process_audio_chunk sid f) w = Ok tt
  /\ exists s' : VoiceSession,
       lookup_session sid w' = Some s'
       /\ state s' = IDLE /\ audio_buffer s' = [] /\ transcript_buffer s' = transcript
       /\ stt_calls (metrics s') = stt_calls (metrics s) + 1
       /\ llm_calls (metrics s') = llm_calls (metrics s) + 1
       /\ tts_calls (metrics s') = tts_calls (metrics s) + 1
       /\ emitted (env w') = emitted (env w) ++ chunks
       /\ dispatched (env w') = dispatched (env w) ++ [audio_buffer s].
Proof.
  intros p heard Hs Hp Hd Hto Hbuf Hstt Hb Hllm Htts Hnz w'.
  destruct (process_audio_chunk_on_session sid f w s Hs) as [H1 H2].
  destruct (chunk_body_cycle (ctx_of s w) f e d transcript resp chunks
              Hp Hd Hto Hbuf Hstt Hb Hllm Htts Hnz)
    as (R0 & R1 & R2 & R3 & R4 & R5 & R6 & R7 & R8).
  split.
  - unfold result_of.
    rewrite (process_audio_chunk_found sid s f w Hs), with_session_run. exact R0.
  - eexists. split; [exact H1|].
    apply (f_equal c_env) in H2. simpl in H2. unfold w'. rewrite H2.
    repeat split; assumption.
Qed.

Lemma utterance_cycle_witness :
  exists s',
    lookup_session alice
      (state_after (Service.process_audio_chunk alice Examples.quiet) at_boundary) = Some s'
    /\ state s' = IDLE /\ audio_buffer s' = [] /\ transcript_buffer s' = "hello"%string
    /\ stt_calls (metrics s') = 1
    /\ emitted (env (state_after (Service.process_audio_chunk alice Examples.quiet)
                                 at_boundary)) = [[x01; x02]; [x03; x04]].
Proof.
  assert (Hs : lookup_session alice at_boundary
               = Some (set_audio_buffer [x01; x02] alice_session)) by reflexivity.
  assert (Hp : result_of (VAD.process Examples.quiet)
                 (vad (service at_boundary), tick (clock (env at_boundary)))
               = Ok (false, 0%float)) by (vm_compute; reflexivity).
  assert (Hd : result_of VAD.get_silence_duration_ms
                 (state_after (VAD.process Examples.quiet)
                    (vad (service at_boundary), tick (clock (env at_boundary))))
               = Ok 11000%float) by (vm_compute; reflexivity).
  destruct (utterance_cycle at_boundary alice _ Examples.quiet 0%float 11000%float
              "hello" (RespDict (Some "hi there"%string)) [[x01; x02]; [x03; x04]]
              Hs Hp Hd eq_refl ltac:(discriminate) eq_refl eq_refl eq_refl eq_refl
              ltac:(discriminate))
    as (_ & s' & H1 & H2 & H3 & H4 & H5 & _ & _ & H8 & _).
  exists s'. repeat split; assumption.
Defined.

End FramesMore.

(** ** Complete recordings *)

Section CompleteAudio.

Implicit Types (w : World) (sid : string) (c : Ctx).

Lemma process_complete_audio_found sid (s : VoiceSession) (audio_data : bytes)
    (context : option Context) w :
  lookup_session sid w = Some s ->
  Service.process_complete_audio sid audio_data context w
  = Service.with_session sid s (complete_body audio_data context) w.
Proof.
  intros H. unfold Service.process_complete_audio. unfold bind at 1.
  rewrite get_session_lookup. rewrite H. reflexivity.
Qed.

Lemma process_complete_audio_missing sid (audio_data : bytes) (context : option Context) w :
  lookup_session sid w = None ->
  let new_id := String.append "rtc_" (substring 0 12 (uuid4_hex (env w) (uuids (env w)))) in
  let k := clock (env w) in
  let s := mkSession new_id "anonymous" IDLE (readings k (ticks k)) (readings k (S (ticks k)))
                     [] "" default_metrics default_config in
  Service.process_complete_audio sid audio_data context w
  = Service.with_session new_id s (complete_body audio_data context)
      (state_after (Service.create_session "anonymous") w).
Proof.
  intros H. cbv zeta. unfold Service.process_complete_audio. unfold bind at 1.
  rewrite get_session_lookup. rewrite H. reflexivity.
Qed.

(** What [process_complete_audio] does to the session: the pipeline runs
    on it, and it keeps its identity whatever the handlers do. *)
Lemma complete_body_frame c (audio_data : bytes) (context : option Context) :
  let s := c_session c in
  let c' := state_after (complete_body audio_data context) c in
  session_id (c_session c') = session_id s /\ user_id (c_session c') = user_id s
  /\ audio_buffer (c_session c') = audio_buffer s
  /\ dispatched (c_env c') = dispatched (c_env c) ++ [audio_data].
Proof.
  destruct c as [s v p [[rd tk] u n cs em]]. unfold state_after, complete_body.
  run_body.
  match goal with
  | |- context [Pipeline.process_audio_stream ?a ?x ?cons ?c0] =>
      pose proof (process_audio_stream_untouched c0 a x) as (U1 & U2 & _);
      pose proof (process_audio_stream_frame c0 a x) as (F1 & _ & F3 & _);
      unfold state_after in U1, U2, F1, F3;
      destruct (Pipeline.process_audio_stream a x cons c0) as [[[]|ex] c1]
  end.
  all: simpl in U1, U2, F1, F3; simpl.
  all: split; [exact U1|]; split; [exact U2|]; split; [exact F1 | exact F3].
Qed.

(** A complete recording for an id that is not registered is not refused:
    a new session is made for the anonymous user under a newly drawn id,
    and the recording is run through the pipeline on that session. The id
    that was asked for stays unregistered. *)
Theorem process_complete_audio_unknown_id sid (audio_data : bytes)
    (context : option Context) w :
  lookup_session sid w = None ->
  let new_id := String.append "rtc_" (substring 0 12 (uuid4_hex (env w) (uuids (env w)))) in
  let w' := state_after (Service.process_complete_audio sid audio_data context) w in
  (exists s' : VoiceSession,
     lookup_session new_id w' = Some s'
     /\ session_id s' = new_id /\ user_id s' = "anonymous"%string)
  /\ (sid <> new_id -> lookup_session sid w' = None)
  /\ dispatched (env w') = dispatched (env w) ++ [audio_data].
Proof.
  intros H new_id w'. unfold w', state_after.
  rewrite (process_complete_audio_missing sid audio_data context w H), with_session_run.
  cbv zeta. fold new_id.
  match goal with
  | |- context [complete_body ?a ?x ?c0] =>
      destruct (complete_body_frame c0 a x) as (F1 & F2 & _ & F4);
      unfold state_after in F1, F2, F4
  end.
  unfold lookup_session, registry. simpl. split; [|split].
  - eexists. rewrite lookup_insert_eq. split; [reflexivity|]. split; [exact F1 | exact F2].
  - intros Hne.
    rewrite lookup_insert_ne by (intros E; apply Hne; symmetry; exact E).
    rewrite lookup_insert_ne by (intros E; apply Hne; symmetry; exact E).
    exact H.
  - exact F4.
Qed.

Lemma process_complete_audio_unknown_id_witness :
  lookup_session "rtc_nobody" Examples.fresh = None
  /\ (exists s',
        lookup_session alice
          (state_after (Service.process_complete_audio "rtc_nobody" [x01; x02] None)
                       Examples.fresh) = Some s'
        /\ user_id s' = "anonymous"%string)
  /\ lookup_session "rtc_nobody"
       (state_after (Service.process_complete_audio "rtc_nobody" [x01; x02] None)
                    Examples.fresh) = None.
Proof.
  assert (H : lookup_session "rtc_nobody" Examples.fresh = None) by reflexivity.
  destruct (process_complete_audio_unknown_id "rtc_nobody" [x01; x02] None Examples.fresh H)
    as ((s' & H1 & _ & H3) & H4 & _).
  split; [exact H|]. split.
  - exists s'. split; [exact H1 | exact H3].
  - apply H4. discriminate.
Defined.

Lemma process_audio_stream_raise_state c (consumer : VoiceSession -> VoiceSession)
    (audio_data : bytes) (context : option Context) :
  is_ok (result_of (Pipeline.process_audio_stream audio_data context consumer) c) = false ->
  state (c_session (state_after (Pipeline.process_audio_stream audio_data context consumer) c))
  = ERROR.
Proof.
  destruct c as [s v p [[rd tk] u n cs em]]. unfold result_of, state_after.
  run_monad.
  destruct (stt_handler p audio_data) as [transcript|e1]; [|reflexivity].
  run_monad.
  destruct (negb (truthy transcript) || negb (truthy (strip transcript)));
    [discriminate|].
  run_monad. simpl session_id.
  destruct (llm_handler p transcript (session_id s) context) as [resp|e2]; [|reflexivity].
  run_monad.
  destruct (tts_handler p (Pipeline.response_text resp)) as [chunks final].
  rewrite for_each_yield. run_monad.
  destruct final as [e3|]; [reflexivity|].
  run_monad.
  match goal with |- context [if ?b then _ else _] => destruct b end.
  all: simpl; intros H; first [reflexivity | discriminate H].
Qed.

Lemma complete_body_run c (audio_data : bytes) (context : option Context) :
  let s := c_session c in
  let c' := state_after (complete_body audio_data context) c in
  c_vad c' = c_vad c
  /\ state (c_session c')
     = (if is_ok (result_of (complete_body audio_data context) c) then IDLE else ERROR)
  /\ last_activity (c_session c') = last_activity s
  /\ total_audio_bytes (metrics (c_session c')) = total_audio_bytes (metrics s).
Proof.
  destruct c as [s v p [[rd tk] u n cs em]]. unfold result_of, state_after, complete_body.
  run_body.
  match goal with
  | |- context [Pipeline.process_audio_stream ?a ?x ?cons ?c0] =>
      pose proof (process_audio_stream_untouched c0 a x) as (_ & _ & _ & U4 & U5);
      pose proof (process_audio_stream_keeps_vad c0 cons a x) as V;
      pose proof (process_audio_stream_raise_state c0 cons a x) as R;
      unfold result_of, state_after in U4, U5, V, R;
      destruct (Pipeline.process_audio_stream a x cons c0) as [[[]|ex] c1]
  end.
  all: simpl in U4, U5, V, R; simpl.
  - split; [exact V|]. split; [reflexivity|]. split; [exact U4 | exact U5].
  - split; [exact V|]. split; [exact (R eq_refl)|]. split; [exact U4 | exact U5].
Qed.

(** A complete recording goes past the detector and the buffer: the
    detector is left as it was, and so are what the session has buffered,
    its time of last activity and its count of audio bytes; the recording
    itself is what the transcriber gets. The session ends idle when the
    pipeline returned and in the error state when it raised. *)
Theorem complete_audio_bypasses_detector sid (s : VoiceSession) (audio_data : bytes)
    (context : option Context) w :
  lookup_session sid w = Some s ->
  let run := Service.process_complete_audio sid audio_data context in
  let w' := state_after run w in
  vad (service w') = vad (service w)
  /\ dispatched (env w') = dispatched (env w) ++ [audio_data]
  /\ exists s' : VoiceSession,
       lookup_session sid w' = Some s'
       /\ state s' = (if is_ok (result_of run w) then IDLE else ERROR)
       /\ audio_buffer s' = audio_buffer s
       /\ last_activity s' = last_activity s
       /\ total_audio_bytes (metrics s') = total_audio_bytes (metrics s).
Proof.
  intros H run w'. unfold w', run, result_of, state_after.
  rewrite (process_complete_audio_found sid s audio_data context w H), with_session_run.
  destruct (complete_body_frame (ctx_of s w) audio_data context) as (_ & _ & F3 & F4).
  destruct (complete_body_run (ctx_of s w) audio_data context) as (R1 & R2 & R3 & R4).
  unfold result_of, state_after in F3, F4, R1, R2, R3, R4.
  unfold lookup_session, registry. cbn [fst snd service env vad sessions].
  split; [exact R1|]. split; [exact F4|].
  eexists. rewrite lookup_insert_eq. split; [reflexivity|].
  split; [exact R2|]. split; [exact F3|]. split; [exact R3 | exact R4].
Qed.

Lemma complete_audio_bypasses_detector_witness :
  let w' := state_after (Service.process_complete_audio alice [x01; x02] None) at_boundary in
  vad (service w') = vad (service at_boundary)
  /\ exists s' : VoiceSession,
       lookup_session alice w' = Some s'
       /\ state s' = IDLE /\ audio_buffer s' = [x01; x02].
Proof.
  intros w'.
  assert (Hs : lookup_session alice at_boundary
               = Some (set_audio_buffer [x01; x02] alice_session)) by reflexivity.
  destruct (complete_audio_bypasses_detector alice _ [x01; x02] None at_boundary Hs)
    as (H1 & _ & s' & H2 & H3 & H4 & _).
  split; [exact H1|]. exists s'. split; [exact H2|]. split; [|exact H4].
  rewrite H3.
  replace (is_ok (result_of (Service.process_complete_audio alice [x01; x02] None)
                            at_boundary)) with true by (vm_compute; reflexivity).
  reflexivity.
Defined.

End CompleteAudio.

(** ** The reaper *)

Section Reaper.

Implicit Types (w : World) (sid : string) (m : gmap string VoiceSession).

Lemma end_session_run sid w :
  state_after (Service.end_session sid) w
  = mkWorld (Service.set_sessions (delete sid (registry w)) (service w)) (env w)
  /\ is_ok (result_of (Service.end_session sid) w) = true.
Proof.
  unfold state_after, result_of. destruct (lookup_session sid w) as [s|] eqn:H.
  - rewrite (end_session_found _ _ _ H). split; reflexivity.
  - rewrite (end_session_missing _ _ H). simpl. split; [|reflexivity].
    unfold lookup_session in H. rewrite (delete_id _ _ H).
    destruct w as [[reg p v sc] e]. reflexivity.
Qed.

Lemma for_each_end_session (ids : list string) :
  forall w,
  for_each ids (fun sid => bind (Service.end_session sid) (fun _ => ret tt)) w
  = (Ok tt, mkWorld (Service.set_sessions (remove_all ids (registry w)) (service w)) (env w)).
Proof.
  induction ids as [|sid ids IH]; intros w.
  - simpl. unfold ret, remove_all. simpl. destruct w as [[reg p v sc] e]. reflexivity.
  - simpl for_each. unfold bind at 1. unfold bind at 1.
    destruct (end_session_run sid w) as [Hst Hok].
    unfold state_after, result_of in Hst, Hok.
    destruct (Service.end_session sid w) as [[b|ex] w1]; simpl in Hst, Hok; [|discriminate].
    unfold ret at 1. rewrite IH. subst w1. reflexivity.
Qed.

Lemma lookup_remove_all (ids : list string) :
  forall m (k : string),
  remove_all ids m !! k = if bool_decide (k ∈ ids) then None else m !! k.
Proof.
  induction ids as [|sid ids IH]; intros m k.
  - reflexivity.
  - unfold remove_all in *. simpl fold_left. rewrite IH.
    destruct (bool_decide (k ∈ ids)) eqn:E.
    + apply bool_decide_eq_true_1 in E.
      rewrite bool_decide_eq_true_2; [reflexivity | apply elem_of_cons; right; exact E].
    + apply bool_decide_eq_false_1 in E.
      destruct (decide (k = sid)) as [->|Hne].
      * rewrite lookup_delete_eq.
        rewrite bool_decide_eq_true_2; [reflexivity | apply elem_of_cons; left; reflexivity].
      * rewrite lookup_delete_ne by congruence.
        rewrite bool_decide_eq_false_2; [reflexivity|].
        intros H. apply elem_of_cons in H as [H|H]; [congruence | contradiction].
Qed.

Lemma size_remove_all (ids : list string) :
  forall m,
  NoDup ids -> (forall k, k ∈ ids -> is_Some (m !! k)) ->
  (size (remove_all ids m) + length ids = size m)%nat.
Proof.
  induction ids as [|sid ids IH]; intros m Hnd Hin.
  - simpl. lia.
  - apply NoDup_cons in Hnd as [Hnotin Hnd].
    unfold remove_all in *. simpl fold_left. simpl length.
    rewrite Nat.add_succ_r, IH; [| exact Hnd |].
    + destruct (Hin sid ltac:(apply elem_of_cons; left; reflexivity)) as [s Hs].
      assert (Hsome : is_Some (m !! sid)) by (eexists; exact Hs).
      rewrite (map_size_delete_Some sid m Hsome).
      pose proof (map_size_ne_0_lookup_2 m sid Hsome).
      lia.
    + intros k Hk. rewrite lookup_delete_ne.
      * apply Hin. apply elem_of_cons. right. exact Hk.
      * intros ->. contradiction.
Qed.

Lemma elem_of_stale (p : VoiceSession -> bool) (items : list (string * VoiceSession))
    (k : string) :
  k ∈ map fst (List.filter (fun item => p (snd item)) items)
  <-> exists s, (k, s) ∈ items /\ p s = true.
Proof.
  induction items as [|[k0 s0] items IH]; simpl.
  - split; [intros H; inversion H | intros (s & H & _); inversion H].
  - destruct (p s0) eqn:E; simpl.
    + rewrite elem_of_cons, IH. split.
      * intros [->|(s & H & Hp)].
        -- exists s0. split; [apply elem_of_cons; left; reflexivity | exact E].
        -- exists s. split; [apply elem_of_cons; right; exact H | exact Hp].
      * intros (s & H & Hp). apply elem_of_cons in H as [H|H].
        -- left. congruence.
        -- right. exists s. split; assumption.
    + rewrite IH. split.
      * intros (s & H & Hp). exists s. split; [apply elem_of_cons; right; exact H | exact Hp].
      * intros (s & H & Hp). apply elem_of_cons in H as [H|H].
        -- injection H as -> ->. congruence.
        -- exists s. split; assumption.
Qed.

Lemma NoDup_stale (p : VoiceSession -> bool) (items : list (string * VoiceSession)) :
  NoDup (items.*1) -> NoDup (map fst (List.filter (fun item => p (snd item)) items)).
Proof.
  induction items as [|[k0 s0] items IH]; simpl; intros Hnd.
  - constructor.
  - apply NoDup_cons in Hnd as [Hnotin Hnd].
    destruct (p s0); simpl; [|apply IH; exact Hnd].
    apply NoDup_cons. split; [|apply IH; exact Hnd].
    intros H. apply elem_of_stale in H as (s & H & _).
    apply Hnotin. exact (list_elem_of_fmap_2 fst items (k0, s) H).
Qed.

(** The reaper removes the stale sessions and only them: a session is gone
    afterwards exactly when its last activity lies more than the timeout
    before the one reading of the clock that the sweep takes; every other
    session is left as it is; and the number returned is the number of
    sessions removed. *)
Theorem cleanup_removes_exactly_the_stale w :
  let t := readings (clock (env w)) (ticks (clock (env w))) in
  let timeout := session_timeout_sec (service_config (service w)) in
  let w' := state_after cleanup_stale_sessions w in
  exists n : Z,
    result_of cleanup_stale_sessions w = Ok n
    /\ Z.of_nat (size (registry w')) + n = Z.of_nat (size (registry w))
    /\ (forall sid s, lookup_session sid w = Some s ->
          lookup_session sid w' = if is_stale t timeout s then None else Some s)
    /\ (forall sid, lookup_session sid w = None -> lookup_session sid w' = None)
    /\ ticks (clock (env w')) = S (ticks (clock (env w))).
Proof.
  intros t timeout w'.
  set (stale := map fst (List.filter (fun item => is_stale t timeout (snd item))
                                     (map_to_list (registry w)))).
  assert (Hrun : cleanup_stale_sessions w
                 = (Ok (len stale),
                    mkWorld (Service.set_sessions (remove_all stale (registry w)) (service w))
                            (set_clock (tick (clock (env w))) (env w)))).
  { unfold cleanup_stale_sessions. unfold bind at 1.
    unfold Service.now, zoom, time_time. cbn [fst snd env service].
    unfold bind at 1. unfold Service.self_ at 1. cbn [service].
    unfold bind at 1. rewrite for_each_end_session. reflexivity. }
  exists (len stale). unfold w', result_of, state_after. rewrite Hrun. cbn [fst snd].
  split; [reflexivity|].
  assert (Hin : forall k, k ∈ stale <-> exists s, registry w !! k = Some s
                                                   /\ is_stale t timeout s = true).
  { intros k. unfold stale. rewrite elem_of_stale. split.
    - intros (s & H & Hp). exists s. split; [apply elem_of_map_to_list; exact H | exact Hp].
    - intros (s & H & Hp). exists s. split; [apply elem_of_map_to_list; exact H | exact Hp]. }
  pose proof (size_remove_all stale (registry w)) as Hsize.
  unfold lookup_session, registry in *.
  cbn [service sessions Service.set_sessions env].
  split; [|split; [|split]].
  - unfold len. rewrite <- Hsize.
    + lia.
    + apply NoDup_stale. apply NoDup_fst_map_to_list.
    + intros k Hk. apply Hin in Hk as (s & Hs & _). eexists. exact Hs.
  - intros sid s Hs. rewrite lookup_remove_all.
    destruct (is_stale t timeout s) eqn:E.
    + rewrite bool_decide_eq_true_2; [reflexivity|]. apply Hin. exists s. split; assumption.
    + rewrite bool_decide_eq_false_2; [exact Hs|].
      intros H. apply Hin in H as (s1 & Hs1 & Hp).
      rewrite Hs in Hs1. injection Hs1 as <-. congruence.
  - intros sid Hs. rewrite lookup_remove_all.
    destruct (bool_decide (sid ∈ stale)); [reflexivity | exact Hs].
  - reflexivity.
Qed.

End Reaper.

(** ** The default handlers *)

Section Handlers.

Import Pipeline.

Implicit Types (c : Ctx) (consumer : VoiceSession -> VoiceSession).

Implicit Types (builtin : exn -> string).

(** An agent that raises does not fail the utterance: the LLM stage counts
    as done, and what the synthesizer is asked to speak, and the consumer
    receives, is the apology with the agent's error message in it. *)
Theorem agent_error_is_spoken builtin c consumer (agent : Agent) (audio_data : bytes)
    (context : option Context) (transcript : string) (e : exn) (chunks : list bytes) :
  (forall s, metrics (consumer s) = metrics s) ->
  llm_handler (c_pipeline c) = _handle_llm builtin (Some agent) ->
  stt_handler (c_pipeline c) audio_data = Ok transcript ->
  blank transcript = false ->
  agent transcript (session_id (c_session c)) context = Raise e ->
  tts_handler (c_pipeline c) (apology builtin e) = (chunks, None) ->
  let c' := state_after (process_audio_stream audio_data context consumer) c in
  calls (c_env c')
  = calls (c_env c)
    ++ [STT audio_data; LLM transcript (session_id (c_session c)) context;
        TTS (apology builtin e)]
  /\ emitted (c_env c') = emitted (c_env c) ++ chunks
  /\ llm_calls (metrics (c_session c')) = llm_calls (metrics (c_session c)) + 1
  /\ tts_calls (metrics (c_session c')) = tts_calls (metrics (c_session c)) + 1.
Proof.
  intros Hm Hh Hstt Hb Hag Htts.
  destruct c as [s v p [[rd tk] u n cs em]]. simpl in *.
  unfold blank in Hb. unfold state_after.
  run_monad. rewrite Hstt. run_monad. rewrite Hb. run_monad.
  simpl session_id. rewrite Hh. unfold _handle_llm. rewrite Hag. run_monad.
  change (response_text (RespDict (Some (apology builtin e)))) with (apology builtin e).
  rewrite Htts. rewrite for_each_yield. run_monad.
  match goal with |- context [if ?b then _ else _] => destruct b end.
  all: simpl; rewrite <- !app_assoc; simpl.
  all: rewrite ?(fold_consumer_preserves metrics) by exact Hm.
  all: repeat split.
Qed.

Lemma agent_error_is_spoken_witness :
  let c := mkCtx alice_session VAD.default
                 (Pipeline.init (_handle_llm (fun _ => EmptyString) (Some Examples.llm))
                                Examples.stt Examples.tts)
                 Examples.env0 in
  let c' := state_after (process_audio_stream [x00; x01] None (set_state SPEAKING)) c in
  calls (c_env c')
  = [STT [x00; x01]; LLM "boom" alice None;
     TTS "I apologize, but I encountered an error: agent down"]
  /\ emitted (c_env c') = [[x01; x02]; [x03; x04]].
Proof.
  intros c.
  destruct (agent_error_is_spoken (fun _ => EmptyString) c (set_state SPEAKING) Examples.llm
              [x00; x01] None "boom" (Exception "agent down") [[x01; x02]; [x03; x04]]
              (fun s => eq_refl) eq_refl eq_refl eq_refl eq_refl eq_refl)
    as (H1 & H2 & _).
  split; [exact H1 | exact H2].
Defined.

Lemma rstrip_nonspace (ch : ascii) (r : string) :
  isspace ch = false -> truthy (rstrip (String ch r)) = true.
Proof.
  intros H. simpl. destruct (rstrip r); [rewrite H|]; reflexivity.
Qed.

Lemma error_text_not_blank builtin (model : option WhisperModel) (audio_bytes : bytes) :
  model_fails model audio_bytes = true ->
  blank (transcribe builtin model audio_bytes) = false.
Proof.
  unfold model_fails, transcribe, blank, strip. intros H.
  destruct model as [m|].
  - destruct (m audio_bytes) as [text|e]; [discriminate|].
    change ("Error: " +:+ exn_str builtin e)
      with (String "E" ("rror: " +:+ exn_str builtin e)).
    cbn [lstrip truthy negb orb].
    replace (isspace "E") with false by reflexivity.
    rewrite rstrip_nonspace by reflexivity. reflexivity.
  - reflexivity.
Qed.

(** With the default transcriber a failure of Whisper is not an error of
    the STT stage: when the model is missing, or fails on the audio, the
    text of the failure is taken for what the user said, and the LLM is
    asked to answer it. *)
Theorem whisper_failure_reaches_llm builtin c consumer (model : option WhisperModel)
    (audio_data : bytes) (context : option Context) :
  stt_handler (c_pipeline c) = _default_stt builtin model ->
  model_fails model audio_data = true ->
  let c' := state_after (process_audio_stream audio_data context consumer) c in
  let heard := transcribe builtin model audio_data in
  (model = None -> heard = "Error: Whisper model not loaded"%string)
  /\ exists rest,
       calls (c_env c')
       = calls (c_env c)
         ++ STT audio_data :: LLM heard (session_id (c_session c)) context :: rest.
Proof.
  intros Hh Hf c' heard. split; [intros ->; reflexivity|].
  pose proof (error_text_not_blank builtin model audio_data Hf) as Hb.
  assert (Hstt : stt_handler (c_pipeline c) audio_data = Ok heard)
    by (rewrite Hh; reflexivity).
  fold heard in Hb. unfold c'. clearbody heard. clear c' Hh Hf.
  destruct c as [s v p [[rd tk] u n cs em]]. simpl in *.
  unfold blank in Hb. unfold state_after.
  run_monad. rewrite Hstt. run_monad. rewrite Hb. run_monad.
  simpl session_id.
  destruct (llm_handler p heard (session_id s) context) as [resp|e2].
  2: { simpl. exists []. rewrite <- !app_assoc. reflexivity. }
  run_monad.
  destruct (tts_handler p (response_text resp)) as [chunks final].
  rewrite for_each_yield. run_monad.
  destruct final as [e3|].
  { simpl. eexists. rewrite <- !app_assoc. reflexivity. }
  run_monad.
  match goal with |- context [if ?b then _ else _] => destruct b end.
  all: simpl; eexists; rewrite <- !app_assoc; reflexivity.
Qed.

Lemma whisper_failure_reaches_llm_witness :
  let c := mkCtx alice_session VAD.default
                 (Pipeline.init Examples.llm (_default_stt (fun _ => EmptyString) None)
                                Examples.tts)
                 Examples.env0 in
  exists rest,
    calls (c_env (state_after (process_audio_stream [x01; x02] None (set_state SPEAKING)) c))
    = STT [x01; x02] :: LLM "Error: Whisper model not loaded" alice None :: rest.
Proof.
  intros c.
  exact (proj2 (whisper_failure_reaches_llm (fun _ => EmptyString) c (set_state SPEAKING)
                  None [x01; x02] None eq_refl eq_refl)).
Defined.

(** *** The placeholder synthesizer *)

Lemma length_random_bytes (draws : nat -> nat) (n : nat) :
  forall k, length (random_bytes draws k n) = n.
Proof.
  induction n as [|n IH]; intros k; simpl; [reflexivity | rewrite IH; reflexivity].
Qed.

Lemma random_bytes_placeholder (draws : nat -> nat) (n : nat) :
  forall k, Forall placeholder (random_bytes draws k n).
Proof.
  induction n as [|n IH]; intros k; simpl; constructor; [|apply IH].
  assert (H : randint draws 127 129 k = 127 \/ randint draws 127 129 k = 128
              \/ randint draws 127 129 k = 129).
  { unfold randint.
    pose proof (Z.mod_pos_bound (Z.of_nat (draws k)) (129 - 127 + 1) ltac:(lia)). lia. }
  unfold placeholder.
  destruct H as [-> | [-> | ->]]; vm_compute; split; discriminate.
Qed.

Lemma tts_chunks_placeholder (draws : nat -> nat) (n : Z) (offsets : list Z) :
  forall k, Forall (Forall placeholder) (tts_chunks draws k n offsets).
Proof.
  induction offsets as [|i rest IH]; intros k; simpl; constructor;
    [apply random_bytes_placeholder | apply IH].
Qed.

(** The loop over the offsets [a * 4096, ..., (a + m - 1) * 4096], the last
    of which is the last one below [n]. *)
Lemma tts_chunks_sizes (draws : nat -> nat) (n : Z) (m : nat) :
  forall (a k : nat),
  (1 <= m)%nat ->
  (Z.of_nat a + Z.of_nat m - 1) * 4096 < n <= (Z.of_nat a + Z.of_nat m) * 4096 ->
  let chunks :=
    tts_chunks draws k n (map (fun j => Z.of_nat j * 4096) (seq a m)) in
  Forall (fun ch => 0 < len ch <= 4096) chunks
  /\ (forall i ch, chunks !! i = Some ch -> (S i < length chunks)%nat -> len ch = 4096)
  /\ len (concat chunks) = n - Z.of_nat a * 4096.
Proof.
  induction m as [|m IH]; intros a k Hm Hn; [lia|].
  destruct m as [|m].
  - simpl. unfold len. rewrite app_nil_r, !length_random_bytes.
    split; [|split].
    + constructor; [rewrite length_random_bytes; lia | constructor].
    + intros i ch _ Hi. simpl in Hi. lia.
    + lia.
  - specialize (IH (S a) (k + Z.to_nat (Z.min 4096 (n - Z.of_nat a * 4096)))%nat
                   ltac:(lia) ltac:(lia)).
    change (seq a (S (S m))) with (a :: seq (S a) (S m)).
    cbn [map tts_chunks]. cbv zeta in IH |- *.
    set (rest := tts_chunks draws _ n (map _ (seq (S a) (S m)))) in IH |- *.
    destruct IH as (IH1 & IH2 & IH3).
    assert (Hfull : len (random_bytes draws k
                           (Z.to_nat (Z.min 4096 (n - Z.of_nat a * 4096)))) = 4096).
    { unfold len. rewrite length_random_bytes. lia. }
    split; [|split].
    + constructor; [lia | exact IH1].
    + intros [|i] ch Hl Hi.
      * simpl in Hl. injection Hl as <-. exact Hfull.
      * change (rest !! i = Some ch) in Hl. apply (IH2 i ch Hl).
        change (S (S i) < S (length rest))%nat in Hi. lia.
    + unfold len in *. rewrite concat_cons, length_app. lia.
Qed.

(** Whatever the text and the random draws, the placeholder synthesizer
    ends without raising; it yields [num_samples] bytes in all, each of
    value 127, 128 or 129, in chunks that are full, 4096 bytes, except the
    last, which is not empty. *)
Theorem default_tts_chunks (draws : nat -> nat) (text : string) :
  let chunks := fst (_default_tts draws text) in
  snd (_default_tts draws text) = None
  /\ Forall (fun ch => 0 < len ch <= 4096) chunks
  /\ (forall i ch, chunks !! i = Some ch -> (S i < length chunks)%nat -> len ch = 4096)
  /\ Forall (Forall placeholder) chunks
  /\ (forall n, num_samples text = Ok n -> len (concat chunks) = Z.max 0 n).
Proof.
  unfold _default_tts. destruct (num_samples text) as [n|e]; cbn [fst snd].
  2: { split; [reflexivity|]. split; [constructor|]. split; [|split].
       - intros i ch H. rewrite lookup_nil in H. discriminate.
       - constructor.
       - discriminate. }
  split; [reflexivity|].
  unfold range_step.
  destruct (Z_le_gt_dec n 0) as [Hle|Hgt].
  - assert (Hq : Z.to_nat ((n + 4096 - 1) / 4096) = 0%nat).
    { assert ((n + 4096 - 1) / 4096 <= 0); [|lia].
      apply Z.lt_succ_r. apply Z.div_lt_upper_bound; lia. }
    rewrite Hq. simpl.
    split; [constructor|]. split; [|split].
    + intros i ch H. rewrite lookup_nil in H. discriminate.
    + constructor.
    + intros n0 H. injection H as <-. unfold len. simpl. lia.
  - pose proof (Z.div_mod (n + 4096 - 1) 4096 ltac:(lia)) as Hdm.
    pose proof (Z.mod_pos_bound (n + 4096 - 1) 4096 ltac:(lia)) as Hmb.
    set (q := (n + 4096 - 1) / 4096) in *.
    assert (Hq : 1 <= q) by lia.
    destruct (tts_chunks_sizes draws n (Z.to_nat q) 0 0 ltac:(lia) ltac:(lia))
      as (H1 & H2 & H3).
    split; [exact H1|]. split; [exact H2|].
    split; [apply tts_chunks_placeholder|].
    intros n0 H. injection H as <-. rewrite H3. lia.
Qed.

End Handlers.
